(** * Malxplain: the analysis-to-verdict pipeline, embedded and verified

    A shallow embedding of the Python modules [static_analysis],
    [dynamic_analysis], [feature_engineering], [ml_models] and
    [prediction_engine], followed by the properties proved about them.

    Conventions of the embedding.
    - A Python [dict] whose keys are tested with [in] or read with [.get]
      is a record of [option] fields (a field is [None] when the key is
      absent), or an insertion-ordered association list when the keys are
      computed ([PyDict]).
    - A Python [float] is the real number it denotes. Where the code
      computes with floats, each operation is the rounding ([round64]) of
      its exact value; the rounding, [math.log2] and the builtin [int] are
      the interpreter's and the C library's, and come as a [Runtime].
    - A Python [int] is an integer ([Z]), a length is a natural number.
    - A Python [str] is a [string]; [bytes] is a list of bytes.
    - Code that can raise returns a [PyResult]; [try]/[except] is [catch]. *)

From Stdlib Require Import Reals Lra Lia ZArith List String Ascii.
From Stdlib Require Import DecimalString HexString.
From Stdlib Require Import Strings.Byte.
From stdpp Require Import gmap strings list.

Local Open Scope string_scope.

(** ** Exceptions *)

Inductive ExcClass :=
| PEFormatError | FileNotFoundError | PermissionError | ValueError
| NotFittedError | IndexError | KeyError | OtherException.

Record PyExc := mkExc { exc_class : ExcClass; exc_str : string }.

Inductive PyResult (A : Type) :=
| Ok (a : A)
| Raise (e : PyExc).
Arguments Ok {A} a.
Arguments Raise {A} e.

Definition py_bind {A B} (c : PyResult A) (k : A -> PyResult B) : PyResult B :=
  match c with
  | Ok a => k a
  | Raise e => Raise e
  end.

(** [try: c  except Exception as e: h e] *)
Definition catch {A} (c : PyResult A) (h : PyExc -> A) : A :=
  match c with
  | Ok a => a
  | Raise e => h e
  end.

Notation "'let*' x ':=' c 'in' k" := (py_bind c (fun x => k))
  (at level 10, x name, c at level 200, k at level 200).

(** A loop whose body can raise. *)
Fixpoint py_fold {A S : Type} (body : S -> A -> PyResult S) (l : list A) (s : S)
  : PyResult S :=
  match l with
  | [] => Ok s
  | x :: rest => let* s' := body s x in py_fold body rest s'
  end.

(** ** Bytes, strings and the file system *)

Definition bytes := list byte.

#[global] Instance byte_eq_dec : EqDecision byte.
Proof.
  intros x y. destruct (Byte.eqb x y) eqn:E.
  - left. apply Byte.byte_dec_bl, E.
  - right. apply Byte.eqb_false, E.
Defined.

Record File := mkFile { f_readable : bool; f_writable : bool; f_data : bytes }.

(** [os.path.exists] *)
Definition path_exists (fs : gmap string File) (filepath : string) : bool :=
  bool_decide (is_Some (fs !! filepath)).

(** [os.path.getsize] (and [os.stat(..).st_size]) *)
Definition path_getsize (fs : gmap string File) (filepath : string) : PyResult nat :=
  match fs !! filepath with
  | Some f => Ok (length (f_data f))
  | None => Raise (mkExc FileNotFoundError "No such file or directory")
  end.

(** [with open(filepath, 'rb') as f: data = f.read()] *)
Definition read_bytes (fs : gmap string File) (filepath : string) : PyResult bytes :=
  match fs !! filepath with
  | Some f => if f_readable f then Ok (f_data f)
              else Raise (mkExc PermissionError "Permission denied")
  | None => Raise (mkExc FileNotFoundError "No such file or directory")
  end.

(** [with open(path, 'w') as f: f.write(data)] *)
Definition write_bytes (fs : gmap string File) (path : string) (data : bytes)
  : PyResult (gmap string File) :=
  match fs !! path with
  | Some f => if f_writable f then Ok (<[path := mkFile (f_readable f) true data]> fs)
              else Raise (mkExc PermissionError "Permission denied")
  | None => Ok (<[path := mkFile true true data]> fs)
  end.

(** [x > y] on floats *)
Definition float_gt (x y : R) : bool := if Rgt_dec x y then true else false.

(** [needle in haystack] on strings *)
Fixpoint str_contains (needle haystack : string) : bool :=
  String.prefix needle haystack ||
  match haystack with
  | EmptyString => false
  | String _ rest => str_contains needle rest
  end.

(** [x or y] on strings: [y] when [x] is [None] or empty *)
Definition str_or (x : option string) (y : string) : string :=
  match x with
  | Some (String c s) => String c s
  | _ => y
  end.

(** [any(p(x) for x in l)] *)
Definition any {A} (p : A -> bool) (l : list A) : bool := existsb p l.

(** [str(n)] for an integer *)
Definition str_of_Z (n : Z) : string := NilZero.string_of_int (Z.to_int n).
Definition str_of_nat (n : nat) : string := str_of_Z (Z.of_nat n).

(** ** collections.Counter over bytes

    The counter is a dict from byte value to count, in order of first
    occurrence; [values] lists the counts in that order. *)

Fixpoint counter_incr (b : byte) (c : list (byte * nat)) : list (byte * nat) :=
  match c with
  | [] => [(b, 1)]
  | (b', n) :: c' =>
      if Byte.eqb b b' then (b', S n) :: c' else (b', n) :: counter_incr b c'
  end.

Definition Counter (data : bytes) : list (byte * nat) :=
  fold_left (fun c b => counter_incr b c) data [].

Definition log2 (x : R) : R := (ln x / ln 2)%R.

(** Number of occurrences of a byte value in a buffer, and the count a
    counter holds for a byte value (0 when the key is absent). *)
Definition occurrences (b : byte) (data : bytes) : nat :=
  length (List.filter (Byte.eqb b) data).

Fixpoint counter_get (b : byte) (c : list (byte * nat)) : nat :=
  match c with
  | [] => 0
  | (b', n) :: c' => if Byte.eqb b b' then n else counter_get b c'
  end.

(** One summand of the entropy, and the sum the loop computes. *)
Definition entropy_term (total count : nat) : R :=
  (- (INR count / INR total * log2 (INR count / INR total)))%R.

Definition entropy_sum (total : nat) (counts : list nat) : R :=
  foldr (fun count s => (entropy_term total count + s)%R) 0%R counts.

(** Every byte value, in increasing order. *)
Definition all_bytes : list byte := omap Byte.of_nat (seq 0 256).

(** ** String operations of the Python runtime *)

Definition chr_lower (c : ascii) : ascii :=
  let n := nat_of_ascii c in
  if (65 <=? n)%nat && (n <=? 90)%nat then ascii_of_nat (n + 32) else c.

(** [s.lower()], on the ASCII letters *)
Fixpoint str_lower (s : string) : string :=
  match s with
  | EmptyString => EmptyString
  | String c rest => String (chr_lower c) (str_lower rest)
  end.

(** [s.endswith(suffix)] *)
Definition str_endswith (s suffix : string) : bool :=
  let n := String.length s in
  let m := String.length suffix in
  (m <=? n)%nat && String.eqb (String.substring (n - m) m s) suffix.

(** [s.rstrip('\x00')] *)
Fixpoint str_rstrip_nul (s : string) : string :=
  match s with
  | EmptyString => EmptyString
  | String c rest =>
      match str_rstrip_nul rest with
      | EmptyString => if Ascii.eqb c zero then EmptyString else String c EmptyString
      | rest' => String c rest'
      end
  end.

(** [os.path.basename]: what follows the last ['/'] *)
Fixpoint basename (path : string) : string :=
  match path with
  | EmptyString => EmptyString
  | String c rest =>
      if str_contains "/" rest then basename rest
      else if Ascii.eqb c "/" then rest else path
  end.

Definition hex_digit (c : ascii) : option Z :=
  let n := Z.of_nat (nat_of_ascii c) in
  if (48 <=? n)%Z && (n <=? 57)%Z then Some (n - 48)%Z
  else if (97 <=? n)%Z && (n <=? 102)%Z then Some (n - 87)%Z
  else if (65 <=? n)%Z && (n <=? 70)%Z then Some (n - 55)%Z
  else None.

Fixpoint hex_digits (s : string) (acc : Z) : option Z :=
  match s with
  | EmptyString => Some acc
  | String c rest =>
      match hex_digit c with
      | Some d => hex_digits rest (16 * acc + d)%Z
      | None => None
      end
  end.

(** The value of a hexadecimal literal as [hex] writes it: an optional
    minus sign, an optional [0x] prefix, then at least one hexadecimal
    digit; anything else is a [ValueError]. The builtin [int(s, 16)] agrees
    with it on these literals and accepts more (see [Runtime]). *)
Definition int_of_hex_literal (s : string) : PyResult Z :=
  let invalid := Raise (mkExc ValueError "invalid literal for int() with base 16") in
  let unsigned (t : string) : option Z :=
    let body := if String.prefix "0x" t || String.prefix "0X" t
                then String.substring 2 (String.length t - 2) t else t in
    match body with
    | EmptyString => None
    | _ => hex_digits body 0%Z
    end in
  match s with
  | String "-" t => match unsigned t with Some n => Ok (- n)%Z | None => invalid end
  | _ => match unsigned s with Some n => Ok n | None => invalid end
  end.

(** [hex(n)] *)
Definition hex (n : Z) : string := HexString.of_Z n.

(** ** The Python runtime

    What the interpreter and the C library compute below the repository's
    code, taken as it is. [int_base16 s] is the builtin [int(s, 16)]: besides
    the literals of [hex] it accepts a plus sign, surrounding white space,
    underscores between digits and non-ASCII decimal digits. [round64 x] is
    the binary64 number nearest to [x]: the result of an operation on floats
    is the rounding of its exact value. [math_log2] is [math.log2], the C
    library's logarithm on binary64 numbers. *)
Class Runtime := {
  int_base16 : string -> PyResult Z;
  round64 : R -> R;
  math_log2 : R -> R }.

Definition str_of_bytes (bs : bytes) : string := string_of_list_byte bs.

(** UTF-8 well-formedness (Unicode table 3-7); a Python [str] is kept as
    its UTF-8 bytes, so decoding a well-formed buffer is the identity. *)
Definition in_range (lo hi : nat) (b : byte) : bool :=
  (lo <=? Byte.to_nat b)%nat && (Byte.to_nat b <=? hi)%nat.

Fixpoint utf8_valid_from (bs : bytes) (pending : list (nat * nat)) : bool :=
  match bs with
  | [] => match pending with [] => true | _ => false end
  | b :: rest =>
      match pending with
      | (lo, hi) :: more => in_range lo hi b && utf8_valid_from rest more
      | [] =>
          if in_range 0 127 b then utf8_valid_from rest []
          else if in_range 194 223 b then utf8_valid_from rest [(128, 191)]
          else if in_range 224 224 b then utf8_valid_from rest [(160, 191); (128, 191)]
          else if in_range 225 236 b then utf8_valid_from rest [(128, 191); (128, 191)]
          else if in_range 237 237 b then utf8_valid_from rest [(128, 159); (128, 191)]
          else if in_range 238 239 b then utf8_valid_from rest [(128, 191); (128, 191)]
          else if in_range 240 240 b
               then utf8_valid_from rest [(144, 191); (128, 191); (128, 191)]
          else if in_range 241 243 b
               then utf8_valid_from rest [(128, 191); (128, 191); (128, 191)]
          else if in_range 244 244 b
               then utf8_valid_from rest [(128, 143); (128, 191); (128, 191)]
          else false
      end
  end.

(** [bs.decode('utf-8')] *)
Definition decode_utf8 (bs : bytes) : PyResult string :=
  if utf8_valid_from bs [] then Ok (str_of_bytes bs)
  else Raise (mkExc ValueError "'utf-8' codec can't decode bytes").

(** ** Python dicts with computed keys: insertion-ordered association lists *)

Definition PyDict (V : Type) := list (string * V).

Fixpoint dict_get {V} (k : string) (d : PyDict V) : option V :=
  match d with
  | [] => None
  | (k', v) :: d' => if String.eqb k k' then Some v else dict_get k d'
  end.

(** [d[k] = v]: an existing key keeps its position, a new key goes last *)
Fixpoint dict_set {V} (k : string) (v : V) (d : PyDict V) : PyDict V :=
  match d with
  | [] => [(k, v)]
  | (k', v') :: d' =>
      if String.eqb k k' then (k', v) :: d' else (k', v') :: dict_set k v d'
  end.

(** [d.update(other)] *)
Definition dict_update {V} (d other : PyDict V) : PyDict V :=
  fold_left (fun acc kv => dict_set (fst kv) (snd kv) acc) other d.

Definition dict_keys {V} (d : PyDict V) : list string := map fst d.
Definition dict_values {V} (d : PyDict V) : list V := map snd d.

(** ** static_analysis.py *)

Module StaticAnalyzer.

(** The [pefile.PE] object, as far as the analyzer reads it. [pefile]
    raises [PEFormatError] itself when a header is missing, so a parsed
    object has both headers; the attributes tested with [hasattr] are
    options. *)
Record FILE_HEADER_t := {
  Machine : Z; TimeDateStamp : Z; NumberOfSections : Z;
  SizeOfOptionalHeader : Z; Characteristics : Z }.

Record OPTIONAL_HEADER_t := {
  AddressOfEntryPoint : Z; ImageBase : Z; SectionAlignment : Z;
  FileAlignment : Z; Subsystem : Z }.

Record SectionStructure := { Name : bytes }.

Record ImportData := { imp_name : option bytes }.

Record ImportDescData := { dll : bytes; imports : list ImportData }.

Record StringTable_t := { entries : list (bytes * bytes) }.

Record VersionInfoEntry := { StringTable : option (list StringTable_t) }.

Record PE := {
  FILE_HEADER : FILE_HEADER_t;
  OPTIONAL_HEADER : OPTIONAL_HEADER_t;
  sections : list SectionStructure;
  DIRECTORY_ENTRY_IMPORT : option (list ImportDescData);
  VS_VERSIONINFO : option (list VersionInfoEntry) }.

(** The dicts the analyzer returns; a field is [None] when the key is
    absent. *)
Record FileInfo := {
  fi_filename : option string; fi_size : option Z;
  fi_md5 : option string; fi_sha1 : option string; fi_sha256 : option string }.

Record StringsInfo := {
  si_total_strings : option Z;
  si_strings : option (list string);
  si_suspicious_strings : option (list string) }.

Record PEHeaders := {
  ph_machine : option string; ph_timestamp : option Z;
  ph_number_of_sections : option Z; ph_size_of_optional_header : option Z;
  ph_characteristics : option string; ph_entry_point : option string;
  ph_image_base : option string; ph_section_alignment : option Z;
  ph_file_alignment : option Z; ph_subsystem : option Z }.

Record Indicators := {
  ind_packed : option bool;
  ind_unusual_sections : option (list string);
  ind_suspicious_imports : option (list string);
  ind_high_entropy : option bool;
  ind_suspicious_strings_found : option bool;
  ind_large_file : option bool;
  ind_analysis_type : option string;
  ind_suspicious_extension : option bool }.

Record StaticResult := {
  sr_error : option string;
  sr_file_info : option FileInfo;
  sr_strings : option StringsInfo;
  sr_entropy : option R;
  sr_pe_headers : option PEHeaders;
  sr_imports : option (PyDict (list string));
  sr_metadata : option (PyDict string);
  sr_suspicious_indicators : option Indicators;
  sr_analysis_note : option string }.

(** [{}] *)
Definition empty_headers : PEHeaders :=
  {| ph_machine := None; ph_timestamp := None; ph_number_of_sections := None;
     ph_size_of_optional_header := None; ph_characteristics := None;
     ph_entry_point := None; ph_image_base := None;
     ph_section_alignment := None; ph_file_alignment := None;
     ph_subsystem := None |}.

(** [{'error': msg}] *)
Definition error_result (msg : string) : StaticResult :=
  {| sr_error := Some msg; sr_file_info := None; sr_strings := None;
     sr_entropy := None; sr_pe_headers := None; sr_imports := None;
     sr_metadata := None; sr_suspicious_indicators := None;
     sr_analysis_note := None |}.

(** [self.suspicious_strings] *)
Definition suspicious_strings : list string :=
  [ "CreateProcess"; "WriteProcessMemory"; "VirtualAlloc"; "GetProcAddress";
    "LoadLibrary"; "RegCreateKey"; "RegSetValue"; "InternetOpen";
    "HttpSendRequest"; "CreateFile"; "WriteFile"; "DeleteFile";
    "CreateService"; "StartService"; "cmd.exe"; "powershell";
    "whoami"; "net user"; "taskkill"; "schtasks" ].

(** [[ -~]]: the printable ASCII bytes *)
Definition printable (b : byte) : bool := in_range 32 126 b.

Definition flush_run (run : bytes) : list bytes :=
  if (4 <=? length run)%nat then [rev run] else [].

(** [re.findall(b'[ -~]{4,}', data)]: the maximal runs of at least four
    printable bytes, left to right; [run] is the current run, reversed. *)
Fixpoint findall_ascii (data : bytes) (run : bytes) : list bytes :=
  match data with
  | [] => flush_run run
  | b :: rest =>
      if printable b then findall_ascii rest (b :: run)
      else (flush_run run ++ findall_ascii rest [])%list
  end.

(** The characters of the longest prefix of [data] made of pairs
    (printable byte, NUL). *)
Fixpoint wide_pairs (data : bytes) : bytes :=
  match data with
  | c :: z :: rest =>
      if printable c && Byte.eqb z x00 then c :: wide_pairs rest else []
  | _ => []
  end.

(** [re.findall(b'(?:[ -~]\x00){4,}', data)], each match already decoded
    from UTF-16LE: leftmost, greedy, non-overlapping. [skip] counts the
    bytes of the last match still to be passed over. *)
Fixpoint findall_wide (data : bytes) (skip : nat) : list bytes :=
  match data with
  | [] => []
  | _ :: rest =>
      match skip with
      | S k => findall_wide rest k
      | O =>
          let cs := wide_pairs data in
          if (4 <=? length cs)%nat
          then cs :: findall_wide rest (2 * length cs - 1)
          else findall_wide rest 0
      end
  end.

Definition _extract_pe_headers (pe : PE) : PEHeaders :=
  {| ph_machine := Some (hex (Machine (FILE_HEADER pe)));
     ph_timestamp := Some (TimeDateStamp (FILE_HEADER pe));
     ph_number_of_sections := Some (NumberOfSections (FILE_HEADER pe));
     ph_size_of_optional_header := Some (SizeOfOptionalHeader (FILE_HEADER pe));
     ph_characteristics := Some (hex (Characteristics (FILE_HEADER pe)));
     ph_entry_point := Some (hex (AddressOfEntryPoint (OPTIONAL_HEADER pe)));
     ph_image_base := Some (hex (ImageBase (OPTIONAL_HEADER pe)));
     ph_section_alignment := Some (SectionAlignment (OPTIONAL_HEADER pe));
     ph_file_alignment := Some (FileAlignment (OPTIONAL_HEADER pe));
     ph_subsystem := Some (Subsystem (OPTIONAL_HEADER pe)) |}.

(** [if imp.name:] holds for a name that is present and not empty. *)
Definition truthy_name (imp : ImportData) : option bytes :=
  match imp_name imp with
  | Some (b :: bs) => Some (b :: bs)
  | _ => None
  end.

Definition _extract_imports (pe : PE) : PyResult (PyDict (list string)) :=
  match DIRECTORY_ENTRY_IMPORT pe with
  | Some import_entries =>
      py_fold
        (fun imports_ entry =>
           let* dll_name := decode_utf8 (dll entry) in
           let* functions :=
             py_fold
               (fun functions imp =>
                  match truthy_name imp with
                  | Some name =>
                      let* f := decode_utf8 name in Ok (functions ++ [f])%list
                  | None => Ok functions
                  end)
               (imports entry) [] in
           Ok (dict_set dll_name functions imports_))
        import_entries []
  | None => Ok []
  end.

Definition _extract_metadata (pe : PE) : PyResult (PyDict string) :=
  match VS_VERSIONINFO pe with
  | Some version_entries =>
      py_fold
        (fun metadata entry =>
           match StringTable entry with
           | Some tables =>
               py_fold
                 (fun metadata st =>
                    py_fold
                      (fun metadata kv =>
                         let* key := decode_utf8 (fst kv) in
                         let* value := decode_utf8 (snd kv) in
                         Ok (dict_set key value metadata))
                      (entries st) metadata)
                 tables metadata
           | None => Ok metadata
           end)
        version_entries []
  | None => Ok []
  end.

Fixpoint check_if_packed_loop (secs : list SectionStructure) : PyResult bool :=
  let suspicious_sections := [".UPX"; ".packed"; ".compressed"; "UPX0"; "UPX1"] in
  match secs with
  | [] => Ok false
  | section :: rest =>
      let* decoded := decode_utf8 (Name section) in
      let section_name := str_rstrip_nul decoded in
      if any (fun sus => str_contains sus section_name) suspicious_sections
      then Ok true
      else check_if_packed_loop rest
  end.

Definition _check_if_packed (pe : PE) : PyResult bool :=
  check_if_packed_loop (sections pe).

Definition _check_unusual_sections (pe : PE) : PyResult (list string) :=
  let common_sections := [".text"; ".data"; ".rdata"; ".bss"; ".rsrc"; ".reloc"] in
  py_fold
    (fun unusual section =>
       let* decoded := decode_utf8 (Name section) in
       let section_name := str_rstrip_nul decoded in
       if negb (existsb (String.eqb section_name) common_sections)
       then Ok (unusual ++ [section_name])%list
       else Ok unusual)
    (sections pe) [].

Definition suspicious_apis : list string :=
  [ "CreateProcess"; "WriteProcessMemory"; "VirtualAlloc"; "GetProcAddress";
    "SetWindowsHookEx"; "CreateRemoteThread"; "OpenProcess"; "RegCreateKey" ].

Definition _check_suspicious_imports (pe : PE) : PyResult (list string) :=
  match DIRECTORY_ENTRY_IMPORT pe with
  | Some import_entries =>
      py_fold
        (fun found_suspicious entry =>
           py_fold
             (fun found_suspicious imp =>
                match truthy_name imp with
                | Some name =>
                    let* api_name := decode_utf8 name in
                    if any (fun sus => str_contains sus api_name) suspicious_apis
                    then Ok (found_suspicious ++ [api_name])%list
                    else Ok found_suspicious
                | None => Ok found_suspicious
                end)
             (imports entry) found_suspicious)
        import_entries []
  | None => Ok []
  end.

Section OnRuntime.
Context {rt : Runtime}.

(** The body of [_calculate_entropy] once the file has been read: the
    division, the product and the subtraction are float operations, each
    rounded. *)
Definition entropy_of_data (data : bytes) : R :=
  if Nat.eqb (length data) 0 then 0%R
  else
    let byte_counts := Counter data in
    fold_left
      (fun entropy count =>
         let probability := round64 (INR count / INR (length data)) in
         round64 (entropy - round64 (probability * math_log2 probability)))
      (map snd byte_counts) 0%R.

Definition _calculate_entropy (fs : gmap string File) (filepath : string)
  : PyResult R :=
  let* data := read_bytes fs filepath in
  Ok (entropy_of_data data).

Definition _extract_strings (fs : gmap string File) (filepath : string)
  : PyResult StringsInfo :=
  let* data := read_bytes fs filepath in
  let ascii_strings := findall_ascii data [] in
  let strings_found := map str_of_bytes (take 100 ascii_strings) in
  let unicode_strings := findall_wide data 0 in
  let strings_found :=
    (strings_found ++ map str_of_bytes (take 100 unicode_strings))%list in
  Ok {| si_total_strings := Some (Z.of_nat (length strings_found));
        si_strings := Some strings_found;
        si_suspicious_strings :=
          Some (List.filter
                  (fun s => any (fun sus => str_contains sus s) suspicious_strings)
                  strings_found) |}.

Definition _check_suspicious_indicators
  (fs : gmap string File) (pe : PE) (filepath : string) : PyResult Indicators :=
  let* packed := _check_if_packed pe in
  let* unusual := _check_unusual_sections pe in
  let* sus_imports := _check_suspicious_imports pe in
  let* entropy := _calculate_entropy fs filepath in
  Ok {| ind_packed := Some packed;
        ind_unusual_sections := Some unusual;
        ind_suspicious_imports := Some sus_imports;
        ind_high_entropy := Some (float_gt entropy 7);
        ind_suspicious_strings_found := None;
        ind_large_file := None;
        ind_analysis_type := None;
        ind_suspicious_extension := None |}.

Definition _check_basic_suspicious_indicators
  (fs : gmap string File) (filepath : string) (strings_info : StringsInfo)
  (entropy : R) : PyResult Indicators :=
  let* size := path_getsize fs filepath in
  let filename := str_lower (basename filepath) in
  let suspicious_extensions :=
    [".scr"; ".pif"; ".com"; ".bat"; ".cmd"; ".vbs"; ".js"] in
  Ok {| ind_packed := Some false;
        ind_unusual_sections := Some [];
        ind_suspicious_imports := Some [];
        ind_high_entropy := Some (float_gt entropy 7);
        ind_suspicious_strings_found :=
          Some (0 <? length (default [] (si_suspicious_strings strings_info)))%nat;
        ind_large_file := Some (10 * 1024 * 1024 <? Z.of_nat size)%Z;
        ind_analysis_type := Some "basic";
        ind_suspicious_extension :=
          if any (fun ext => str_endswith filename ext) suspicious_extensions
          then Some true else None |}.

Section ExternalLibraries.

(** [hashlib.md5(data).hexdigest()] and its siblings, the parser of
    [pefile.PE], and [json.dump] of a result: libraries outside the
    repository, taken as they are. *)
Variable md5_hexdigest sha1_hexdigest sha256_hexdigest : bytes -> string.
Variable pefile_parse : bytes -> PyResult PE.
Variable json_dump : StaticResult -> PyResult bytes.

Definition _get_file_info (fs : gmap string File) (filepath : string)
  : PyResult FileInfo :=
  let* st_size := path_getsize fs filepath in
  let* data := read_bytes fs filepath in
  Ok {| fi_filename := Some (basename filepath);
        fi_size := Some (Z.of_nat st_size);
        fi_md5 := Some (md5_hexdigest data);
        fi_sha1 := Some (sha1_hexdigest data);
        fi_sha256 := Some (sha256_hexdigest data) |}.

(** [pefile.PE(filepath)] *)
Definition pefile_PE (fs : gmap string File) (filepath : string) : PyResult PE :=
  let* data := read_bytes fs filepath in
  pefile_parse data.

(** The [try] around [pefile.PE]: the object, or the reason it is missing. *)
Definition try_parse_pe (fs : gmap string File) (filepath : string)
  : option PE * option string :=
  match pefile_PE fs filepath with
  | Ok pe => (Some pe, None)
  | Raise e =>
      match exc_class e with
      | PEFormatError => (None, Some "الملف ليس من نوع PE (Windows Executable)")
      | _ => (None, Some ("خطأ في قراءة الملف: " ++ exc_str e))
      end
  end.

Definition analyze_file (fs : gmap string File) (filepath : string)
  : StaticResult * gmap string File :=
  catch
    (if negb (path_exists fs filepath)
     then Ok (error_result "الملف غير موجود", fs)
     else
       let* size := path_getsize fs filepath in
       if Nat.eqb size 0 then Ok (error_result "الملف فارغ", fs)
       else
         let* file_info := _get_file_info fs filepath in
         let* strings_info := _extract_strings fs filepath in
         let* entropy := _calculate_entropy fs filepath in
         let '(pe, pe_analysis_error) := try_parse_pe fs filepath in
         let* analysis_result :=
           match pe with
           | Some pe =>
               let pe_headers := _extract_pe_headers pe in
               let* imports_ := _extract_imports pe in
               let* metadata := _extract_metadata pe in
               let* indicators := _check_suspicious_indicators fs pe filepath in
               Ok {| sr_error := None;
                     sr_file_info := Some file_info;
                     sr_strings := Some strings_info;
                     sr_entropy := Some entropy;
                     sr_pe_headers := Some pe_headers;
                     sr_imports := Some imports_;
                     sr_metadata := Some metadata;
                     sr_suspicious_indicators := Some indicators;
                     sr_analysis_note := None |}
           | None =>
               let* indicators :=
                 _check_basic_suspicious_indicators
                   fs filepath strings_info entropy in
               Ok {| sr_error := None;
                     sr_file_info := Some file_info;
                     sr_strings := Some strings_info;
                     sr_entropy := Some entropy;
                     sr_pe_headers := Some empty_headers;
                     sr_imports := Some [];
                     sr_metadata := Some [];
                     sr_suspicious_indicators := Some indicators;
                     sr_analysis_note :=
                       Some (str_or pe_analysis_error "تم إجراء تحليل أساسي فقط") |}
           end in
         let fs' :=
           catch
             (let output_path := filepath ++ "_static_analysis.json" in
              let* text := json_dump analysis_result in
              write_bytes fs output_path text)
             (fun _ => fs) in
         Ok (analysis_result, fs'))
    (fun e => (error_result ("فشل تحليل الملف: " ++ exc_str e), fs)).

End ExternalLibraries.

End OnRuntime.

End StaticAnalyzer.

(** ** dynamic_analysis.py *)

Module DynamicAnalyzer.

Record TcpConnection := {
  tcp_destination : option string; tcp_port : option Z;
  tcp_protocol : option string }.

Record HttpRequest := { req_url : option string; req_method : option string }.

Record NetworkActivity := {
  tcp_connections : option (list TcpConnection);
  dns_requests : option (list string);
  http_requests : option (list HttpRequest) }.

Record RegistryValue := {
  rv_key : option string; rv_value : option string; rv_data : option string }.

Record RegistryChanges := {
  keys_created : option (list string);
  values_set : option (list RegistryValue);
  keys_deleted : option (list string) }.

Record FileOperations := {
  files_created : option (list string);
  files_deleted : option (list string);
  files_modified : option (list string) }.

Record ProcessInfo := {
  proc_name : option string; proc_command_line : option string }.

Record ProcessCreation := {
  processes_created : option (list ProcessInfo);
  dlls_loaded : option (list string) }.

Record Behavior := {
  network_activity : option NetworkActivity;
  registry_changes : option RegistryChanges;
  file_operations : option FileOperations;
  process_creation : option ProcessCreation }.

Record DynamicResult := {
  dr_filename : option string;
  dr_analysis_timestamp : option string;
  dr_behavior : option Behavior;
  dr_behavior_score : option Z;
  dr_risk_level : option string;
  dr_error : option string }.

(** [len(l)] as a Python int *)
Definition len {A} (l : list A) : Z := Z.of_nat (length l).

Definition _mock_network_activity : NetworkActivity :=
  {| tcp_connections := Some
       [ {| tcp_destination := Some "192.168.1.100"; tcp_port := Some 80%Z;
            tcp_protocol := Some "TCP" |};
         {| tcp_destination := Some "8.8.8.8"; tcp_port := Some 53%Z;
            tcp_protocol := Some "UDP" |} ];
     dns_requests := Some ["google.com"; "microsoft.com"];
     http_requests := Some
       [ {| req_url := Some "http://example.com/update"; req_method := Some "GET" |};
         {| req_url := Some "http://malicious-site.com/payload";
            req_method := Some "POST" |} ] |}.

Definition _mock_registry_changes : RegistryChanges :=
  {| keys_created := Some
       [ "HKEY_CURRENT_USER\Software\MyApp";
         "HKEY_LOCAL_MACHINE\Software\Microsoft\Windows\CurrentVersion\Run\MyApp" ];
     values_set := Some
       [ {| rv_key := Some "HKEY_CURRENT_USER\Software\MyApp";
            rv_value := Some "AutoStart"; rv_data := Some "1" |};
         {| rv_key := Some
              "HKEY_LOCAL_MACHINE\Software\Microsoft\Windows\CurrentVersion\Run";
            rv_value := Some "Malware"; rv_data := Some "C:\temp\malware.exe" |} ];
     keys_deleted := Some [] |}.

Definition _mock_file_operations : FileOperations :=
  {| files_created := Some
       ["C:\temp\malware.exe"; "C:\Users\User\AppData\Roaming\config.dat"];
     files_deleted := Some ["C:\Users\User\Documents\important.doc"];
     files_modified := Some ["C:\Windows\System32\hosts"] |}.

Definition _mock_process_creation : ProcessCreation :=
  {| processes_created := Some
       [ {| proc_name := Some "cmd.exe";
            proc_command_line := Some "cmd.exe /c whoami" |};
         {| proc_name := Some "powershell.exe";
            proc_command_line := Some "powershell.exe -enc aGVsbG8=" |} ];
     dlls_loaded := Some ["kernel32.dll"; "ntdll.dll"; "advapi32.dll"] |}.

Definition score_network (net : NetworkActivity) (score : Z) : Z :=
  let score := (score + len (default [] (tcp_connections net)) * 2)%Z in
  let score := (score + len (default [] (http_requests net)) * 3)%Z in
  fold_left
    (fun score req =>
       if str_contains "malicious" (str_lower (default "" (req_url req)))
       then (score + 10)%Z else score)
    (default [] (http_requests net)) score.

Definition score_registry (reg : RegistryChanges) (score : Z) : Z :=
  let score := (score + len (default [] (keys_created reg)) * 1)%Z in
  let score := (score + len (default [] (values_set reg)) * 2)%Z in
  fold_left
    (fun score key => if str_contains "Run" key then (score + 15)%Z else score)
    (default [] (keys_created reg)) score.

Definition score_files (files : FileOperations) (score : Z) : Z :=
  let score := (score + len (default [] (files_created files)) * 1)%Z in
  let score := (score + len (default [] (files_deleted files)) * 3)%Z in
  (score + len (default [] (files_modified files)) * 2)%Z.

Definition score_processes (procs : ProcessCreation) (score : Z) : Z :=
  fold_left
    (fun score proc =>
       let score :=
         if str_contains "cmd.exe" (default "" (proc_name proc))
         then (score + 5)%Z else score in
       if str_contains "powershell" (default "" (proc_name proc))
       then (score + 7)%Z else score)
    (default [] (processes_created procs)) score.

(** [if key in behavior: ...] *)
Definition when_present {A} (section : option A) (body : A -> Z -> Z) (score : Z) : Z :=
  match section with
  | Some x => body x score
  | None => score
  end.

Definition _calculate_behavior_score (behavior : Behavior) : Z :=
  let score := 0%Z in
  let score := when_present (network_activity behavior) score_network score in
  let score := when_present (registry_changes behavior) score_registry score in
  let score := when_present (file_operations behavior) score_files score in
  let score := when_present (process_creation behavior) score_processes score in
  Z.min score 100.

Definition _determine_risk_level (score : Z) : string :=
  if (70 <=? score)%Z then "HIGH"
  else if (40 <=? score)%Z then "MEDIUM"
  else if (20 <=? score)%Z then "LOW"
  else "MINIMAL".

(** [now] is [datetime.now().isoformat()]. *)
Definition _generate_mock_analysis (now : string) (filepath : string)
  : DynamicResult :=
  let filename := basename filepath in
  let behavior :=
    {| network_activity := Some _mock_network_activity;
       registry_changes := Some _mock_registry_changes;
       file_operations := Some _mock_file_operations;
       process_creation := Some _mock_process_creation |} in
  let behavior_score := _calculate_behavior_score behavior in
  {| dr_filename := Some filename;
     dr_analysis_timestamp := Some now;
     dr_behavior := Some behavior;
     dr_behavior_score := Some behavior_score;
     dr_risk_level := Some (_determine_risk_level behavior_score);
     dr_error := None |}.

(** [analyze_file(filepath, use_sandbox=False)], the only call the
    prediction engine makes: no report, no sandbox. *)
Definition analyze_file (now : string) (filepath : string) : DynamicResult :=
  _generate_mock_analysis now filepath.

End DynamicAnalyzer.

(** ** feature_engineering.py *)

(** A feature value: a Python int or float. *)
Inductive FVal :=
| VInt (n : Z)
| VFloat (x : R).

Definition fval_to_float (v : FVal) : R :=
  match v with
  | VInt n => IZR n
  | VFloat x => x
  end.

Module FeatureEngineer.

Import StaticAnalyzer DynamicAnalyzer.

(** A fitted [StandardScaler]: the per-feature mean and scale. *)
Record StandardScaler := { mean_ : list R; scale_ : list R }.

(** The state of a [FeatureEngineer]: [scaler] is [None] until it is
    fitted; [selected_features] is the boolean mask, [None] at first. *)
Record t := {
  scaler : option StandardScaler;
  selected_features : option (list bool) }.

(** [FeatureEngineer()] *)
Definition init : t := {| scaler := None; selected_features := None |}.

(** [features[key] = value] for each pair, in order *)
Definition assign (features : PyDict FVal) (items : list (string * FVal))
  : PyDict FVal :=
  dict_update features items.

Section OnRuntime.
Context {rt : Runtime}.

(** [if headers.get('entry_point')] holds for a non-empty string. *)
Definition entry_point_value (headers : PEHeaders) : PyResult Z :=
  match ph_entry_point headers with
  | Some (String c s) => int_base16 (String c s)
  | _ => Ok 0%Z
  end.

Definition is_suspicious_import (func : string) : bool :=
  any (fun sus => str_contains sus (str_lower func))
      ["process"; "memory"; "registry"; "internet"].

Definition _extract_static_features (static_analysis : StaticResult)
  : PyResult (PyDict FVal) :=
  let features : PyDict FVal := [] in
  let features :=
    match sr_file_info static_analysis with
    | Some file_info =>
        assign features [("file_size", VInt (default 0%Z (fi_size file_info)))]
    | None => features
    end in
  let* features :=
    match sr_pe_headers static_analysis with
    | Some headers =>
        let features :=
          assign features
            [ ("number_of_sections",
               VInt (default 0%Z (ph_number_of_sections headers)));
              ("size_of_optional_header",
               VInt (default 0%Z (ph_size_of_optional_header headers))) ] in
        let* entry_point := entry_point_value headers in
        Ok (assign features [("entry_point", VInt entry_point)])
    | None => Ok features
    end in
  let features :=
    match sr_imports static_analysis with
    | Some imports_ =>
        let suspicious_count :=
          fold_left
            (fun count kv =>
               fold_left
                 (fun count func =>
                    if is_suspicious_import func then (count + 1)%Z else count)
                 (snd kv) count)
            imports_ 0%Z in
        assign features
          [ ("number_of_imports", VInt (len imports_));
            ("number_of_imported_dlls", VInt (len (dict_keys imports_)));
            ("suspicious_imports_count", VInt suspicious_count) ]
    | None => features
    end in
  let features :=
    match sr_strings static_analysis with
    | Some strings_info =>
        assign features
          [ ("total_strings", VInt (default 0%Z (si_total_strings strings_info)));
            ("suspicious_strings_count",
             VInt (len (default [] (si_suspicious_strings strings_info)))) ]
    | None => features
    end in
  let features :=
    assign features
      [ ("entropy",
         match sr_entropy static_analysis with
         | Some e => VFloat e
         | None => VInt 0
         end) ] in
  let features :=
    match sr_suspicious_indicators static_analysis with
    | Some indicators =>
        assign features
          [ ("is_packed",
             VInt (if default false (ind_packed indicators) then 1 else 0));
            ("unusual_sections_count",
             VInt (len (default [] (ind_unusual_sections indicators))));
            ("suspicious_api_count",
             VInt (len (default [] (ind_suspicious_imports indicators))));
            ("high_entropy",
             VInt (if default false (ind_high_entropy indicators) then 1 else 0)) ]
    | None => features
    end in
  Ok features.

Definition _extract_dynamic_features (dynamic_analysis : DynamicResult)
  : PyDict FVal :=
  let features : PyDict FVal := [] in
  let features :=
    match dr_behavior_score dynamic_analysis with
    | Some score => assign features [("behavior_score", VInt score)]
    | None => features
    end in
  match dr_behavior dynamic_analysis with
  | Some behavior =>
      let features :=
        match network_activity behavior with
        | Some net =>
            assign features
              [ ("tcp_connections_count", VInt (len (default [] (tcp_connections net))));
                ("dns_requests_count", VInt (len (default [] (dns_requests net))));
                ("http_requests_count", VInt (len (default [] (http_requests net)))) ]
        | None => features
        end in
      let features :=
        match registry_changes behavior with
        | Some reg =>
            assign features
              [ ("registry_keys_created", VInt (len (default [] (keys_created reg))));
                ("registry_values_set", VInt (len (default [] (values_set reg))));
                ("registry_keys_deleted", VInt (len (default [] (keys_deleted reg)))) ]
        | None => features
        end in
      let features :=
        match file_operations behavior with
        | Some files =>
            assign features
              [ ("files_created_count", VInt (len (default [] (files_created files))));
                ("files_deleted_count", VInt (len (default [] (files_deleted files))));
                ("files_modified_count", VInt (len (default [] (files_modified files)))) ]
        | None => features
        end in
      match process_creation behavior with
      | Some procs =>
          assign features
            [ ("processes_created_count",
               VInt (len (default [] (processes_created procs))));
              ("dlls_loaded_count", VInt (len (default [] (dlls_loaded procs)))) ]
      | None => features
      end
  | None => features
  end.

(** [if dynamic_analysis:] holds for a dict with at least one key. *)
Definition truthy_dynamic (dynamic_analysis : option DynamicResult) : bool :=
  match dynamic_analysis with
  | None => false
  | Some d =>
      bool_decide (is_Some (dr_filename d))
      || bool_decide (is_Some (dr_analysis_timestamp d))
      || match dr_behavior d with Some _ => true | None => false end
      || bool_decide (is_Some (dr_behavior_score d))
      || bool_decide (is_Some (dr_risk_level d))
      || bool_decide (is_Some (dr_error d))
  end.

Definition extract_features
  (static_analysis : StaticResult) (dynamic_analysis : option DynamicResult)
  : PyResult (PyDict FVal) :=
  let features : PyDict FVal := [] in
  let* static_features := _extract_static_features static_analysis in
  let features := dict_update features static_features in
  match dynamic_analysis with
  | Some d =>
      if truthy_dynamic dynamic_analysis
      then Ok (dict_update features (_extract_dynamic_features d))
      else Ok features
  | None => Ok features
  end.

End OnRuntime.

(** [scaler.transform]: an unfitted scaler raises [NotFittedError], a row
    of the wrong width a [ValueError]. *)
Definition scaler_transform (sc : option StandardScaler) (row : list R)
  : PyResult (list R) :=
  match sc with
  | None =>
      Raise (mkExc NotFittedError "This StandardScaler instance is not fitted yet")
  | Some fitted =>
      if Nat.eqb (length row) (length (mean_ fitted))
      then Ok (zip_with (fun x ms => ((x - fst ms) / snd ms)%R) row
                        (zip (mean_ fitted) (scale_ fitted)))
      else Raise (mkExc ValueError "X has a different number of features")
  end.

(** [row[:, mask]] with a boolean mask *)
Definition mask_select (mask : list bool) (row : list R) : PyResult (list R) :=
  if Nat.eqb (length mask) (length row)
  then Ok (map snd (List.filter fst (zip mask row)))
  else Raise (mkExc IndexError "boolean index did not match indexed array").

Definition process_single_sample (self : t) (features : PyDict FVal)
  : PyResult (list R) :=
  let df := map fval_to_float (dict_values features) in
  let* df_scaled := scaler_transform (scaler self) df in
  match selected_features self with
  | Some mask => mask_select mask df_scaled
  | None => Ok df_scaled
  end.

End FeatureEngineer.

(** ** ml_models.py *)

Module MLPredictor.

(** A fitted scikit-learn estimator, as the predictor uses it: its class
    name, [predict] on one row, and the attributes tested with [hasattr]. *)
Record Model := {
  class_name : string;
  predict_row : list R -> PyResult Z;
  predict_proba_row : option (list R -> PyResult (list R));
  feature_importances_ : option (list R) }.

(** The objects that reach [joblib.dump]. *)
Inductive PyObj :=
| PNone
| PStr (s : string)
| PModel (m : Model)
| PScaler (sc : FeatureEngineer.StandardScaler)
| PMask (mask : list bool).

(** The state of an [MLPredictor]. *)
Record t := { best_model : PyObj; best_model_name : PyObj }.

(** [MLPredictor()] *)
Definition init : t := {| best_model := PNone; best_model_name := PNone |}.

(** The files written by [joblib.dump], by name. *)
Abbreviation Pickles := (gmap string (PyDict PyObj)).

(** [type(obj).__name__] *)
Definition type_name (obj : PyObj) : string :=
  match obj with
  | PNone => "NoneType"
  | PStr _ => "str"
  | PModel m => class_name m
  | PScaler _ => "StandardScaler"
  | PMask _ => "ndarray"
  end.

Definition save_best_model (self : t) (filename : string) (disk : Pickles)
  : Pickles :=
  match best_model self with
  | PNone => disk
  | model =>
      let model_data :=
        [ ("model", model);
          ("model_name", best_model_name self);
          ("model_type", PStr (type_name model)) ] in
      <[filename := model_data]> disk
  end.

(** [load_model]: the flag returned and the predictor afterwards. A
    missing key raises after the assignments before it. *)
Definition load_model (self : t) (filename : string) (disk : Pickles)
  : bool * t :=
  match disk !! filename with
  | None => (false, self)
  | Some model_data =>
      match dict_get "model" model_data with
      | None => (false, self)
      | Some model =>
          let self := {| best_model := model;
                         best_model_name := best_model_name self |} in
          match dict_get "model_name" model_data with
          | None => (false, self)
          | Some name =>
              (true, {| best_model := best_model self; best_model_name := name |})
          end
      end
  end.

(** [predict(X)[0]] for a single row *)
Definition predict (self : t) (X : list R) : PyResult Z :=
  match best_model self with
  | PNone => Raise (mkExc ValueError "No trained model available for prediction")
  | PModel m => predict_row m X
  | _ => Raise (mkExc OtherException "object has no attribute 'predict'")
  end.

(** [predict_proba(X)[0]] for a single row *)
Definition predict_proba (self : t) (X : list R) : PyResult (list R) :=
  match best_model self with
  | PModel m =>
      match predict_proba_row m with
      | Some proba => proba X
      | None =>
          Raise (mkExc ValueError "Model does not support probability prediction")
      end
  | _ => Raise (mkExc ValueError "Model does not support probability prediction")
  end.

(** *** Training *)

(** An entry of [results]: the fitted estimator and its accuracy on the
    test split. The report, the confusion matrix and the cross-validation
    scores that scikit-learn returns are stored beside them and are not
    read by [train_models]. *)
Record TrainResult := { tr_model : Model; tr_accuracy : R }.

(** [self.models], in the order of the dict *)
Definition models : list string := ["random_forest"; "svm"; "neural_network"].

(** [max(results.values(), key=lambda x: x['accuracy'])]: the first entry
    of greatest accuracy, a [ValueError] on an empty sequence *)
Definition max_by_accuracy (values : list TrainResult) : PyResult TrainResult :=
  match values with
  | [] => Raise (mkExc ValueError "max() arg is an empty sequence")
  | first :: rest =>
      Ok (fold_left
            (fun best r =>
               if Rgt_dec (tr_accuracy r) (tr_accuracy best) then r else best)
            rest first)
  end.

(** [[name for name, result in results.items()
      if result['accuracy'] == best_accuracy]] *)
Definition names_with_accuracy (results : PyDict TrainResult) (best_accuracy : R)
  : list string :=
  map fst
    (List.filter
       (fun kv => if Req_dec_T (tr_accuracy (snd kv)) best_accuracy
                  then true else false)
       results).

Section Training.

(** scikit-learn, outside the repository: a [Dataset] is a feature matrix
    with its labels; [train_test_split] is the split with the fixed seed;
    [fit name train] fits the estimator registered under [name];
    [accuracy model test] is the evaluation of the fitted estimator
    ([predict], [accuracy_score] and the scores stored beside it), of
    which [train_models] reads the accuracy. *)
Variable Dataset : Type.
Variable train_test_split : Dataset -> Dataset * Dataset.
Variable fit : string -> Dataset -> PyResult Model.
Variable accuracy : Model -> Dataset -> PyResult R.

(** [train_models]: the results and the predictor afterwards; the best
    model is looked up in [self.trained_models], which the loop fills
    with the model of each entry of [results]. *)
Definition train_models (self : t) (X_y : Dataset)
  : PyResult (PyDict TrainResult * t) :=
  let '(train, test) := train_test_split X_y in
  let* results :=
    py_fold
      (fun results name =>
         let* model := fit name train in
         let* acc := accuracy model test in
         Ok (dict_set name {| tr_model := model; tr_accuracy := acc |} results))
      models [] in
  let* best := max_by_accuracy (dict_values results) in
  let best_accuracy := tr_accuracy best in
  let* best_model_name :=
    match names_with_accuracy results best_accuracy with
    | name :: _ => Ok name
    | [] => Raise (mkExc IndexError "list index out of range")
    end in
  let* best_model :=
    match dict_get best_model_name results with
    | Some r => Ok (tr_model r)
    | None => Raise (mkExc KeyError best_model_name)
    end in
  Ok (results,
      {| best_model := PModel best_model;
         best_model_name := PStr best_model_name |}).

End Training.

End MLPredictor.

(** ** prediction_engine.py *)

Module PredictionEngine.

Import StaticAnalyzer DynamicAnalyzer.

Record t := {
  feature_engineer : FeatureEngineer.t;
  ml_predictor : MLPredictor.t }.

Record PredictionResult := {
  pr_prediction : option string;
  pr_confidence : option R;
  pr_prediction_score : option R;
  pr_model_used : option MLPredictor.PyObj;
  pr_top_features : option (PyDict FVal);
  pr_error : option string }.

Record Assessment := {
  risk_level : string;
  key_indicators : list string;
  recommendations : list string }.

(** [max(probabilities)], a [ValueError] on an empty sequence *)
Definition py_max (l : list R) : PyResult R :=
  match l with
  | [] => Raise (mkExc ValueError "max() arg is an empty sequence")
  | x :: rest => Ok (fold_left Rmax rest x)
  end.

(** [round(x, 4)]: the nearest multiple of 1/10000, ties to even *)
Definition round4 (x : R) : R :=
  let y := (x * 10000)%R in
  let f := Int_part y in
  let r := (y - IZR f)%R in
  let n := if Rlt_dec r (1 / 2) then f
           else if Rgt_dec r (1 / 2) then (f + 1)%Z
           else if Z.even f then f else (f + 1)%Z in
  (IZR n / 10000)%R.

(** Stable insertion into a list sorted by decreasing key. *)
Fixpoint insert_desc (key : nat -> R) (i : nat) (sorted : list nat) : list nat :=
  match sorted with
  | [] => [i]
  | j :: rest =>
      if Rgt_dec (key j) (key i) then j :: insert_desc key i rest
      else i :: j :: rest
  end.

(** [sorted(indices, key=key, reverse=True)] *)
Definition sorted_desc (key : nat -> R) (indices : list nat) : list nat :=
  foldr (insert_desc key) [] indices.

(** [x or 'unknown'] *)
Definition name_or_unknown (name : MLPredictor.PyObj) : MLPredictor.PyObj :=
  match name with
  | MLPredictor.PNone | MLPredictor.PStr EmptyString | MLPredictor.PMask [] =>
      MLPredictor.PStr "unknown"
  | _ => name
  end.

Definition _get_top_features (self : t) (original_features : PyDict FVal)
  (processed_features : list R) : PyDict FVal :=
  let fallback := take 5 original_features in
  match MLPredictor.best_model (ml_predictor self) with
  | MLPredictor.PModel m =>
      match MLPredictor.feature_importances_ m with
      | Some importances =>
          let feature_names := dict_keys original_features in
          let top_indices :=
            take 5 (sorted_desc (fun i => nth i importances 0%R)
                                (seq 0 (length importances))) in
          fold_left
            (fun top_features idx =>
               match feature_names !! idx with
               | Some feature_name =>
                   match dict_get feature_name original_features with
                   | Some v => dict_set feature_name v top_features
                   | None => top_features
                   end
               | None => top_features
               end)
            top_indices []
      | None => fallback
      end
  | _ => fallback
  end.

(** The body of the [try] in [_make_prediction]. *)
Definition make_prediction_body (self : t) (features : PyDict FVal)
  : PyResult PredictionResult :=
  let* processed_features :=
    FeatureEngineer.process_single_sample (feature_engineer self) features in
  let* prediction := MLPredictor.predict (ml_predictor self) processed_features in
  let confidence :=
    catch
      (let* probabilities :=
         MLPredictor.predict_proba (ml_predictor self) processed_features in
       py_max probabilities)
      (fun _ => (1 / 2)%R) in
  let result := if Z.eqb prediction 1 then "malicious" else "benign" in
  let top_features := _get_top_features self features processed_features in
  Ok {| pr_prediction := Some result;
        pr_confidence := Some (round4 confidence);
        pr_prediction_score := Some (IZR prediction);
        pr_model_used :=
          Some (name_or_unknown (MLPredictor.best_model_name (ml_predictor self)));
        pr_top_features := Some top_features;
        pr_error := None |}.

Definition _make_prediction (self : t) (features : PyDict FVal)
  : PredictionResult :=
  catch (make_prediction_body self features)
    (fun e =>
       {| pr_prediction := Some "unknown";
          pr_confidence := Some 0%R;
          pr_prediction_score := None;
          pr_model_used := Some (MLPredictor.PStr "none");
          pr_top_features := Some [];
          pr_error := Some ("Prediction failed: " ++ exc_str e) |}).

(** [d.get(key)] is truthy *)
Definition truthy_flag (x : option bool) : bool := default false x.
Definition truthy_list {A} (x : option (list A)) : bool :=
  match x with
  | Some (_ :: _) => true
  | _ => false
  end.

Definition risk_of (prediction_result : PredictionResult) : string :=
  if bool_decide (pr_prediction prediction_result = Some "malicious")
  then
    if float_gt (default 0%R (pr_confidence prediction_result)) (8 / 10)
    then "HIGH"
    else if float_gt (default 0%R (pr_confidence prediction_result)) (6 / 10)
    then "MEDIUM"
    else "LOW"
  else "SAFE".

(** The parts of [_generate_assessment], in the order it runs them. Nothing
    in its [try] can raise on these inputs, so its [except] is not used. *)
Definition static_indicators (static_result : StaticResult) : list string :=
  match sr_suspicious_indicators static_result with
  | Some si =>
      ((if truthy_flag (ind_packed si)
        then ["File appears to be packed"] else [])
       ++ (if truthy_flag (ind_high_entropy si)
           then ["High entropy detected (possible encryption)"] else [])
       ++ (if truthy_list (ind_suspicious_imports si)
           then [("Suspicious API imports: "
                  ++ str_of_nat (length (default [] (ind_suspicious_imports si))))%string]
           else []))%list
  | None => []
  end.

Definition dynamic_indicators (dynamic_result : DynamicResult) : list string :=
  match dr_behavior_score dynamic_result with
  | Some score =>
      if (50 <? score)%Z then ["High behavior score: " ++ str_of_Z score] else []
  | None => []
  end.

Definition string_indicators (static_result : StaticResult) : list string :=
  match sr_strings static_result with
  | Some strings_info =>
      let sus_strings := default [] (si_suspicious_strings strings_info) in
      match sus_strings with
      | _ :: _ => ["Suspicious strings found: " ++ str_of_nat (length sus_strings)]
      | [] => []
      end
  | None => []
  end.

Definition recommendations_for (risk : string) : list string :=
  if String.eqb risk "HIGH" then
    [ "Do not execute this file"; "Quarantine immediately";
      "Run additional scans with updated antivirus" ]
  else if String.eqb risk "MEDIUM" then
    [ "Exercise extreme caution"; "Scan with multiple antivirus engines";
      "Consider sandbox analysis" ]
  else if String.eqb risk "LOW" then
    [ "Monitor file behavior if executed"; "Verify file source and authenticity" ]
  else [ "File appears safe, but remain vigilant" ].

Definition _generate_assessment (static_result : StaticResult)
  (dynamic_result : DynamicResult) (prediction_result : PredictionResult)
  : Assessment :=
  let risk := risk_of prediction_result in
  let indicators :=
    (static_indicators static_result
     ++ dynamic_indicators dynamic_result
     ++ string_indicators static_result)%list in
  {| risk_level := risk;
     key_indicators := indicators;
     recommendations := recommendations_for risk |}.

(** [sep.join(parts)] *)
Fixpoint str_join (sep : string) (parts : list string) : string :=
  match parts with
  | [] => ""
  | [p] => p
  | p :: rest => p ++ sep ++ str_join sep rest
  end.

Definition _generate_explanation (static_result : StaticResult)
  (dynamic_result : DynamicResult) (prediction_result : PredictionResult)
  : PyResult string :=
  let* prediction :=
    match pr_prediction prediction_result with
    | Some label => Ok label
    | None => Raise (mkExc KeyError "'prediction'")
    end in
  let explanation_parts :=
    if String.eqb prediction "malicious"
    then ["The file is classified as malicious"]
    else ["The file appears to be benign"] in
  let explanation_parts :=
    match sr_suspicious_indicators static_result with
    | Some indicators =>
        (explanation_parts
         ++ (if truthy_flag (ind_packed indicators)
             then ["because it appears to be packed"] else [])
         ++ (if truthy_flag (ind_high_entropy indicators)
             then ["due to high entropy indicating encryption or compression"]
             else [])
         ++ (if truthy_list (ind_suspicious_imports indicators)
             then
               let sus_count :=
                 length (default [] (ind_suspicious_imports indicators)) in
               if (0 <? sus_count)%nat
               then [("and contains " ++ str_of_nat sus_count
                      ++ " suspicious API imports")%string]
               else []
             else []))%list
    | None => explanation_parts
    end in
  let explanation_parts :=
    match dr_behavior_score dynamic_result with
    | Some score =>
        if (50 <? score)%Z
        then (explanation_parts
              ++ [("with suspicious behavior score of " ++ str_of_Z score
                   ++ "/100")%string])%list
        else explanation_parts
    | None => explanation_parts
    end in
  match explanation_parts with
  | [] => Raise (mkExc IndexError "list index out of range")
  | [main] => Ok (main ++ ".")
  | [main; reason] => Ok (main ++ " " ++ reason ++ ".")
  | main :: rest =>
      let reasons := str_join ", " (removelast rest) in
      let last_reason := List.last rest "" in
      Ok (main ++ " " ++ reasons ++ ", and " ++ last_reason ++ ".")
  end.

(** The dict [analyze_file] returns: an error report has [rp_error] and
    [rp_recommendation], a full report the other keys. *)
Record Report := {
  rp_analysis_id : string;
  rp_error : option string;
  rp_timestamp : string;
  rp_filename : option string;
  rp_recommendation : option string;
  rp_sha256 : option string;
  rp_prediction : option string;
  rp_confidence : option R;
  rp_top_features : option (PyDict FVal);
  rp_explanation : option string;
  rp_static_analysis : option StaticResult;
  rp_dynamic_analysis : option DynamicResult;
  rp_features : option (PyDict FVal);
  rp_overall_assessment : option Assessment }.

Definition error_report (analysis_id now : string) (msg : string)
  (filename recommendation : option string) : Report :=
  {| rp_analysis_id := analysis_id; rp_error := Some msg; rp_timestamp := now;
     rp_filename := filename; rp_recommendation := recommendation;
     rp_sha256 := None; rp_prediction := None; rp_confidence := None;
     rp_top_features := None; rp_explanation := None;
     rp_static_analysis := None; rp_dynamic_analysis := None;
     rp_features := None; rp_overall_assessment := None |}.

Section Pipeline.
Context {rt : Runtime}.

(** The libraries outside the repository (see [StaticAnalyzer]), the JSON
    text of a report, and the clock: [now_ts] is
    [int(datetime.now().timestamp())], [now] is [datetime.now().isoformat()]. *)
Variable md5_hexdigest sha1_hexdigest sha256_hexdigest : bytes -> string.
Variable pefile_parse : bytes -> PyResult PE.
Variable json_dump : StaticResult -> PyResult bytes.
Variable report_dump : Report -> PyResult bytes.
Variable now_ts : Z.
Variable now : string.

(** [_save_report]: a failure is printed and goes no further. *)
Definition _save_report (fs : gmap string File) (report : Report)
  (analysis_id : string) : gmap string File :=
  catch
    (let report_path := "reports/" ++ analysis_id ++ "_report.json" in
     let* text := report_dump report in
     write_bytes fs report_path text)
    (fun _ => fs).

Definition analyze_file (self : t) (fs : gmap string File) (filepath : string)
  : Report * gmap string File :=
  let analysis_id := "analysis_" ++ str_of_Z now_ts in
  let '(static_result, fs) :=
    StaticAnalyzer.analyze_file
      md5_hexdigest sha1_hexdigest sha256_hexdigest pefile_parse json_dump
      fs filepath in
  match sr_error static_result with
  | Some msg =>
      (error_report analysis_id now msg (Some (basename filepath))
         (Some "تأكد من أن الملف من نوع Windows PE (.exe, .dll) وأنه غير تالف"),
       fs)
  | None =>
      catch
        (let dynamic_result := DynamicAnalyzer.analyze_file now filepath in
         let* features :=
           FeatureEngineer.extract_features static_result (Some dynamic_result) in
         let prediction_result := _make_prediction self features in
         let sha256 :=
           match sr_file_info static_result with
           | Some file_info => default "" (fi_sha256 file_info)
           | None => ""
           end in
         let* explanation :=
           _generate_explanation static_result dynamic_result prediction_result in
         let* prediction :=
           match pr_prediction prediction_result with
           | Some label => Ok label
           | None => Raise (mkExc KeyError "'prediction'")
           end in
         let* confidence :=
           match pr_confidence prediction_result with
           | Some c => Ok c
           | None => Raise (mkExc KeyError "'confidence'")
           end in
         let report :=
           {| rp_analysis_id := analysis_id;
              rp_error := None;
              rp_timestamp := now;
              rp_filename := Some (basename filepath);
              rp_recommendation := None;
              rp_sha256 := Some sha256;
              rp_prediction := Some prediction;
              rp_confidence := Some confidence;
              rp_top_features :=
                Some (default [] (pr_top_features prediction_result));
              rp_explanation := Some explanation;
              rp_static_analysis := Some static_result;
              rp_dynamic_analysis := Some dynamic_result;
              rp_features := Some features;
              rp_overall_assessment :=
                Some (_generate_assessment
                        static_result dynamic_result prediction_result) |} in
         Ok (report, _save_report fs report analysis_id))
        (fun e =>
           (error_report analysis_id now ("Analysis failed: " ++ exc_str e)
              None None, fs))
  end.

End Pipeline.

Section Construction.

(** scikit-learn and the seeded sample data, outside the repository (see
    [MLPredictor.train_models]); [generate_sample_dataset] is
    [generate_sample_dataset(n_samples=1000)]. *)
Variable Dataset : Type.
Variable generate_sample_dataset : Dataset.
Variable train_test_split : Dataset -> Dataset * Dataset.
Variable fit : string -> Dataset -> PyResult MLPredictor.Model.
Variable accuracy : MLPredictor.Model -> Dataset -> PyResult R.

Definition _create_sample_model (self : t) (disk : MLPredictor.Pickles)
  : PyResult (t * MLPredictor.Pickles) :=
  let X_y := generate_sample_dataset in
  let* trained :=
    MLPredictor.train_models Dataset train_test_split fit accuracy
      (ml_predictor self) X_y in
  let self := {| feature_engineer := feature_engineer self;
                 ml_predictor := snd trained |} in
  Ok (self, MLPredictor.save_best_model (ml_predictor self) "best_model.pkl" disk).

(** [PredictionEngine()] *)
Definition __init__ (disk : MLPredictor.Pickles)
  : PyResult (t * MLPredictor.Pickles) :=
  let feature_engineer := FeatureEngineer.init in
  let ml_predictor := MLPredictor.init in
  let '(loaded, ml_predictor) :=
    MLPredictor.load_model ml_predictor "best_model.pkl" disk in
  let self := {| feature_engineer := feature_engineer;
                 ml_predictor := ml_predictor |} in
  if negb loaded then _create_sample_model self disk
  else Ok (self, disk).

End Construction.

(** The dict [get_analysis_summary] returns. *)
Record Summary := {
  sm_filename : string;
  sm_result : string;
  sm_confidence : R;
  sm_risk_level : string;
  sm_key_indicators : list string;
  sm_timestamp : string }.

(** [get_analysis_summary]: every key is read with [get] and a default,
    so the [try] cannot fail on a report. *)
Definition get_analysis_summary (report : Report) : Summary :=
  {| sm_filename := default "Unknown" (rp_filename report);
     sm_result := default "unknown" (rp_prediction report);
     sm_confidence := default 0%R (rp_confidence report);
     sm_risk_level :=
       match rp_overall_assessment report with
       | Some assessment => risk_level assessment
       | None => "UNKNOWN"
       end;
     sm_key_indicators :=
       take 3 match rp_overall_assessment report with
              | Some assessment => key_indicators assessment
              | None => []
              end;
     sm_timestamp := rp_timestamp report |}.

End PredictionEngine.

(** ** Sample inputs used in the examples below *)

(** A runtime for the examples: it reads the literals [hex] writes and
    computes without rounding. *)
Definition exact_runtime : Runtime :=
  {| int_base16 := int_of_hex_literal;
     round64 := fun x => x;
     math_log2 := log2 |}.

(** A static result with nothing suspicious in it. *)
Definition quiet_static_result : StaticAnalyzer.StaticResult :=
  {| StaticAnalyzer.sr_error := None;
     StaticAnalyzer.sr_file_info := None;
     StaticAnalyzer.sr_strings :=
       Some {| StaticAnalyzer.si_total_strings := Some 0%Z;
               StaticAnalyzer.si_strings := Some [];
               StaticAnalyzer.si_suspicious_strings := Some [] |};
     StaticAnalyzer.sr_entropy := Some 0%R;
     StaticAnalyzer.sr_pe_headers := Some StaticAnalyzer.empty_headers;
     StaticAnalyzer.sr_imports := Some [];
     StaticAnalyzer.sr_metadata := Some [];
     StaticAnalyzer.sr_suspicious_indicators :=
       Some {| StaticAnalyzer.ind_packed := Some false;
               StaticAnalyzer.ind_unusual_sections := Some [];
               StaticAnalyzer.ind_suspicious_imports := Some [];
               StaticAnalyzer.ind_high_entropy := Some false;
               StaticAnalyzer.ind_suspicious_strings_found := Some false;
               StaticAnalyzer.ind_large_file := Some false;
               StaticAnalyzer.ind_analysis_type := Some "basic";
               StaticAnalyzer.ind_suspicious_extension := None |};
     StaticAnalyzer.sr_analysis_note := Some "basic" |}.

(** The behaviour the mock analysis reports; its created registry keys
    include one under [CurrentVersion\Run]. *)
Definition mock_behavior : DynamicAnalyzer.Behavior :=
  {| DynamicAnalyzer.network_activity := Some DynamicAnalyzer._mock_network_activity;
     DynamicAnalyzer.registry_changes := Some DynamicAnalyzer._mock_registry_changes;
     DynamicAnalyzer.file_operations := Some DynamicAnalyzer._mock_file_operations;
     DynamicAnalyzer.process_creation := Some DynamicAnalyzer._mock_process_creation |}.

(** A malicious verdict with confidence 0.5. *)
Definition weak_malicious_verdict : PredictionEngine.PredictionResult :=
  {| PredictionEngine.pr_prediction := Some "malicious";
     PredictionEngine.pr_confidence := Some (1 / 2)%R;
     PredictionEngine.pr_prediction_score := Some 1%R;
     PredictionEngine.pr_model_used := Some (MLPredictor.PStr "random_forest");
     PredictionEngine.pr_top_features := Some [];
     PredictionEngine.pr_error := None |}.

(** The import table of [pe] lists the symbol [name]. *)
Definition imports_include (pe : StaticAnalyzer.PE) (name : string) : Prop :=
  exists entries entry imp,
    StaticAnalyzer.DIRECTORY_ENTRY_IMPORT pe = Some entries
    /\ In entry entries
    /\ In imp (StaticAnalyzer.imports entry)
    /\ StaticAnalyzer.imp_name imp = Some (list_byte_of_string name).

(** A parsed container that imports the two injection APIs from
    kernel32.dll, and a file system holding it. *)
Definition injector_pe : StaticAnalyzer.PE :=
  {| StaticAnalyzer.FILE_HEADER :=
       {| StaticAnalyzer.Machine := 332; StaticAnalyzer.TimeDateStamp := 0;
          StaticAnalyzer.NumberOfSections := 1;
          StaticAnalyzer.SizeOfOptionalHeader := 224;
          StaticAnalyzer.Characteristics := 258 |};
     StaticAnalyzer.OPTIONAL_HEADER :=
       {| StaticAnalyzer.AddressOfEntryPoint := 4096;
          StaticAnalyzer.ImageBase := 4194304;
          StaticAnalyzer.SectionAlignment := 4096;
          StaticAnalyzer.FileAlignment := 512;
          StaticAnalyzer.Subsystem := 3 |};
     StaticAnalyzer.sections :=
       [ {| StaticAnalyzer.Name := list_byte_of_string ".text" |} ];
     StaticAnalyzer.DIRECTORY_ENTRY_IMPORT := Some
       [ {| StaticAnalyzer.dll := list_byte_of_string "kernel32.dll";
            StaticAnalyzer.imports :=
              [ {| StaticAnalyzer.imp_name :=
                     Some (list_byte_of_string "CreateRemoteThread") |};
                {| StaticAnalyzer.imp_name :=
                     Some (list_byte_of_string "WriteProcessMemory") |};
                {| StaticAnalyzer.imp_name :=
                     Some (list_byte_of_string "ExitProcess") |} ] |} ];
     StaticAnalyzer.VS_VERSIONINFO := None |}.

Definition sample_fs : gmap string File :=
  {[ "sample.exe" := mkFile true true (list_byte_of_string "MZ sample") ]}.

(** A trained predictor and a fitted feature engineer over two features. *)
Definition sample_model : MLPredictor.Model :=
  {| MLPredictor.class_name := "RandomForestClassifier";
     MLPredictor.predict_row := fun _ => Ok 1%Z;
     MLPredictor.predict_proba_row := Some (fun _ => Ok [(1 / 10)%R; (9 / 10)%R]);
     MLPredictor.feature_importances_ := Some [(3 / 4)%R; (1 / 4)%R] |}.

Definition trained_predictor : MLPredictor.t :=
  {| MLPredictor.best_model := MLPredictor.PModel sample_model;
     MLPredictor.best_model_name := MLPredictor.PStr "random_forest" |}.

Definition fitted_scaler : FeatureEngineer.StandardScaler :=
  {| FeatureEngineer.mean_ := [0%R; 0%R]; FeatureEngineer.scale_ := [1%R; 1%R] |}.

Definition fitted_engineer : FeatureEngineer.t :=
  {| FeatureEngineer.scaler := Some fitted_scaler;
     FeatureEngineer.selected_features := Some [true; true] |}.

(** The bundle holds an object: some key maps to it. *)
Definition bundle_holds (bundle : PyDict MLPredictor.PyObj) (obj : MLPredictor.PyObj)
  : Prop :=
  exists key, dict_get key bundle = Some obj.

(** ** The fields each input section contributes to the feature mapping *)

Definition file_info_fields : list string := ["file_size"].
Definition pe_header_fields : list string :=
  ["number_of_sections"; "size_of_optional_header"; "entry_point"].
Definition import_fields : list string :=
  ["number_of_imports"; "number_of_imported_dlls"; "suspicious_imports_count"].
Definition string_fields : list string :=
  ["total_strings"; "suspicious_strings_count"].
Definition indicator_fields : list string :=
  ["is_packed"; "unusual_sections_count"; "suspicious_api_count"; "high_entropy"].
Definition network_fields : list string :=
  ["tcp_connections_count"; "dns_requests_count"; "http_requests_count"].
Definition registry_fields : list string :=
  ["registry_keys_created"; "registry_values_set"; "registry_keys_deleted"].
Definition file_operation_fields : list string :=
  ["files_created_count"; "files_deleted_count"; "files_modified_count"].
Definition process_fields : list string :=
  ["processes_created_count"; "dlls_loaded_count"].

(** The fields of a section, when the section is there. *)
Definition when_given {A} (section : option A) (fields : list string) : list string :=
  match section with
  | Some _ => fields
  | None => []
  end.

Definition static_fields (s : StaticAnalyzer.StaticResult) : list string :=
  (when_given (StaticAnalyzer.sr_file_info s) file_info_fields
   ++ when_given (StaticAnalyzer.sr_pe_headers s) pe_header_fields
   ++ when_given (StaticAnalyzer.sr_imports s) import_fields
   ++ when_given (StaticAnalyzer.sr_strings s) string_fields
   ++ ["entropy"]
   ++ when_given (StaticAnalyzer.sr_suspicious_indicators s) indicator_fields)%list.

Definition dynamic_fields (d : DynamicAnalyzer.DynamicResult) : list string :=
  (when_given (DynamicAnalyzer.dr_behavior_score d) ["behavior_score"]
   ++ match DynamicAnalyzer.dr_behavior d with
      | Some b =>
          when_given (DynamicAnalyzer.network_activity b) network_fields
          ++ when_given (DynamicAnalyzer.registry_changes b) registry_fields
          ++ when_given (DynamicAnalyzer.file_operations b) file_operation_fields
          ++ when_given (DynamicAnalyzer.process_creation b) process_fields
      | None => []
      end)%list.

(** A static result with no section at all: [{}]. *)
Definition empty_static_result : StaticAnalyzer.StaticResult :=
  {| StaticAnalyzer.sr_error := None; StaticAnalyzer.sr_file_info := None;
     StaticAnalyzer.sr_strings := None; StaticAnalyzer.sr_entropy := None;
     StaticAnalyzer.sr_pe_headers := None; StaticAnalyzer.sr_imports := None;
     StaticAnalyzer.sr_metadata := None;
     StaticAnalyzer.sr_suspicious_indicators := None;
     StaticAnalyzer.sr_analysis_note := None |}.

(** Inside a section that is present, each static field holds the value
    found there, and 0 when the value is missing. *)
Definition static_defaults (s : StaticAnalyzer.StaticResult) (fs : PyDict FVal)
  : Prop :=
  dict_get "entropy" fs
  = Some (match StaticAnalyzer.sr_entropy s with
          | Some e => VFloat e
          | None => VInt 0
          end)
  /\ (forall fi, StaticAnalyzer.sr_file_info s = Some fi ->
        dict_get "file_size" fs
        = Some (VInt (default 0%Z (StaticAnalyzer.fi_size fi))))
  /\ (forall h, StaticAnalyzer.sr_pe_headers s = Some h ->
        dict_get "number_of_sections" fs
        = Some (VInt (default 0%Z (StaticAnalyzer.ph_number_of_sections h)))
        /\ dict_get "size_of_optional_header" fs
           = Some (VInt (default 0%Z (StaticAnalyzer.ph_size_of_optional_header h)))
        /\ (StaticAnalyzer.ph_entry_point h = None ->
            dict_get "entry_point" fs = Some (VInt 0)))
  /\ (forall si, StaticAnalyzer.sr_strings s = Some si ->
        dict_get "total_strings" fs
        = Some (VInt (default 0%Z (StaticAnalyzer.si_total_strings si)))
        /\ dict_get "suspicious_strings_count" fs
           = Some (VInt (DynamicAnalyzer.len
                           (default [] (StaticAnalyzer.si_suspicious_strings si)))))
  /\ (forall ind, StaticAnalyzer.sr_suspicious_indicators s = Some ind ->
        dict_get "is_packed" fs
        = Some (VInt (if default false (StaticAnalyzer.ind_packed ind) then 1 else 0))
        /\ dict_get "unusual_sections_count" fs
           = Some (VInt (DynamicAnalyzer.len
                           (default [] (StaticAnalyzer.ind_unusual_sections ind))))
        /\ dict_get "suspicious_api_count" fs
           = Some (VInt (DynamicAnalyzer.len
                           (default [] (StaticAnalyzer.ind_suspicious_imports ind))))
        /\ dict_get "high_entropy" fs
           = Some (VInt (if default false (StaticAnalyzer.ind_high_entropy ind)
                         then 1 else 0))).

(** The feature mapping of the quiet static result with the mock dynamic
    analysis, evaluated. *)
Definition sample_features : PyDict FVal :=
  Eval cbn in
    match FeatureEngineer.extract_features (rt := exact_runtime)
            quiet_static_result
            (Some (DynamicAnalyzer.analyze_file "2024-01-01T00:00:00" "sample.exe"))
    with
    | Ok features => features
    | Raise _ => []
    end.

(** A parsed container with a UPX section, used in the examples. *)
Definition upx_pe : StaticAnalyzer.PE :=
  {| StaticAnalyzer.FILE_HEADER := StaticAnalyzer.FILE_HEADER injector_pe;
     StaticAnalyzer.OPTIONAL_HEADER := StaticAnalyzer.OPTIONAL_HEADER injector_pe;
     StaticAnalyzer.sections :=
       [ {| StaticAnalyzer.Name := list_byte_of_string ".text" |};
         {| StaticAnalyzer.Name := list_byte_of_string "UPX0" |} ];
     StaticAnalyzer.DIRECTORY_ENTRY_IMPORT := None;
     StaticAnalyzer.VS_VERSIONINFO := None |}.

(** A disk that holds a saved bundle under the default file name. *)
Definition sample_disk : MLPredictor.Pickles :=
  {[ "best_model.pkl" :=
       [ ("model", MLPredictor.PModel sample_model);
         ("model_name", MLPredictor.PStr "random_forest");
         ("model_type", MLPredictor.PStr "RandomForestClassifier") ] ]}.

(** An engine as the constructor leaves it when nothing could be loaded
    or trained, and the pipeline of the examples: fixed digests, a parser
    that yields [injector_pe], and a fixed clock. *)
Definition fresh_engine : PredictionEngine.t :=
  {| PredictionEngine.feature_engineer := FeatureEngineer.init;
     PredictionEngine.ml_predictor := MLPredictor.init |}.

Definition sample_pipeline (self : PredictionEngine.t)
  (fs : gmap string File) (filepath : string)
  : PredictionEngine.Report * gmap string File :=
  PredictionEngine.analyze_file (rt := exact_runtime)
    (fun _ => "md5") (fun _ => "sha1") (fun _ => "sha256")
    (fun _ => Ok injector_pe) (fun _ => Ok []) (fun _ => Ok [])
    1700000000 "2024-01-01T00:00:00" self fs filepath.

(** A training run of the examples: every estimator is fitted to
    [sample_model], and the accuracies are 0.9, 0.95 and 0.95. *)
Definition sample_accuracy (name : string) : R :=
  if String.eqb name "random_forest" then (9 / 10)%R else (95 / 100)%R.

Definition sample_fit (name : string) (train : string) : PyResult MLPredictor.Model :=
  Ok {| MLPredictor.class_name := name;
        MLPredictor.predict_row := fun _ => Ok 1%Z;
        MLPredictor.predict_proba_row := None;
        MLPredictor.feature_importances_ := None |}.

Definition sample_training (self : MLPredictor.t)
  : PyResult (PyDict MLPredictor.TrainResult * MLPredictor.t) :=
  MLPredictor.train_models string (fun d => (d, d)) sample_fit
    (fun model _ => Ok (sample_accuracy (MLPredictor.class_name model)))
    self "dataset".

(** A parsed container whose import table holds a name that is not
    UTF-8, used in the examples. *)
Definition undecodable_pe : StaticAnalyzer.PE :=
  {| StaticAnalyzer.FILE_HEADER := StaticAnalyzer.FILE_HEADER injector_pe;
     StaticAnalyzer.OPTIONAL_HEADER := StaticAnalyzer.OPTIONAL_HEADER injector_pe;
     StaticAnalyzer.sections := StaticAnalyzer.sections injector_pe;
     StaticAnalyzer.DIRECTORY_ENTRY_IMPORT := Some
       [ {| StaticAnalyzer.dll := list_byte_of_string "kernel32.dll";
            StaticAnalyzer.imports :=
              [ {| StaticAnalyzer.imp_name := Some [xff; xfe] |} ] |} ];
     StaticAnalyzer.VS_VERSIONINFO := None |}.

(** Inside a dynamic result: the behaviour score when it is there, and in
    each behaviour category that is present the length of each of its
    lists, 0 when the list is missing. *)
Definition dynamic_defaults (d : DynamicAnalyzer.DynamicResult) (fs : PyDict FVal)
  : Prop :=
  let count {A} (l : option (list A)) := Some (VInt (DynamicAnalyzer.len (default [] l))) in
  (forall score, DynamicAnalyzer.dr_behavior_score d = Some score ->
     dict_get "behavior_score" fs = Some (VInt score))
  /\ (forall b, DynamicAnalyzer.dr_behavior d = Some b ->
        (forall net, DynamicAnalyzer.network_activity b = Some net ->
           dict_get "tcp_connections_count" fs
           = count (DynamicAnalyzer.tcp_connections net)
           /\ dict_get "dns_requests_count" fs
              = count (DynamicAnalyzer.dns_requests net)
           /\ dict_get "http_requests_count" fs
              = count (DynamicAnalyzer.http_requests net))
        /\ (forall reg, DynamicAnalyzer.registry_changes b = Some reg ->
              dict_get "registry_keys_created" fs
              = count (DynamicAnalyzer.keys_created reg)
              /\ dict_get "registry_values_set" fs
                 = count (DynamicAnalyzer.values_set reg)
              /\ dict_get "registry_keys_deleted" fs
                 = count (DynamicAnalyzer.keys_deleted reg))
        /\ (forall files, DynamicAnalyzer.file_operations b = Some files ->
              dict_get "files_created_count" fs
              = count (DynamicAnalyzer.files_created files)
              /\ dict_get "files_deleted_count" fs
                 = count (DynamicAnalyzer.files_deleted files)
              /\ dict_get "files_modified_count" fs
                 = count (DynamicAnalyzer.files_modified files))
        /\ (forall procs, DynamicAnalyzer.process_creation b = Some procs ->
              dict_get "processes_created_count" fs
              = count (DynamicAnalyzer.processes_created procs)
              /\ dict_get "dlls_loaded_count" fs
                 = count (DynamicAnalyzer.dlls_loaded procs))).

(** A dynamic result with one behaviour category, in which two of the
    three lists are missing; and the feature mapping of the quiet static
    result with it, evaluated. *)
Definition sparse_dynamic_result : DynamicAnalyzer.DynamicResult :=
  {| DynamicAnalyzer.dr_filename := Some "sample.exe";
     DynamicAnalyzer.dr_analysis_timestamp := None;
     DynamicAnalyzer.dr_behavior := Some
       {| DynamicAnalyzer.network_activity := Some
            {| DynamicAnalyzer.tcp_connections := None;
               DynamicAnalyzer.dns_requests := Some ["update.example.org"];
               DynamicAnalyzer.http_requests := None |};
          DynamicAnalyzer.registry_changes := None;
          DynamicAnalyzer.file_operations := None;
          DynamicAnalyzer.process_creation := None |};
     DynamicAnalyzer.dr_behavior_score := None;
     DynamicAnalyzer.dr_risk_level := None;
     DynamicAnalyzer.dr_error := None |}.

Definition sparse_features : PyDict FVal :=
  Eval cbn in
    match FeatureEngineer.extract_features (rt := exact_runtime)
            quiet_static_result (Some sparse_dynamic_result)
    with
    | Ok features => features
    | Raise _ => []
    end.

(** ** Containers, byte by byte

    What "not a valid container (bad signature or truncated structures)"
    says of the bytes of a file, in the terms of the PE format: the DOS
    header starts with [MZ] and holds at 0x3c the offset of the NT headers,
    which start with [PE\0\0]; the file header (20 bytes), the optional
    header (of the size the file header gives) and the section table (40
    bytes a section) follow; a section's raw data is the [SizeOfRawData]
    bytes at [PointerToRawData]. *)

(** The unsigned little-endian integer of [width] bytes at [offset], if the
    buffer reaches that far. *)
Definition uint_le (data : bytes) (offset width : nat) : option Z :=
  let field := take width (drop offset data) in
  if Nat.eqb (length field) width
  then Some (foldr (fun b acc => (Z.of_nat (Byte.to_nat b) + 256 * acc)%Z) 0%Z field)
  else None.

Definition has_bytes_at (data : bytes) (offset : nat) (magic : bytes) : bool :=
  bool_decide (take (length magic) (drop offset data) = magic).

(** [e_lfanew] *)
Definition nt_headers_offset (data : bytes) : option nat :=
  Z.to_nat <$> uint_le data 60 4.

Definition has_signatures (data : bytes) : bool :=
  has_bytes_at data 0 [x4d; x5a]
  && match nt_headers_offset data with
     | Some nt => has_bytes_at data nt [x50; x45; x00; x00]
     | None => false
     end.

(** The section table: for each section its name, [SizeOfRawData] and
    [PointerToRawData]; [None] when the headers or the table end beyond
    the end of the buffer. *)
Definition section_table (data : bytes) : option (list (bytes * nat * nat)) :=
  match nt_headers_offset data with
  | Some nt =>
      match uint_le data (nt + 6) 2, uint_le data (nt + 20) 2 with
      | Some count, Some optional_size =>
          let table := nt + 24 + Z.to_nat optional_size in
          if (length data <? table)%nat then None
          else
            mapM (fun i =>
                    let header := table + 40 * i in
                    match uint_le data (header + 16) 4,
                          uint_le data (header + 20) 4 with
                    | Some size, Some pointer =>
                        if (length data <? header + 40)%nat then None
                        else Some (take 8 (drop header data),
                                   Z.to_nat size, Z.to_nat pointer)
                    | _, _ => None
                    end)
                 (seq 0 (Z.to_nat count))
      | _, _ => None
      end
  | None => None
  end.

Definition bad_signature (data : bytes) : bool := negb (has_signatures data).

(** A structure the headers announce ends beyond the end of the file: a
    header, the section table, or the raw data of a section. *)
Definition truncated_structures (data : bytes) : bool :=
  match section_table data with
  | Some table =>
      existsb (fun '(_, size, pointer) => (length data <? pointer + size)%nat) table
  | None => true
  end.

Definition not_a_valid_container (data : bytes) : bool :=
  bad_signature data || truncated_structures data.

(** The header part of [pefile.PE]: it raises [PEFormatError] when the DOS
    header, a signature or a header cannot be read, and lists every section
    of the section table whether or not its raw data is in the file
    ([pefile] only records a warning for raw data beyond the end of the
    file). The import and version directories are those of a file whose
    data directories are empty. *)
Definition read_pe_headers (data : bytes) : PyResult StaticAnalyzer.PE :=
  let refuse (msg : string) := Raise (mkExc PEFormatError msg) in
  if (length data <? 64)%nat
  then refuse "Unable to read the DOS Header, possibly a truncated file."
  else if negb (has_bytes_at data 0 [x4d; x5a])
  then refuse "DOS Header magic not found."
  else
    match nt_headers_offset data with
    | None => refuse "Invalid e_lfanew value, probably not a PE file"
    | Some nt =>
        if negb (has_bytes_at data nt [x50; x45; x00; x00])
        then refuse "Invalid NT Headers signature."
        else
          let file_header :=
            match uint_le data (nt + 4) 2, uint_le data (nt + 6) 2,
                  uint_le data (nt + 8) 4, uint_le data (nt + 20) 2,
                  uint_le data (nt + 22) 2 with
            | Some machine, Some count, Some stamp, Some optional_size,
              Some characteristics =>
                Some {| StaticAnalyzer.Machine := machine;
                        StaticAnalyzer.TimeDateStamp := stamp;
                        StaticAnalyzer.NumberOfSections := count;
                        StaticAnalyzer.SizeOfOptionalHeader := optional_size;
                        StaticAnalyzer.Characteristics := characteristics |}
            | _, _, _, _, _ => None
            end in
          let optional_header :=
            match uint_le data (nt + 24 + 16) 4, uint_le data (nt + 24 + 28) 4,
                  uint_le data (nt + 24 + 32) 4, uint_le data (nt + 24 + 36) 4,
                  uint_le data (nt + 24 + 68) 2 with
            | Some entry, Some base, Some section_alignment,
              Some file_alignment, Some subsystem =>
                Some {| StaticAnalyzer.AddressOfEntryPoint := entry;
                        StaticAnalyzer.ImageBase := base;
                        StaticAnalyzer.SectionAlignment := section_alignment;
                        StaticAnalyzer.FileAlignment := file_alignment;
                        StaticAnalyzer.Subsystem := subsystem |}
            | _, _, _, _, _ => None
            end in
          match file_header, optional_header, section_table data with
          | Some file_header, Some optional_header, Some table =>
              Ok {| StaticAnalyzer.FILE_HEADER := file_header;
                    StaticAnalyzer.OPTIONAL_HEADER := optional_header;
                    StaticAnalyzer.sections :=
                      map (fun '(name, _, _) => {| StaticAnalyzer.Name := name |})
                          table;
                    StaticAnalyzer.DIRECTORY_ENTRY_IMPORT := None;
                    StaticAnalyzer.VS_VERSIONINFO := None |}
          | None, _, _ => refuse "File Header missing"
          | _, None, _ =>
              refuse "No Optional Header found, invalid PE32 or PE32+ file."
          | _, _, None => refuse "Unable to read the section table."
          end
    end.

(** [n] on [width] bytes, little-endian. *)
Fixpoint le_bytes (width : nat) (n : Z) : bytes :=
  match width with
  | O => []
  | S w =>
      default x00 (Byte.of_nat (Z.to_nat (n mod 256))) :: le_bytes w (n / 256)
  end.

(** An executable cut off sixteen bytes into its only section: the
    headers are whole, the section [.text] announces 0x200 bytes of raw
    data at 0x200, and the file ends at 0x210. *)
Definition truncated_exe : bytes :=
  (* DOS header: e_magic, 58 bytes of other fields, e_lfanew *)
  ([x4d; x5a] ++ repeat x00 58 ++ le_bytes 4 64
   (* NT signature *)
   ++ [x50; x45; x00; x00]
   (* file header: Machine, NumberOfSections, TimeDateStamp, symbol table,
      SizeOfOptionalHeader, Characteristics *)
   ++ le_bytes 2 332 ++ le_bytes 2 1 ++ le_bytes 4 0 ++ repeat x00 8
   ++ le_bytes 2 224 ++ le_bytes 2 258
   (* optional header: Magic, linker and sizes, AddressOfEntryPoint,
      BaseOfCode, BaseOfData, ImageBase, SectionAlignment, FileAlignment,
      versions, SizeOfImage, SizeOfHeaders, CheckSum, Subsystem, the rest,
      NumberOfRvaAndSizes, sixteen empty data directories *)
   ++ le_bytes 2 267 ++ repeat x00 14 ++ le_bytes 4 4096
   ++ le_bytes 4 4096 ++ le_bytes 4 0 ++ le_bytes 4 4194304
   ++ le_bytes 4 4096 ++ le_bytes 4 512
   ++ repeat x00 16 ++ le_bytes 4 8192 ++ le_bytes 4 512 ++ le_bytes 4 0
   ++ le_bytes 2 3 ++ repeat x00 22 ++ le_bytes 4 16 ++ repeat x00 128
   (* section header: Name, VirtualSize, VirtualAddress, SizeOfRawData,
      PointerToRawData, relocations and line numbers, Characteristics *)
   ++ [x2e; x74; x65; x78; x74; x00; x00; x00]
   ++ le_bytes 4 4096 ++ le_bytes 4 4096 ++ le_bytes 4 512 ++ le_bytes 4 512
   ++ repeat x00 12 ++ le_bytes 4 1610612768
   (* padding up to 0x200, then the first sixteen bytes of the section *)
   ++ repeat x00 160 ++ repeat x90 16)%list.

(** What the headers of [truncated_exe] hold. *)
Definition truncated_pe : StaticAnalyzer.PE :=
  {| StaticAnalyzer.FILE_HEADER := StaticAnalyzer.FILE_HEADER injector_pe;
     StaticAnalyzer.OPTIONAL_HEADER := StaticAnalyzer.OPTIONAL_HEADER injector_pe;
     StaticAnalyzer.sections :=
       [ {| StaticAnalyzer.Name := [x2e; x74; x65; x78; x74; x00; x00; x00] |} ];
     StaticAnalyzer.DIRECTORY_ENTRY_IMPORT := None;
     StaticAnalyzer.VS_VERSIONINFO := None |}.

(** The container [injector_pe] with a section whose name is not UTF-8
    (the byte 0xe9, a Latin-1 letter). *)
Definition latin1_section_pe : StaticAnalyzer.PE :=
  {| StaticAnalyzer.FILE_HEADER := StaticAnalyzer.FILE_HEADER injector_pe;
     StaticAnalyzer.OPTIONAL_HEADER := StaticAnalyzer.OPTIONAL_HEADER injector_pe;
     StaticAnalyzer.sections :=
       [ {| StaticAnalyzer.Name := [x2e; x63; x6f; x64; xe9; x00; x00; x00] |} ];
     StaticAnalyzer.DIRECTORY_ENTRY_IMPORT :=
       StaticAnalyzer.DIRECTORY_ENTRY_IMPORT injector_pe;
     StaticAnalyzer.VS_VERSIONINFO := None |}.

(** ** The import table and the import mapping *)

(** The names the mapping lists for a descriptor: those of its imports
    that have a name, in order. *)
Definition listed_functions (entry : StaticAnalyzer.ImportDescData) : list string :=
  map str_of_bytes
      (omap StaticAnalyzer.truthy_name (StaticAnalyzer.imports entry)).

(** The descriptors of a library, in the order of the table. *)
Definition descriptors_of (library : string)
  (table : list StaticAnalyzer.ImportDescData) : list StaticAnalyzer.ImportDescData :=
  List.filter
    (fun entry => bool_decide (StaticAnalyzer.dll entry = list_byte_of_string library))
    table.

(** A container with two descriptors of kernel32.dll, one import by
    ordinal (no name), and a descriptor of user32.dll between them. *)
Definition repeated_library_pe : StaticAnalyzer.PE :=
  {| StaticAnalyzer.FILE_HEADER := StaticAnalyzer.FILE_HEADER injector_pe;
     StaticAnalyzer.OPTIONAL_HEADER := StaticAnalyzer.OPTIONAL_HEADER injector_pe;
     StaticAnalyzer.sections := StaticAnalyzer.sections injector_pe;
     StaticAnalyzer.DIRECTORY_ENTRY_IMPORT := Some
       [ {| StaticAnalyzer.dll := list_byte_of_string "kernel32.dll";
            StaticAnalyzer.imports :=
              [ {| StaticAnalyzer.imp_name :=
                     Some (list_byte_of_string "CreateFileA") |};
                {| StaticAnalyzer.imp_name := None |} ] |};
         {| StaticAnalyzer.dll := list_byte_of_string "user32.dll";
            StaticAnalyzer.imports :=
              [ {| StaticAnalyzer.imp_name :=
                     Some (list_byte_of_string "MessageBoxA") |} ] |};
         {| StaticAnalyzer.dll := list_byte_of_string "kernel32.dll";
            StaticAnalyzer.imports :=
              [ {| StaticAnalyzer.imp_name := None |};
                {| StaticAnalyzer.imp_name :=
                     Some (list_byte_of_string "ExitProcess") |} ] |} ];
     StaticAnalyzer.VS_VERSIONINFO := None |}.

(** The quiet static result with the import mapping of [injector_pe], and
    its static features, evaluated. *)
Definition importing_static_result : StaticAnalyzer.StaticResult :=
  {| StaticAnalyzer.sr_error := None;
     StaticAnalyzer.sr_file_info := None;
     StaticAnalyzer.sr_strings := StaticAnalyzer.sr_strings quiet_static_result;
     StaticAnalyzer.sr_entropy := Some 0%R;
     StaticAnalyzer.sr_pe_headers := Some StaticAnalyzer.empty_headers;
     StaticAnalyzer.sr_imports := Some
       [ ("kernel32.dll",
          ["CreateRemoteThread"; "WriteProcessMemory"; "ExitProcess"]) ];
     StaticAnalyzer.sr_metadata := Some [];
     StaticAnalyzer.sr_suspicious_indicators :=
       StaticAnalyzer.sr_suspicious_indicators quiet_static_result;
     StaticAnalyzer.sr_analysis_note := None |}.

Definition importing_static_features : PyDict FVal :=
  Eval vm_compute in
    match FeatureEngineer._extract_static_features (rt := exact_runtime)
            importing_static_result with
    | Ok features => features
    | Raise _ => []
    end.

(* ================================================================== *)
(** * Properties *)
(* ================================================================== *)

Section Properties.

(** The properties hold on every runtime; the examples run on
    [exact_runtime]. *)
Context {rt : Runtime}.

(** ** Entropy *)

Section EntropyFacts.
Local Open Scope R_scope.

Lemma ln_le_minus_1 (x : R) : 0 < x -> ln x <= x - 1.
Proof.
  intros Hx. pose proof (exp_ineq1_le (ln x)) as H.
  rewrite exp_ln in H by assumption. lra.
Qed.

Lemma ln_256 : ln 256 = 8 * ln 2.
Proof.
  replace 256 with (2 ^ 8) by lra.
  rewrite ln_pow by lra. simpl. lra.
Qed.

Lemma ln_2_pos : 0 < ln 2.
Proof. pose proof ln_lt_2. lra. Qed.

Lemma entropy_loop_sum (total : nat) (counts : list nat) (acc : R) :
  fold_left
    (fun entropy count =>
       let probability := INR count / INR total in
       entropy - probability * log2 probability) counts acc
  = acc + entropy_sum total counts.
Proof.
  revert acc. induction counts as [|c counts IH]; intros acc; simpl.
  - lra.
  - rewrite IH. unfold entropy_term. lra.
Qed.

Lemma entropy_term_nonneg (total count : nat) :
  (0 < count <= total)%nat -> 0 <= entropy_term total count.
Proof.
  intros [Hc Hle]. unfold entropy_term, log2.
  assert (0 < INR count) by (apply lt_0_INR; lia).
  assert (INR count <= INR total) by (apply le_INR; lia).
  assert (0 < INR total) by lra.
  set (p := INR count / INR total).
  assert (Hp : 0 < p <= 1).
  { unfold p. split.
    - apply Rdiv_lt_0_compat; assumption.
    - apply (Rmult_le_reg_r (INR total)); [assumption|].
      unfold Rdiv. rewrite Rmult_assoc, Rinv_l by lra. lra. }
  assert (ln p <= 0).
  { pose proof (ln_le_minus_1 p (proj1 Hp)). lra. }
  pose proof ln_2_pos.
  assert (ln p / ln 2 <= 0).
  { unfold Rdiv. rewrite <- (Rmult_0_l (/ ln 2)).
    apply Rmult_le_compat_r; [|assumption].
    left. apply Rinv_0_lt_compat. assumption. }
  nra.
Qed.

(** Gibbs' inequality against the uniform distribution, one summand. *)
Lemma entropy_term_gibbs (total count : nat) :
  (0 < count)%nat -> (0 < total)%nat ->
  entropy_term total count * ln 2
  <= INR count / INR total * ln 256 + / 256 - INR count / INR total.
Proof.
  intros Hc Ht. unfold entropy_term, log2.
  assert (0 < INR count) by (apply lt_0_INR; lia).
  assert (0 < INR total) by (apply lt_0_INR; lia).
  set (p := INR count / INR total).
  assert (Hp : 0 < p) by (apply Rdiv_lt_0_compat; assumption).
  pose proof ln_2_pos as H2.
  replace (- (p * (ln p / ln 2)) * ln 2) with (- (p * ln p)) by (field; lra).
  assert (Hq : 0 < / (256 * p)) by (apply Rinv_0_lt_compat; lra).
  pose proof (ln_le_minus_1 _ Hq) as Hln.
  rewrite ln_Rinv in Hln by lra.
  rewrite ln_mult in Hln by lra.
  assert (Hmul : p * (- (ln 256 + ln p)) <= p * (/ (256 * p) - 1)).
  { apply Rmult_le_compat_l; lra. }
  replace (p * (/ (256 * p) - 1)) with (/ 256 - p) in Hmul by (field; lra).
  lra.
Qed.

Lemma entropy_sum_nonneg (total : nat) (counts : list nat) :
  Forall (fun c => (0 < c <= total)%nat) counts ->
  0 <= entropy_sum total counts.
Proof.
  induction 1 as [|c counts Hc _ IH]; simpl; [lra|].
  pose proof (entropy_term_nonneg total c Hc). lra.
Qed.

Lemma entropy_sum_gibbs (total : nat) (counts : list nat) :
  (0 < total)%nat ->
  Forall (fun c => (0 < c)%nat) counts ->
  entropy_sum total counts * ln 2
  <= INR (sum_list counts) / INR total * ln 256
     + INR (length counts) / 256 - INR (sum_list counts) / INR total.
Proof.
  intros Ht. induction 1 as [|c counts Hc _ IH].
  - simpl. lra.
  - change (sum_list (c :: counts)) with (c + sum_list counts)%nat.
    cbn [entropy_sum foldr length].
    fold (entropy_sum total counts).
    pose proof (entropy_term_gibbs total c Hc Ht) as Hterm.
    rewrite plus_INR, S_INR.
    rewrite !Rdiv_plus_distr, Rmult_plus_distr_r. lra.
Qed.

(** The bound for any histogram: positive counts that sum to the length,
    over at most 256 distinct values. *)
Lemma entropy_sum_le_8 (total : nat) (counts : list nat) :
  (0 < total)%nat ->
  Forall (fun c => (0 < c)%nat) counts ->
  sum_list counts = total ->
  (length counts <= 256)%nat ->
  entropy_sum total counts <= 8.
Proof.
  intros Ht Hpos Hsum Hlen.
  pose proof (entropy_sum_gibbs total counts Ht Hpos) as H.
  rewrite Hsum in H.
  assert (0 < INR total) by (apply lt_0_INR; lia).
  replace (INR total / INR total) with 1 in H by (field; lra).
  assert (INR (length counts) <= 256).
  { replace 256 with (INR 256) by (simpl; lra). apply le_INR. assumption. }
  rewrite ln_256 in H. pose proof ln_2_pos. nra.
Qed.

End EntropyFacts.

(** *** The counter is the histogram of the buffer *)

Lemma counter_incr_sum (b : byte) (c : list (byte * nat)) :
  sum_list (map snd (counter_incr b c)) = S (sum_list (map snd c)).
Proof.
  induction c as [|[b' n] c IH]; simpl; [reflexivity|].
  destruct (Byte.eqb b b'); simpl; [reflexivity|]. rewrite IH. lia.
Qed.

Lemma counter_incr_pos (b : byte) (c : list (byte * nat)) :
  Forall (fun n => 0 < n) (map snd c) ->
  Forall (fun n => 0 < n) (map snd (counter_incr b c)).
Proof.
  induction c as [|[b' n] c IH]; simpl; intros H.
  - repeat constructor.
  - inversion H; subst. destruct (Byte.eqb b b'); simpl; constructor; auto; lia.
Qed.

Lemma counter_incr_In (x b : byte) (c : list (byte * nat)) :
  In x (map fst (counter_incr b c)) <-> x = b \/ In x (map fst c).
Proof.
  induction c as [|[b' n] c IH]; simpl.
  - intuition congruence.
  - destruct (Byte.eqb b b') eqn:E; simpl.
    + apply Byte.byte_dec_bl in E. subst. intuition congruence.
    + rewrite IH. intuition congruence.
Qed.

Lemma counter_incr_NoDup (b : byte) (c : list (byte * nat)) :
  List.NoDup (map fst c) -> List.NoDup (map fst (counter_incr b c)).
Proof.
  induction c as [|[b' n] c IH]; simpl; intros H.
  - constructor; [intros [] | constructor].
  - inversion H as [|? ? Hnotin Hnd]; subst.
    destruct (Byte.eqb b b') eqn:E; simpl.
    + constructor; assumption.
    + apply Byte.eqb_false in E. constructor; [|auto].
      rewrite counter_incr_In. intros [->|Hin]; [congruence | contradiction].
Qed.

Lemma counter_incr_get (b b' : byte) (c : list (byte * nat)) :
  counter_get b (counter_incr b' c)
  = counter_get b c + (if Byte.eqb b b' then 1 else 0).
Proof.
  induction c as [|[k n] c IH]; simpl.
  - destruct (Byte.eqb b b'); reflexivity.
  - destruct (Byte.eqb b' k) eqn:E; simpl.
    + apply Byte.byte_dec_bl in E. subst k.
      destruct (Byte.eqb b b'); lia.
    + destruct (Byte.eqb b k) eqn:E'; [|apply IH].
      apply Byte.byte_dec_bl in E'. subst k.
      destruct (Byte.eqb b b') eqn:E''; [|lia].
      apply Byte.byte_dec_bl in E''. subst b'.
      rewrite (Byte.byte_dec_lb eq_refl) in E. discriminate.
Qed.

Lemma occurrences_cons (b x : byte) (data : bytes) :
  occurrences b (x :: data)
  = (if Byte.eqb b x then 1 else 0) + occurrences b data.
Proof.
  unfold occurrences. simpl. destruct (Byte.eqb b x); reflexivity.
Qed.

Lemma Counter_loop_spec (data : bytes) (c : list (byte * nat)) :
  let c' := fold_left (fun c b => counter_incr b c) data c in
  sum_list (map snd c') = length data + sum_list (map snd c)
  /\ (Forall (fun n => 0 < n) (map snd c) -> Forall (fun n => 0 < n) (map snd c'))
  /\ (List.NoDup (map fst c) -> List.NoDup (map fst c'))
  /\ (forall b, counter_get b c' = counter_get b c + occurrences b data).
Proof.
  revert c. induction data as [|x data IH]; intros c; simpl.
  - repeat split; auto.
  - destruct (IH (counter_incr x c)) as (Hsum & Hpos & Hnd & Hget).
    repeat split.
    + rewrite Hsum, counter_incr_sum. lia.
    + intros H. apply Hpos, counter_incr_pos, H.
    + intros H. apply Hnd, counter_incr_NoDup, H.
    + intros b. rewrite Hget, counter_incr_get, occurrences_cons. lia.
Qed.

Lemma Counter_sum (data : bytes) :
  sum_list (map snd (Counter data)) = length data.
Proof.
  destruct (Counter_loop_spec data []) as (H & _). simpl in H.
  unfold Counter. lia.
Qed.

Lemma Counter_pos (data : bytes) :
  Forall (fun n => 0 < n) (map snd (Counter data)).
Proof.
  destruct (Counter_loop_spec data []) as (_ & H & _).
  apply H. constructor.
Qed.

Lemma Counter_NoDup (data : bytes) : List.NoDup (map fst (Counter data)).
Proof.
  destruct (Counter_loop_spec data []) as (_ & _ & H & _).
  apply H. constructor.
Qed.

Lemma Counter_get (data : bytes) (b : byte) :
  counter_get b (Counter data) = occurrences b data.
Proof.
  destruct (Counter_loop_spec data []) as (_ & _ & _ & H).
  apply H.
Qed.

(** A list of distinct byte values has at most 256 elements. *)
Lemma NoDup_bytes_length (l : list byte) : List.NoDup l -> length l <= 256.
Proof.
  intros H.
  assert (Hmap : List.NoDup (map Byte.to_nat l)).
  { apply Finite.Injective_map_NoDup; [|assumption].
    intros x y Hxy.
    pose proof (Byte.of_to_nat x) as Hx. pose proof (Byte.of_to_nat y) as Hy.
    rewrite Hxy in Hx. congruence. }
  rewrite <- (length_map Byte.to_nat l).
  change 256 with (length (seq 0 256)).
  apply NoDup_incl_length; [assumption|].
  intros n Hn. apply in_map_iff in Hn as (x & <- & _).
  apply in_seq. pose proof (Byte.to_nat_bounded x). lia.
Qed.

Lemma all_bytes_to_nat : map Byte.to_nat all_bytes = seq 0 256.
Proof. vm_compute. reflexivity. Qed.

Lemma all_bytes_complete (b : byte) : In b all_bytes.
Proof.
  apply list_elem_of_In, list_elem_of_omap. exists (Byte.to_nat b). split.
  - apply list_elem_of_In, in_seq. pose proof (Byte.to_nat_bounded b). lia.
  - apply Byte.of_to_nat.
Qed.

Lemma counter_get_absent (b : byte) (c : list (byte * nat)) :
  ~ In b (map fst c) -> counter_get b c = 0.
Proof.
  induction c as [|[b' n] c IH]; simpl; intros H; [reflexivity|].
  destruct (Byte.eqb b b') eqn:E.
  - apply Byte.byte_dec_bl in E. subst. tauto.
  - apply IH. tauto.
Qed.

Lemma counter_get_In (b : byte) (n : nat) (c : list (byte * nat)) :
  List.NoDup (map fst c) -> In (b, n) c -> counter_get b c = n.
Proof.
  induction c as [|[b' n'] c IH]; simpl; intros Hnd Hin; [contradiction|].
  inversion Hnd as [|? ? Hnotin Hnd']; subst.
  destruct Hin as [Heq|Hin].
  - inversion Heq; subst. rewrite (Byte.byte_dec_lb eq_refl). reflexivity.
  - destruct (Byte.eqb b b') eqn:E; [|auto].
    apply Byte.byte_dec_bl in E. subst b'.
    exfalso. apply Hnotin. apply in_map_iff. exists (b, n). auto.
Qed.

Lemma Counter_loop_const (b : byte) (data : bytes) (n : nat) :
  Forall (eq b) data ->
  fold_left (fun c x => counter_incr x c) data [(b, n)]
  = [(b, n + length data)].
Proof.
  revert n. induction data as [|x data IH]; intros n H; simpl.
  - f_equal. f_equal. lia.
  - inversion H; subst. rewrite (Byte.byte_dec_lb eq_refl).
    rewrite IH by assumption. f_equal. f_equal. lia.
Qed.

Lemma Counter_const (b : byte) (data : bytes) :
  data <> [] -> Forall (eq b) data -> Counter data = [(b, length data)].
Proof.
  intros Hne H. destruct data as [|x data]; [congruence|].
  inversion H; subst. unfold Counter. simpl.
  apply Counter_loop_const. assumption.
Qed.

Lemma entropy_of_data_sum (data : bytes) :
  data <> [] ->
  StaticAnalyzer.entropy_of_data (rt := exact_runtime) data
  = entropy_sum (length data) (map snd (Counter data)).
Proof.
  intros Hne. unfold StaticAnalyzer.entropy_of_data, exact_runtime.
  cbn [round64 math_log2].
  destruct data as [|x data]; [congruence|].
  cbn [length Nat.eqb]. rewrite entropy_loop_sum. lra.
Qed.

Lemma entropy_of_data_range (data : bytes) :
  data <> [] -> (0 <= StaticAnalyzer.entropy_of_data (rt := exact_runtime) data <= 8)%R.
Proof.
  intros Hne. rewrite entropy_of_data_sum by assumption.
  assert (Hlen : 0 < length data) by (destruct data; [congruence | simpl; lia]).
  pose proof (Counter_sum data) as Hsum.
  pose proof (Counter_pos data) as Hpos.
  split.
  - apply entropy_sum_nonneg.
    rewrite Forall_forall in Hpos |- *. intros c Hc.
    split; [apply Hpos, Hc|].
    rewrite <- Hsum.
    apply sum_list_with_in with (f := fun x => x) in Hc. exact Hc.
  - apply entropy_sum_le_8; try assumption.
    rewrite length_map, <- (length_map fst).
    apply NoDup_bytes_length, Counter_NoDup.
Qed.

Lemma entropy_of_data_constant (b : byte) (data : bytes) :
  data <> [] -> Forall (eq b) data ->
  StaticAnalyzer.entropy_of_data (rt := exact_runtime) data = 0%R.
Proof.
  intros Hne H. rewrite entropy_of_data_sum by assumption.
  rewrite (Counter_const b) by assumption. simpl.
  unfold entropy_term, log2.
  assert (0 < INR (length data))%R.
  { apply lt_0_INR. destruct data; [congruence | simpl; lia]. }
  replace (INR (length data) / INR (length data))%R with 1%R by (field; lra).
  rewrite ln_1. pose proof ln_2_pos. field. lra.
Qed.

Lemma entropy_sum_const (total k : nat) (counts : list nat) :
  Forall (eq k) counts ->
  entropy_sum total counts = (INR (length counts) * entropy_term total k)%R.
Proof.
  induction 1 as [|c counts Hc _ IH].
  - simpl. lra.
  - subst c. cbn [entropy_sum foldr length]. fold (entropy_sum total counts).
    rewrite IH, S_INR. lra.
Qed.

Lemma sum_list_const (k : nat) (counts : list nat) :
  Forall (eq k) counts -> sum_list counts = length counts * k.
Proof.
  induction 1 as [|c counts Hc _ IH]; [reflexivity|].
  subst c. change (sum_list (k :: counts)) with (k + sum_list counts).
  rewrite IH. simpl. lia.
Qed.

Lemma all_bytes_NoDup : List.NoDup all_bytes.
Proof.
  apply (NoDup_map_inv Byte.to_nat). rewrite all_bytes_to_nat.
  apply NoDup_ListNoDup, NoDup_seq.
Qed.

Lemma all_bytes_length : length all_bytes = 256.
Proof. rewrite <- (length_map Byte.to_nat), all_bytes_to_nat. reflexivity. Qed.

Lemma entropy_term_uniform (k : nat) :
  0 < k -> entropy_term (256 * k) k = (8 / 256)%R.
Proof.
  intros Hk. unfold entropy_term, log2.
  assert (0 < INR k)%R by (apply lt_0_INR; lia).
  rewrite mult_INR. replace (INR 256) with 256%R by (simpl; lra).
  replace (INR k / (256 * INR k))%R with (/ 256)%R by (field; lra).
  rewrite ln_Rinv by lra. rewrite ln_256.
  pose proof ln_2_pos. field. lra.
Qed.

Lemma Counter_uniform (data : bytes) :
  data <> [] ->
  (forall b b', occurrences b data = occurrences b' data) ->
  exists k, 0 < k /\ length data = 256 * k
            /\ length (Counter data) = 256
            /\ Forall (eq k) (map snd (Counter data)).
Proof.
  intros Hne Huni. destruct data as [|x data']; [congruence|].
  set (data := x :: data') in *.
  exists (occurrences x data).
  assert (Hk : 0 < occurrences x data).
  { unfold data. rewrite occurrences_cons, (Byte.byte_dec_lb eq_refl). lia. }
  assert (Hget : forall b, counter_get b (Counter data) = occurrences x data).
  { intros b. rewrite Counter_get. apply Huni. }
  assert (Hall : Forall (eq (occurrences x data)) (map snd (Counter data))).
  { apply List.Forall_forall. intros n Hn.
    apply in_map_iff in Hn as ([b n'] & Heq & Hin). simpl in Heq. subst n'.
    rewrite <- (Hget b).
    apply counter_get_In; [apply Counter_NoDup | assumption]. }
  assert (Hlen : length (Counter data) = 256).
  { rewrite <- (length_map fst). apply Nat.le_antisymm.
    - apply NoDup_bytes_length, Counter_NoDup.
    - rewrite <- all_bytes_length.
      apply NoDup_incl_length; [apply all_bytes_NoDup|].
      intros b _. destruct (in_dec byte_eq_dec b (map fst (Counter data))) as [|Hn];
        [assumption|].
      apply counter_get_absent in Hn. rewrite Hget in Hn. lia. }
  repeat split; try assumption.
  rewrite <- (Counter_sum data), (sum_list_const _ _ Hall), length_map, Hlen.
  reflexivity.
Qed.

Lemma entropy_of_data_uniform (data : bytes) :
  data <> [] ->
  (forall b b', occurrences b data = occurrences b' data) ->
  StaticAnalyzer.entropy_of_data (rt := exact_runtime) data = 8%R.
Proof.
  intros Hne Huni. rewrite entropy_of_data_sum by assumption.
  destruct (Counter_uniform data Hne Huni) as (k & Hk & Hlen & Hc & Hall).
  rewrite (entropy_sum_const _ k) by assumption.
  rewrite length_map, Hc, Hlen, entropy_term_uniform by assumption.
  simpl. lra.
Qed.

(** In exact arithmetic (no rounding, [math.log2] the real logarithm)
    the value that [StaticAnalyzer._calculate_entropy] computes for a
    non-empty buffer lies in [0, 8]; it is 0 when the buffer is one byte
    value repeated, and 8 when all 256 byte values occur equally often.
    Only the rounding of the float operations can take the result of the
    code outside this range. *)
Lemma calculate_entropy_exact_arithmetic :
  forall (fs : gmap string File) (filepath : string) (data : bytes),
    read_bytes fs filepath = Ok data ->
    data <> [] ->
    exists H : R,
      StaticAnalyzer._calculate_entropy (rt := exact_runtime) fs filepath = Ok H
      /\ (0 <= H <= 8)%R
      /\ ((exists b, Forall (eq b) data) -> H = 0%R)
      /\ ((forall b b', occurrences b data = occurrences b' data) -> H = 8%R).
Proof.
  intros fs filepath data Hread Hne.
  exists (StaticAnalyzer.entropy_of_data (rt := exact_runtime) data).
  unfold StaticAnalyzer._calculate_entropy. rewrite Hread. simpl.
  split; [reflexivity|]. split; [|split].
  - apply entropy_of_data_range, Hne.
  - intros [b Hb]. apply (entropy_of_data_constant b); assumption.
  - intros Huni. apply entropy_of_data_uniform; assumption.
Qed.

(** ** Behaviour score *)

Lemma fold_left_monotone {A : Type} (f : Z -> A -> Z) (l : list A) (acc : Z) :
  (forall s x, s <= f s x)%Z -> (acc <= fold_left f l acc)%Z.
Proof.
  intros Hf. revert acc. induction l as [|x l IH]; intros acc; simpl.
  - lia.
  - etransitivity; [apply (Hf acc x) | apply IH].
Qed.

Lemma len_nonneg {A : Type} (l : list A) : (0 <= DynamicAnalyzer.len l)%Z.
Proof. unfold DynamicAnalyzer.len. lia. Qed.

Lemma score_network_ge (net : DynamicAnalyzer.NetworkActivity) (score : Z) :
  (score <= DynamicAnalyzer.score_network net score)%Z.
Proof.
  unfold DynamicAnalyzer.score_network.
  pose proof (len_nonneg (default [] (DynamicAnalyzer.tcp_connections net))).
  pose proof (len_nonneg (default [] (DynamicAnalyzer.http_requests net))).
  etransitivity; [|apply fold_left_monotone].
  - lia.
  - intros s x. destruct (str_contains _ _); lia.
Qed.

Lemma score_registry_ge (reg : DynamicAnalyzer.RegistryChanges) (score : Z) :
  (score <= DynamicAnalyzer.score_registry reg score)%Z.
Proof.
  unfold DynamicAnalyzer.score_registry.
  pose proof (len_nonneg (default [] (DynamicAnalyzer.keys_created reg))).
  pose proof (len_nonneg (default [] (DynamicAnalyzer.values_set reg))).
  etransitivity; [|apply fold_left_monotone].
  - lia.
  - intros s x. destruct (str_contains _ _); lia.
Qed.

Lemma score_files_ge (files : DynamicAnalyzer.FileOperations) (score : Z) :
  (score <= DynamicAnalyzer.score_files files score)%Z.
Proof.
  unfold DynamicAnalyzer.score_files.
  pose proof (len_nonneg (default [] (DynamicAnalyzer.files_created files))).
  pose proof (len_nonneg (default [] (DynamicAnalyzer.files_deleted files))).
  pose proof (len_nonneg (default [] (DynamicAnalyzer.files_modified files))).
  lia.
Qed.

Lemma score_processes_ge (procs : DynamicAnalyzer.ProcessCreation) (score : Z) :
  (score <= DynamicAnalyzer.score_processes procs score)%Z.
Proof.
  unfold DynamicAnalyzer.score_processes. apply fold_left_monotone.
  intros s x. repeat destruct (str_contains _ _); lia.
Qed.

Lemma when_present_ge {A : Type} (section : option A) (body : A -> Z -> Z) (score : Z) :
  (forall x s, s <= body x s)%Z ->
  (score <= DynamicAnalyzer.when_present section body score)%Z.
Proof.
  intros H. destruct section; simpl; [apply H | lia].
Qed.

(** C9. For every behaviour record, whatever its event lists, the score
    computed by [DynamicAnalyzer._calculate_behavior_score] is an integer
    between 0 and 100. *)
Theorem calculate_behavior_score_range :
  forall behavior : DynamicAnalyzer.Behavior,
    (0 <= DynamicAnalyzer._calculate_behavior_score behavior <= 100)%Z.
Proof.
  intros behavior. unfold DynamicAnalyzer._calculate_behavior_score.
  split; [|apply Z.le_min_r].
  apply Z.min_glb; [|lia].
  etransitivity; [|apply when_present_ge, score_processes_ge].
  etransitivity; [|apply when_present_ge, score_files_ge].
  etransitivity; [|apply when_present_ge, score_registry_ge].
  apply when_present_ge, score_network_ge.
Qed.

(** ** Risk tier *)

Lemma float_gt_true (x y : R) : (x > y)%R -> float_gt x y = true.
Proof. intros H. unfold float_gt. destruct (Rgt_dec x y); [reflexivity | contradiction]. Qed.

Lemma float_gt_false (x y : R) : ~ (x > y)%R -> float_gt x y = false.
Proof. intros H. unfold float_gt. destruct (Rgt_dec x y); [contradiction | reflexivity]. Qed.

Lemma risk_of_not_malicious (p : PredictionEngine.PredictionResult) :
  PredictionEngine.pr_prediction p <> Some "malicious" ->
  PredictionEngine.risk_of p = "SAFE".
Proof.
  intros H. unfold PredictionEngine.risk_of.
  rewrite bool_decide_eq_false_2 by assumption. reflexivity.
Qed.

Lemma risk_of_malicious (p : PredictionEngine.PredictionResult) :
  PredictionEngine.pr_prediction p = Some "malicious" ->
  PredictionEngine.risk_of p =
    if float_gt (default 0%R (PredictionEngine.pr_confidence p)) (8 / 10) then "HIGH"
    else if float_gt (default 0%R (PredictionEngine.pr_confidence p)) (6 / 10)
         then "MEDIUM" else "LOW".
Proof.
  intros H. unfold PredictionEngine.risk_of.
  rewrite bool_decide_eq_true_2 by assumption. reflexivity.
Qed.

(** C6. The risk tier of the assessment: a malicious label with confidence
    above 0.8 gives HIGH; malicious with confidence above 0.6 but not above
    0.8 gives MEDIUM; malicious otherwise gives LOW; benign gives SAFE. The
    confidence is the one [prediction_result.get('confidence', 0)] reads. *)
Theorem generate_assessment_risk_tier :
  forall (static_result : StaticAnalyzer.StaticResult)
         (dynamic_result : DynamicAnalyzer.DynamicResult)
         (prediction_result : PredictionEngine.PredictionResult),
    let confidence :=
      default 0%R (PredictionEngine.pr_confidence prediction_result) in
    let tier :=
      PredictionEngine.risk_level
        (PredictionEngine._generate_assessment
           static_result dynamic_result prediction_result) in
    (PredictionEngine.pr_prediction prediction_result = Some "malicious" ->
     (confidence > 8 / 10)%R -> tier = "HIGH")
    /\ (PredictionEngine.pr_prediction prediction_result = Some "malicious" ->
        (confidence > 6 / 10)%R -> ~ (confidence > 8 / 10)%R -> tier = "MEDIUM")
    /\ (PredictionEngine.pr_prediction prediction_result = Some "malicious" ->
        ~ (confidence > 6 / 10)%R -> tier = "LOW")
    /\ (PredictionEngine.pr_prediction prediction_result = Some "benign" ->
        tier = "SAFE").
Proof.
  intros s d p confidence tier. subst confidence tier. simpl.
  repeat split.
  - intros Hm H8. rewrite risk_of_malicious, float_gt_true by assumption.
    reflexivity.
  - intros Hm H6 H8. rewrite risk_of_malicious by assumption.
    rewrite (float_gt_false _ _ H8), (float_gt_true _ _ H6). reflexivity.
  - intros Hm H6. rewrite risk_of_malicious by assumption.
    rewrite (float_gt_false _ (6 / 10)) by assumption.
    rewrite float_gt_false; [reflexivity|]. lra.
  - intros Hb. apply risk_of_not_malicious. rewrite Hb. discriminate.
Qed.

(** C10. Whenever the label of the prediction result is not 'malicious',
    the 'unknown' label of a failed inference included, the risk tier of
    the assessment is SAFE. *)
Theorem generate_assessment_safe_unless_malicious :
  forall (static_result : StaticAnalyzer.StaticResult)
         (dynamic_result : DynamicAnalyzer.DynamicResult)
         (prediction_result : PredictionEngine.PredictionResult),
    PredictionEngine.pr_prediction prediction_result <> Some "malicious" ->
    PredictionEngine.risk_level
      (PredictionEngine._generate_assessment
         static_result dynamic_result prediction_result) = "SAFE".
Proof.
  intros s d p H. simpl. apply risk_of_not_malicious, H.
Qed.

(** ** Persistence: what the autorun marker changes *)

Lemma autorun_fold_ge (keys : list string) (key : string) (acc : Z) :
  In key keys -> str_contains "Run" key = true ->
  (acc + 15 <=
   fold_left
     (fun score key => if str_contains "Run" key then score + 15 else score)
     keys acc)%Z.
Proof.
  revert acc. induction keys as [|k keys IH]; intros acc Hin Hrun; [contradiction|].
  simpl. destruct Hin as [->|Hin].
  - rewrite Hrun.
    apply (fold_left_monotone
             (fun score key => if str_contains "Run" key then score + 15 else score)%Z).
    intros s x. cbv beta. destruct (str_contains "Run" x); lia.
  - etransitivity; [|apply IH; assumption].
    destruct (str_contains "Run" k); lia.
Qed.

Lemma score_registry_autorun (reg : DynamicAnalyzer.RegistryChanges)
  (keys : list string) (key : string) (score : Z) :
  DynamicAnalyzer.keys_created reg = Some keys ->
  In key keys -> str_contains "Run" key = true ->
  (score + 16 <= DynamicAnalyzer.score_registry reg score)%Z.
Proof.
  intros Hkeys Hin Hrun. unfold DynamicAnalyzer.score_registry.
  rewrite Hkeys. simpl.
  pose proof (len_nonneg (default [] (DynamicAnalyzer.values_set reg))).
  assert (1 <= DynamicAnalyzer.len keys)%Z.
  { unfold DynamicAnalyzer.len. destruct keys; [contradiction | simpl; lia]. }
  etransitivity; [|apply (autorun_fold_ge keys key); assumption]. lia.
Qed.

Lemma indicators_forms (static_result : StaticAnalyzer.StaticResult)
  (dynamic_result : DynamicAnalyzer.DynamicResult)
  (prediction_result : PredictionEngine.PredictionResult) (ind : string) :
  In ind (PredictionEngine.key_indicators
            (PredictionEngine._generate_assessment
               static_result dynamic_result prediction_result)) ->
  ind = "File appears to be packed"
  \/ ind = "High entropy detected (possible encryption)"
  \/ (exists n, ind = "Suspicious API imports: " ++ str_of_nat n)
  \/ (exists score, DynamicAnalyzer.dr_behavior_score dynamic_result = Some score
                    /\ (50 < score)%Z
                    /\ ind = "High behavior score: " ++ str_of_Z score)
  \/ (exists n, ind = "Suspicious strings found: " ++ str_of_nat n).
Proof.
  simpl. rewrite !in_app_iff. intros [H|[H|H]].
  - unfold PredictionEngine.static_indicators in H.
    destruct (StaticAnalyzer.sr_suspicious_indicators static_result) as [si|];
      [|contradiction].
    rewrite !in_app_iff in H. destruct H as [H|[H|H]].
    + destruct (PredictionEngine.truthy_flag _); [|contradiction].
      destruct H as [<-|[]]. auto.
    + destruct (PredictionEngine.truthy_flag _); [|contradiction].
      destruct H as [<-|[]]. auto.
    + destruct (PredictionEngine.truthy_list _); [|contradiction].
      destruct H as [<-|[]]. right. right. left. eauto.
  - unfold PredictionEngine.dynamic_indicators in H.
    destruct (DynamicAnalyzer.dr_behavior_score dynamic_result) as [score|];
      [|contradiction].
    destruct (50 <? score)%Z eqn:E; [|contradiction].
    destruct H as [<-|[]]. apply Z.ltb_lt in E.
    right. right. right. left. eauto.
  - unfold PredictionEngine.string_indicators in H.
    destruct (StaticAnalyzer.sr_strings static_result) as [si|]; [|contradiction].
    destruct (default [] (StaticAnalyzer.si_suspicious_strings si)) eqn:E;
      [contradiction|].
    destruct H as [<-|[]]. right. right. right. right. eauto.
Qed.

Lemma mock_analysis_behavior (now filepath : string) :
  DynamicAnalyzer.dr_behavior (DynamicAnalyzer.analyze_file now filepath)
  = Some mock_behavior.
Proof. reflexivity. Qed.

Lemma mock_analysis_score (now filepath : string) :
  DynamicAnalyzer.dr_behavior_score (DynamicAnalyzer.analyze_file now filepath)
  = Some 60%Z.
Proof. reflexivity. Qed.

Lemma weak_malicious_is_low (static_result : StaticAnalyzer.StaticResult)
  (dynamic_result : DynamicAnalyzer.DynamicResult) :
  PredictionEngine.risk_level
    (PredictionEngine._generate_assessment
       static_result dynamic_result weak_malicious_verdict) = "LOW".
Proof.
  simpl. rewrite risk_of_malicious by reflexivity. simpl.
  rewrite !float_gt_false by lra. reflexivity.
Qed.

(** C5, as stated, fails: the mock behaviour report has a created key
    under [CurrentVersion\Run], yet with a malicious verdict of
    confidence 0.5 the tier is LOW and no indicator mentions persistence. *)
Lemma persistence_indicator_counterexample :
  ~ (forall (static_result : StaticAnalyzer.StaticResult)
            (dynamic_result : DynamicAnalyzer.DynamicResult)
            (prediction_result : PredictionEngine.PredictionResult)
            (behavior : DynamicAnalyzer.Behavior)
            (reg : DynamicAnalyzer.RegistryChanges)
            (keys : list string) (key : string),
        DynamicAnalyzer.dr_behavior dynamic_result = Some behavior ->
        DynamicAnalyzer.registry_changes behavior = Some reg ->
        DynamicAnalyzer.keys_created reg = Some keys ->
        In key keys -> str_contains "Run" key = true ->
        let assessment :=
          PredictionEngine._generate_assessment
            static_result dynamic_result prediction_result in
        (exists ind, In ind (PredictionEngine.key_indicators assessment)
                     /\ str_contains "persistence" (str_lower ind) = true)
        /\ (PredictionEngine.risk_level assessment = "MEDIUM"
            \/ PredictionEngine.risk_level assessment = "HIGH")).
Proof.
  intros claim.
  destruct (claim quiet_static_result
              (DynamicAnalyzer.analyze_file "2024-01-01T00:00:00" "sample.exe")
              weak_malicious_verdict mock_behavior
              DynamicAnalyzer._mock_registry_changes
              [ "HKEY_CURRENT_USER\Software\MyApp";
                "HKEY_LOCAL_MACHINE\Software\Microsoft\Windows\CurrentVersion\Run\MyApp" ]
              "HKEY_LOCAL_MACHINE\Software\Microsoft\Windows\CurrentVersion\Run\MyApp")
    as [_ Htier]; try reflexivity.
  - simpl. tauto.
  - rewrite weak_malicious_is_low in Htier.
    destruct Htier; discriminate.
Qed.

Lemma calculate_behavior_score_autorun (behavior : DynamicAnalyzer.Behavior)
  (reg : DynamicAnalyzer.RegistryChanges) (keys : list string) (key : string) :
  DynamicAnalyzer.registry_changes behavior = Some reg ->
  DynamicAnalyzer.keys_created reg = Some keys ->
  In key keys -> str_contains "Run" key = true ->
  (16 <= DynamicAnalyzer._calculate_behavior_score behavior)%Z.
Proof.
  intros Hreg Hkeys Hin Hrun. unfold DynamicAnalyzer._calculate_behavior_score.
  apply Z.min_glb; [|lia].
  etransitivity; [|apply when_present_ge, score_processes_ge].
  etransitivity; [|apply when_present_ge, score_files_ge].
  rewrite Hreg. simpl.
  etransitivity; [|apply (score_registry_autorun reg keys key); assumption].
  pose proof (when_present_ge (DynamicAnalyzer.network_activity behavior)
                DynamicAnalyzer.score_network 0 score_network_ge).
  lia.
Qed.

(** C5, amended. A created registry key containing the marker 'Run' only
    feeds the behaviour score, which is then at least 16. The assessment
    has no persistence indicator: each of its indicators is one of the
    five the code knows, the only dynamic one being the high behaviour
    score, present when the reported score exceeds 50. The risk tier does
    not depend on the behaviour report, so a malicious verdict whose
    confidence is not above 0.6 stays LOW. *)
Theorem autorun_key_feeds_score_only :
  forall (behavior : DynamicAnalyzer.Behavior)
         (reg : DynamicAnalyzer.RegistryChanges)
         (keys : list string) (key : string),
    DynamicAnalyzer.registry_changes behavior = Some reg ->
    DynamicAnalyzer.keys_created reg = Some keys ->
    In key keys -> str_contains "Run" key = true ->
    (16 <= DynamicAnalyzer._calculate_behavior_score behavior)%Z
    /\ forall (static_result : StaticAnalyzer.StaticResult)
              (dynamic_result : DynamicAnalyzer.DynamicResult)
              (prediction_result : PredictionEngine.PredictionResult),
         DynamicAnalyzer.dr_behavior dynamic_result = Some behavior ->
         let assessment :=
           PredictionEngine._generate_assessment
             static_result dynamic_result prediction_result in
         (forall ind, In ind (PredictionEngine.key_indicators assessment) ->
            ind = "File appears to be packed"
            \/ ind = "High entropy detected (possible encryption)"
            \/ (exists n, ind = "Suspicious API imports: " ++ str_of_nat n)
            \/ (exists score,
                   DynamicAnalyzer.dr_behavior_score dynamic_result = Some score
                   /\ (50 < score)%Z
                   /\ ind = "High behavior score: " ++ str_of_Z score)
            \/ (exists n, ind = "Suspicious strings found: " ++ str_of_nat n))
         /\ (forall other : DynamicAnalyzer.DynamicResult,
               PredictionEngine.risk_level assessment
               = PredictionEngine.risk_level
                   (PredictionEngine._generate_assessment
                      static_result other prediction_result))
         /\ (PredictionEngine.pr_prediction prediction_result = Some "malicious" ->
             ~ (default 0 (PredictionEngine.pr_confidence prediction_result)
                > 6 / 10)%R ->
             PredictionEngine.risk_level assessment = "LOW").
Proof.
  intros behavior reg keys key Hreg Hkeys Hin Hrun. split.
  - apply (calculate_behavior_score_autorun behavior reg keys key); assumption.
  - intros s d p _ assessment. subst assessment. split; [|split].
    + intros ind. apply indicators_forms.
    + intros other. reflexivity.
    + intros Hm H6. simpl. rewrite risk_of_malicious by assumption.
      rewrite (float_gt_false _ (6 / 10)) by assumption.
      rewrite float_gt_false; [reflexivity | lra].
Qed.

Lemma mock_assessment_indicators :
  PredictionEngine.key_indicators
    (PredictionEngine._generate_assessment
       quiet_static_result
       (DynamicAnalyzer.analyze_file "2024-01-01T00:00:00" "sample.exe")
       weak_malicious_verdict) = ["High behavior score: 60"].
Proof. reflexivity. Qed.

(** ** Suspicious imports *)

Lemma py_fold_invariant {A S : Type} (body : S -> A -> PyResult S)
  (P : S -> Prop) (l : list A) (s r : S) :
  (forall s x s', body s x = Ok s' -> P s -> P s') ->
  P s -> py_fold body l s = Ok r -> P r.
Proof.
  intros Hbody. revert s. induction l as [|x l IH]; intros s Hs Hrun; simpl in Hrun.
  - inversion Hrun; subst. assumption.
  - destruct (body s x) as [s'|e] eqn:E; simpl in Hrun; [|discriminate].
    apply (IH s'); [eapply Hbody; eassumption | assumption].
Qed.

Lemma py_fold_reaches {A S : Type} (body : S -> A -> PyResult S)
  (Q : S -> Prop) (x0 : A) (l : list A) (s r : S) :
  In x0 l ->
  (forall s s', body s x0 = Ok s' -> Q s') ->
  (forall s x s', body s x = Ok s' -> Q s -> Q s') ->
  py_fold body l s = Ok r -> Q r.
Proof.
  intros Hin Hhit Hkeep. revert s.
  induction l as [|x l IH]; intros s Hrun; [contradiction|].
  simpl in Hrun. destruct (body s x) as [s'|e] eqn:E; simpl in Hrun; [|discriminate].
  destruct Hin as [->|Hin].
  - apply (py_fold_invariant body Q l s' r Hkeep); [|assumption].
    eapply Hhit; eassumption.
  - apply (IH Hin s'). assumption.
Qed.

Lemma check_suspicious_imports_finds (pe : StaticAnalyzer.PE) (name : string)
  (found : list string) :
  imports_include pe name ->
  name <> "" ->
  decode_utf8 (list_byte_of_string name) = Ok name ->
  any (fun sus => str_contains sus name) StaticAnalyzer.suspicious_apis = true ->
  StaticAnalyzer._check_suspicious_imports pe = Ok found ->
  In name found.
Proof.
  intros (entries & entry & imp & Hdir & Hentry & Himp & Hname) Hne Hdec Hsus Hrun.
  unfold StaticAnalyzer._check_suspicious_imports in Hrun. rewrite Hdir in Hrun.
  assert (Htruthy : StaticAnalyzer.truthy_name imp = Some (list_byte_of_string name)).
  { unfold StaticAnalyzer.truthy_name. rewrite Hname.
    destruct name as [|c name]; [congruence | reflexivity]. }
  assert (Hkeep : forall (s : list string) (x : StaticAnalyzer.ImportData) s',
             match StaticAnalyzer.truthy_name x with
             | Some n =>
                 let* api_name := decode_utf8 n in
                 if any (fun sus => str_contains sus api_name)
                        StaticAnalyzer.suspicious_apis
                 then Ok (s ++ [api_name])%list else Ok s
             | None => Ok s
             end = Ok s' -> In name s -> In name s').
  { intros s x s' Hbody Hs.
    destruct (StaticAnalyzer.truthy_name x) as [n|]; [|congruence].
    destruct (decode_utf8 n) as [api|e]; cbn [py_bind] in Hbody; [|discriminate].
    destruct (any (fun sus => str_contains sus api) StaticAnalyzer.suspicious_apis);
      inversion Hbody; subst; [|assumption].
    apply in_or_app. left. assumption. }
  revert Hrun.
  apply (py_fold_reaches _ (fun s => In name s) entry); [assumption| |].
  - intros s s'.
    apply (py_fold_reaches _ (fun s => In name s) imp); [assumption| |exact Hkeep].
    intros s0 s0' Hbody. rewrite Htruthy, Hdec in Hbody. cbn [py_bind] in Hbody.
    rewrite Hsus in Hbody. inversion Hbody; subst.
    apply in_or_app. right. left. reflexivity.
  - intros s x s' Hbody Hs. revert Hbody.
    apply (py_fold_invariant _ (fun s => In name s)); [exact Hkeep | assumption].
Qed.

Lemma two_distinct_members (a b : string) (l : list string) :
  a <> b -> In a l -> In b l -> 2 <= length l.
Proof.
  intros Hab Ha Hb.
  change 2 with (length [a; b]).
  apply NoDup_incl_length.
  - constructor; [intros [?|[]]; congruence|].
    constructor; [intros [] | constructor].
  - intros x [<-|[<-|[]]]; assumption.
Qed.

Lemma check_suspicious_imports_both (pe : StaticAnalyzer.PE) (found : list string) :
  imports_include pe "CreateRemoteThread" ->
  imports_include pe "WriteProcessMemory" ->
  StaticAnalyzer._check_suspicious_imports pe = Ok found ->
  2 <= length found.
Proof.
  intros H1 H2 Hrun.
  apply (two_distinct_members "CreateRemoteThread" "WriteProcessMemory");
    [discriminate | |].
  - apply (check_suspicious_imports_finds pe); try assumption;
      [discriminate | reflexivity | reflexivity].
  - apply (check_suspicious_imports_finds pe); try assumption;
      [discriminate | reflexivity | reflexivity].
Qed.

Section StaticPipelineFacts.
Variable md5_hexdigest sha1_hexdigest sha256_hexdigest : bytes -> string.
Variable pefile_parse : bytes -> PyResult StaticAnalyzer.PE.
Variable json_dump : StaticAnalyzer.StaticResult -> PyResult bytes.

Let analyze := StaticAnalyzer.analyze_file
                 md5_hexdigest sha1_hexdigest sha256_hexdigest pefile_parse json_dump.

Lemma read_bytes_Ok (fs : gmap string File) (filepath : string) (data : bytes) :
  read_bytes fs filepath = Ok data ->
  exists f, fs !! filepath = Some f /\ f_readable f = true /\ f_data f = data.
Proof.
  unfold read_bytes. intros H.
  destruct (fs !! filepath) as [f|]; [|discriminate].
  destruct (f_readable f) eqn:E; [|discriminate].
  inversion H. eauto.
Qed.

Lemma analyze_file_pe_indicators (fs fs' : gmap string File) (filepath : string)
  (data : bytes) (pe : StaticAnalyzer.PE) (result : StaticAnalyzer.StaticResult) :
  read_bytes fs filepath = Ok data ->
  pefile_parse data = Ok pe ->
  analyze fs filepath = (result, fs') ->
  StaticAnalyzer.sr_error result = None ->
  exists ind,
    StaticAnalyzer.sr_suspicious_indicators result = Some ind
    /\ StaticAnalyzer._check_suspicious_indicators fs pe filepath = Ok ind.
Proof.
  intros Hread Hparse Hrun Herr.
  destruct (read_bytes_Ok _ _ _ Hread) as (f & Hf & Hr & Hd).
  unfold analyze, StaticAnalyzer.analyze_file in Hrun.
  unfold path_exists, path_getsize in Hrun. rewrite Hf in Hrun.
  rewrite bool_decide_eq_true_2 in Hrun by eauto.
  cbn [negb py_bind] in Hrun.
  destruct (Nat.eqb (length (f_data f)) 0).
  { inversion Hrun; subst. discriminate. }
  unfold StaticAnalyzer._get_file_info, StaticAnalyzer._extract_strings,
    StaticAnalyzer._calculate_entropy, StaticAnalyzer.try_parse_pe,
    StaticAnalyzer.pefile_PE, path_getsize in Hrun.
  rewrite Hf, Hread in Hrun. cbn [py_bind] in Hrun. rewrite Hparse in Hrun.
  destruct (StaticAnalyzer._extract_imports pe) as [imports_|e];
    cbn [py_bind catch] in Hrun; [|inversion Hrun; subst; discriminate].
  destruct (StaticAnalyzer._extract_metadata pe) as [metadata|e];
    cbn [py_bind catch] in Hrun; [|inversion Hrun; subst; discriminate].
  destruct (StaticAnalyzer._check_suspicious_indicators fs pe filepath)
    as [ind|e]; cbn [py_bind catch] in Hrun; [|inversion Hrun; subst; discriminate].
  inversion Hrun; subst. exists ind. split; reflexivity.
Qed.

End StaticPipelineFacts.

Lemma suspicious_imports_in_static_result :
  forall (md5_hexdigest sha1_hexdigest sha256_hexdigest : bytes -> string)
         (pefile_parse : bytes -> PyResult StaticAnalyzer.PE)
         (json_dump : StaticAnalyzer.StaticResult -> PyResult bytes)
         (fs fs' : gmap string File) (filepath : string) (data : bytes)
         (pe : StaticAnalyzer.PE) (result : StaticAnalyzer.StaticResult),
    read_bytes fs filepath = Ok data ->
    pefile_parse data = Ok pe ->
    imports_include pe "CreateRemoteThread" ->
    imports_include pe "WriteProcessMemory" ->
    StaticAnalyzer.analyze_file
      md5_hexdigest sha1_hexdigest sha256_hexdigest pefile_parse json_dump
      fs filepath = (result, fs') ->
    StaticAnalyzer.sr_error result = None ->
    exists (ind : StaticAnalyzer.Indicators) (found : list string),
      StaticAnalyzer._check_suspicious_imports pe = Ok found
      /\ StaticAnalyzer.sr_suspicious_indicators result = Some ind
      /\ StaticAnalyzer.ind_suspicious_imports ind = Some found
      /\ 2 <= length found
      /\ forall (dynamic_result : DynamicAnalyzer.DynamicResult)
                (prediction_result : PredictionEngine.PredictionResult),
           In ("Suspicious API imports: " ++ str_of_nat (length found))
              (PredictionEngine.key_indicators
                 (PredictionEngine._generate_assessment
                    result dynamic_result prediction_result)).
Proof.
  intros md5 sha1 sha256 parse dump fs fs' filepath data pe result
    Hread Hparse H1 H2 Hrun Herr.
  destruct (analyze_file_pe_indicators md5 sha1 sha256 parse dump
              fs fs' filepath data pe result Hread Hparse Hrun Herr)
    as (ind & Hind & Hcheck).
  unfold StaticAnalyzer._check_suspicious_indicators in Hcheck.
  destruct (StaticAnalyzer._check_if_packed pe); cbn [py_bind] in Hcheck;
    [|discriminate].
  destruct (StaticAnalyzer._check_unusual_sections pe); cbn [py_bind] in Hcheck;
    [|discriminate].
  destruct (StaticAnalyzer._check_suspicious_imports pe) as [found|] eqn:Hfound;
    cbn [py_bind] in Hcheck; [|discriminate].
  destruct (StaticAnalyzer._calculate_entropy fs filepath);
    cbn [py_bind] in Hcheck; [|discriminate].
  inversion Hcheck; subst ind. clear Hcheck.
  pose proof (check_suspicious_imports_both pe found H1 H2 Hfound) as Hlen.
  eexists. exists found. repeat split; try eassumption; try reflexivity.
  intros d p. cbn [PredictionEngine._generate_assessment
                     PredictionEngine.key_indicators].
  apply in_or_app. left. unfold PredictionEngine.static_indicators.
  rewrite Hind. cbn [StaticAnalyzer.ind_packed StaticAnalyzer.ind_high_entropy
                       StaticAnalyzer.ind_suspicious_imports].
  apply in_or_app. right. apply in_or_app. right.
  destruct found as [|x found]; [simpl in Hlen; lia|].
  left. reflexivity.
Qed.

(** ** Degraded static analysis *)

Lemma try_parse_pe_failure (pefile_parse : bytes -> PyResult StaticAnalyzer.PE)
  (fs : gmap string File) (filepath : string) (data : bytes) (e : PyExc) :
  read_bytes fs filepath = Ok data ->
  pefile_parse data = Raise e ->
  exists reason,
    StaticAnalyzer.try_parse_pe pefile_parse fs filepath = (None, Some reason)
    /\ reason <> "".
Proof.
  intros Hread Hparse.
  unfold StaticAnalyzer.try_parse_pe, StaticAnalyzer.pefile_PE.
  rewrite Hread. cbn [py_bind]. rewrite Hparse.
  destruct (exc_class e); eexists; (split; [reflexivity | simpl; discriminate]).
Qed.

(** C2, amended. For a readable, non-empty file that [pefile] refuses to
    parse (whatever the exception: a bad signature, a header it cannot
    read), [StaticAnalyzer.analyze_file] returns a result and not an
    error: it carries the file information with the three hashes, the
    strings, the entropy, the basic indicators, empty PE sections, and an
    analysis note that is not the empty string. *)
Theorem analyze_file_degrades_gracefully :
  forall (md5_hexdigest sha1_hexdigest sha256_hexdigest : bytes -> string)
         (pefile_parse : bytes -> PyResult StaticAnalyzer.PE)
         (json_dump : StaticAnalyzer.StaticResult -> PyResult bytes)
         (fs : gmap string File) (filepath : string) (f : File) (e : PyExc),
    fs !! filepath = Some f ->
    f_readable f = true ->
    f_data f <> [] ->
    pefile_parse (f_data f) = Raise e ->
    exists (result : StaticAnalyzer.StaticResult) (fs' : gmap string File)
           (file_info : StaticAnalyzer.FileInfo)
           (strings_info : StaticAnalyzer.StringsInfo)
           (indicators : StaticAnalyzer.Indicators) (note : string),
      StaticAnalyzer.analyze_file
        md5_hexdigest sha1_hexdigest sha256_hexdigest pefile_parse json_dump
        fs filepath = (result, fs')
      /\ StaticAnalyzer.sr_error result = None
      /\ StaticAnalyzer.sr_file_info result = Some file_info
      /\ StaticAnalyzer.fi_md5 file_info = Some (md5_hexdigest (f_data f))
      /\ StaticAnalyzer.fi_sha1 file_info = Some (sha1_hexdigest (f_data f))
      /\ StaticAnalyzer.fi_sha256 file_info = Some (sha256_hexdigest (f_data f))
      /\ StaticAnalyzer.sr_strings result = Some strings_info
      /\ StaticAnalyzer._extract_strings fs filepath = Ok strings_info
      /\ StaticAnalyzer.sr_entropy result
         = Some (StaticAnalyzer.entropy_of_data (f_data f))
      /\ StaticAnalyzer.sr_suspicious_indicators result = Some indicators
      /\ StaticAnalyzer.ind_analysis_type indicators = Some "basic"
      /\ StaticAnalyzer.sr_pe_headers result = Some StaticAnalyzer.empty_headers
      /\ StaticAnalyzer.sr_imports result = Some []
      /\ StaticAnalyzer.sr_analysis_note result = Some note
      /\ note <> "".
Proof.
  intros md5 sha1 sha256 parse dump fs filepath f e Hf Hr Hne Hparse.
  assert (Hread : read_bytes fs filepath = Ok (f_data f)).
  { unfold read_bytes. rewrite Hf, Hr. reflexivity. }
  destruct (try_parse_pe_failure parse fs filepath (f_data f) e Hread Hparse)
    as (reason & Htry & Hreason).
  unfold StaticAnalyzer.analyze_file.
  unfold path_exists, path_getsize. rewrite Hf.
  rewrite bool_decide_eq_true_2 by eauto. cbn [negb py_bind].
  destruct (Nat.eqb (length (f_data f)) 0) eqn:Hlen.
  { apply Nat.eqb_eq in Hlen. destruct (f_data f); [congruence | discriminate]. }
  unfold StaticAnalyzer._get_file_info, StaticAnalyzer._extract_strings,
    StaticAnalyzer._calculate_entropy,
    StaticAnalyzer._check_basic_suspicious_indicators, path_getsize.
  rewrite Hf, Hread, Htry. cbn [py_bind catch].
  do 6 eexists. split; [reflexivity|].
  cbn. repeat split; try reflexivity.
  destruct reason as [|c s]; [congruence | discriminate].
Qed.

(** ** Inference *)



(** ** Saving and reloading the model *)

Lemma save_best_model_bundle (self : MLPredictor.t) (filename : string)
  (disk : MLPredictor.Pickles) (m : MLPredictor.Model) :
  MLPredictor.best_model self = MLPredictor.PModel m ->
  MLPredictor.save_best_model self filename disk !! filename
  = Some [ ("model", MLPredictor.PModel m);
           ("model_name", MLPredictor.best_model_name self);
           ("model_type", MLPredictor.PStr (MLPredictor.class_name m)) ].
Proof.
  intros H. unfold MLPredictor.save_best_model. rewrite H.
  cbn [MLPredictor.type_name]. apply lookup_insert_eq.
Qed.

(** C4, as stated, fails: the bundle written for a trained predictor whose
    feature engineer has a fitted scaler and a fitted mask holds neither
    the scaler nor the mask. *)
Lemma saved_bundle_counterexample :
  ~ (forall (engineer : FeatureEngineer.t) (self : MLPredictor.t)
            (filename : string) (disk : MLPredictor.Pickles)
            (m : MLPredictor.Model) (sc : FeatureEngineer.StandardScaler)
            (mask : list bool),
        MLPredictor.best_model self = MLPredictor.PModel m ->
        FeatureEngineer.scaler engineer = Some sc ->
        FeatureEngineer.selected_features engineer = Some mask ->
        exists bundle,
          MLPredictor.save_best_model self filename disk !! filename = Some bundle
          /\ bundle_holds bundle (MLPredictor.PModel m)
          /\ bundle_holds bundle (MLPredictor.best_model_name self)
          /\ bundle_holds bundle (MLPredictor.PScaler sc)
          /\ bundle_holds bundle (MLPredictor.PMask mask)).
Proof.
  intros claim.
  destruct (claim fitted_engineer trained_predictor "best_model.pkl" ∅
              sample_model fitted_scaler [true; true] eq_refl eq_refl eq_refl)
    as (bundle & Hsaved & _ & _ & [key Hscaler] & _).
  rewrite (save_best_model_bundle trained_predictor _ _ sample_model eq_refl)
    in Hsaved.
  inversion Hsaved; subst bundle. clear Hsaved.
  simpl in Hscaler.
  repeat (destruct (String.eqb key _); [discriminate|]).
  discriminate.
Qed.

(** C4, amended. Saving a trained predictor writes a bundle with exactly
    the model, its name and its class name; loading that file into any
    predictor succeeds and restores the same model and name, so inference
    through the same feature engineer gives the same verdict on every
    feature mapping as before the round trip. The scaler and the selection
    mask are not part of the bundle. *)
Theorem save_load_round_trip :
  forall (self other : MLPredictor.t) (filename : string)
         (disk : MLPredictor.Pickles) (m : MLPredictor.Model),
    MLPredictor.best_model self = MLPredictor.PModel m ->
    let disk' := MLPredictor.save_best_model self filename disk in
    let reloaded := MLPredictor.load_model other filename disk' in
    disk' !! filename
    = Some [ ("model", MLPredictor.PModel m);
             ("model_name", MLPredictor.best_model_name self);
             ("model_type", MLPredictor.PStr (MLPredictor.class_name m)) ]
    /\ fst reloaded = true
    /\ snd reloaded = self
    /\ forall (engineer : FeatureEngineer.t) (features : PyDict FVal),
         PredictionEngine._make_prediction
           {| PredictionEngine.feature_engineer := engineer;
              PredictionEngine.ml_predictor := snd reloaded |} features
         = PredictionEngine._make_prediction
             {| PredictionEngine.feature_engineer := engineer;
                PredictionEngine.ml_predictor := self |} features.
Proof.
  intros self other filename disk m Hm disk' reloaded.
  pose proof (save_best_model_bundle self filename disk m Hm) as Hsaved.
  assert (Hload : reloaded = (true, self)).
  { unfold reloaded, disk', MLPredictor.load_model.
    unfold PyDict in *. rewrite Hsaved. simpl.
    destruct self as [bm bn]. simpl in *. subst bm. reflexivity. }
  rewrite Hload. simpl. repeat split. exact Hsaved.
Qed.

(** After a restart the predictor is reloaded into a fresh engine, whose
    feature engineer is not fitted: inference then degrades to 'unknown'
    where the engine that trained answered 'malicious'. *)
Lemma reload_into_fresh_engine :
  let disk := MLPredictor.save_best_model trained_predictor "best_model.pkl" ∅ in
  let reloaded := snd (MLPredictor.load_model MLPredictor.init "best_model.pkl" disk) in
  let features := [("file_size", VInt 1024); ("entropy", VInt 5)] in
  PredictionEngine.pr_prediction
    (PredictionEngine._make_prediction
       {| PredictionEngine.feature_engineer := fitted_engineer;
          PredictionEngine.ml_predictor := trained_predictor |} features)
  = Some "malicious"
  /\ PredictionEngine.pr_prediction
       (PredictionEngine._make_prediction
          {| PredictionEngine.feature_engineer := FeatureEngineer.init;
             PredictionEngine.ml_predictor := reloaded |} features)
     = Some "unknown".
Proof. split; reflexivity. Qed.

(** ** The feature mapping *)

Lemma dict_set_keys_In {V : Type} (k k' : string) (v : V) (d : PyDict V) :
  In k (dict_keys (dict_set k' v d)) <-> k = k' \/ In k (dict_keys d).
Proof.
  unfold dict_keys. induction d as [|[k0 v0] d IH]; simpl.
  - intuition congruence.
  - destruct (String.eqb k' k0) eqn:E; simpl.
    + apply String.eqb_eq in E. subst. intuition congruence.
    + rewrite IH. intuition congruence.
Qed.

Lemma dict_update_keys_In {V : Type} (k : string) (d other : PyDict V) :
  In k (dict_keys (dict_update d other))
  <-> In k (dict_keys d) \/ In k (dict_keys other).
Proof.
  unfold dict_update. revert d.
  induction other as [|[k0 v0] other IH]; intros d; simpl.
  - tauto.
  - rewrite IH, dict_set_keys_In. intuition congruence.
Qed.

Lemma dict_get_set_ne {V : Type} (k k' : string) (v : V) (d : PyDict V) :
  k <> k' -> dict_get k (dict_set k' v d) = dict_get k d.
Proof.
  intros Hne. induction d as [|[k0 v0] d IH]; simpl.
  - destruct (String.eqb k k') eqn:E; [|reflexivity].
    apply String.eqb_eq in E. contradiction.
  - destruct (String.eqb k' k0) eqn:E; simpl.
    + apply String.eqb_eq in E. subst k0.
      destruct (String.eqb k k') eqn:E'; [|reflexivity].
      apply String.eqb_eq in E'. contradiction.
    + rewrite IH. reflexivity.
Qed.

Lemma dict_get_update_other {V : Type} (k : string) (d other : PyDict V) :
  ~ In k (dict_keys other) -> dict_get k (dict_update d other) = dict_get k d.
Proof.
  unfold dict_update. revert d.
  induction other as [|[k0 v0] other IH]; intros d Hnot; simpl; [reflexivity|].
  rewrite IH.
  - apply dict_get_set_ne. intros ->. apply Hnot. left. reflexivity.
  - intros H. apply Hnot. right. exact H.
Qed.

Ltac static_cases s H :=
  destruct s as [err [fi|] st en [ph|] [im|] md [ind|] note];
  destruct st as [st|];
  unfold FeatureEngineer._extract_static_features in H;
  cbn [StaticAnalyzer.sr_file_info StaticAnalyzer.sr_pe_headers
         StaticAnalyzer.sr_imports StaticAnalyzer.sr_strings
         StaticAnalyzer.sr_entropy StaticAnalyzer.sr_suspicious_indicators] in H;
  try (destruct (FeatureEngineer.entry_point_value ph) as [ep|e] eqn:Hep;
       cbn [py_bind] in H; [|discriminate H]);
  cbn [py_bind] in H;
  inversion H; subst; clear H.

Lemma extract_static_features_keys (s : StaticAnalyzer.StaticResult)
  (fs : PyDict FVal) :
  FeatureEngineer._extract_static_features s = Ok fs ->
  dict_keys fs = static_fields s.
Proof.
  intros H. static_cases s H; reflexivity.
Qed.

Lemma extract_static_features_values (s : StaticAnalyzer.StaticResult)
  (fs : PyDict FVal) :
  FeatureEngineer._extract_static_features s = Ok fs ->
  static_defaults s fs /\ dict_update [] fs = fs.
Proof.
  intros H. unfold static_defaults. static_cases s H;
    (split; [|reflexivity]);
    (repeat apply conj; try reflexivity;
     intros x Hx; try discriminate Hx; inversion Hx; subst;
     repeat apply conj; try reflexivity;
     intros Hnone; unfold FeatureEngineer.entry_point_value in Hep;
     rewrite Hnone in Hep; inversion Hep; reflexivity).
Qed.

Lemma dict_get_set_eq {V : Type} (k : string) (v : V) (d : PyDict V) :
  dict_get k (dict_set k v d) = Some v.
Proof.
  induction d as [|[k0 v0] d IH]; simpl.
  - rewrite String.eqb_refl. reflexivity.
  - destruct (String.eqb k k0) eqn:E; simpl; rewrite E; [reflexivity | exact IH].
Qed.

Lemma dict_get_update_in {V : Type} (k : string) (v : V) (d other : PyDict V) :
  List.NoDup (dict_keys other) ->
  dict_get k other = Some v ->
  dict_get k (dict_update d other) = Some v.
Proof.
  unfold dict_update. revert d.
  induction other as [|[k0 v0] other IH]; intros d Hnd Hget; [discriminate|].
  inversion Hnd as [|? ? Hnotin Hnd']; subst. simpl in Hget |- *.
  destruct (String.eqb k k0) eqn:E.
  - apply String.eqb_eq in E. subst k0. inversion Hget; subst.
    change (fold_left _ other (dict_set k v d))
      with (dict_update (dict_set k v d) other).
    rewrite dict_get_update_other by assumption. apply dict_get_set_eq.
  - apply IH; assumption.
Qed.

Lemma extract_dynamic_features_NoDup (d : DynamicAnalyzer.DynamicResult) :
  List.NoDup (dict_keys (FeatureEngineer._extract_dynamic_features d)).
Proof.
  destruct d as [fn ts [[[n|] [r|] [f|] [p|]]|] [sc|] rl er];
    cbn;
    repeat (constructor;
            [intros H; repeat (destruct H as [H|H]; [discriminate|]); exact H|]);
    constructor.
Qed.

(** The dynamic fields carry the values of the dynamic result, also after
    they are merged into the static ones. *)
Lemma dynamic_defaults_update (d : DynamicAnalyzer.DynamicResult)
  (fs : PyDict FVal) :
  dynamic_defaults d (dict_update fs (FeatureEngineer._extract_dynamic_features d)).
Proof.
  pose proof (extract_dynamic_features_NoDup d) as Hnd.
  unfold dynamic_defaults.
  split.
  - intros score Hscore.
    apply dict_get_update_in; [exact Hnd|].
    destruct d as [fn ts [[[n|] [r|] [f|] [p|]]|] [sc|] rl er];
      cbn in Hscore; inversion Hscore; subst; reflexivity.
  - intros b Hb.
    destruct d as [fn ts [[n r f p]|] [sc|] rl er];
      cbn in Hb; inversion Hb; subst b;
      (repeat apply conj; intros x Hx; cbn in Hx; subst;
       repeat apply conj;
       (apply dict_get_update_in; [exact Hnd|]);
       repeat match goal with
              | o : option _ |- _ => destruct o
              end;
       reflexivity).
Qed.

Lemma extract_dynamic_features_keys (d : DynamicAnalyzer.DynamicResult) :
  dict_keys (FeatureEngineer._extract_dynamic_features d) = dynamic_fields d.
Proof.
  destruct d as [fn ts [[[n|] [r|] [f|] [p|]]|] [sc|] rl er]; reflexivity.
Qed.

Lemma dynamic_fields_names (d : DynamicAnalyzer.DynamicResult) (k : string) :
  In k (dynamic_fields d) ->
  In k ("behavior_score"
        :: network_fields ++ registry_fields ++ file_operation_fields
        ++ process_fields)%list.
Proof.
  unfold dynamic_fields.
  destruct d as [fn ts [[[n|] [r|] [f|] [p|]]|] [sc|] rl er];
    cbn -[In]; simpl; tauto.
Qed.

Lemma extract_features_split (s : StaticAnalyzer.StaticResult)
  (d : option DynamicAnalyzer.DynamicResult) (features : PyDict FVal) :
  FeatureEngineer.extract_features s d = Ok features ->
  exists fs,
    FeatureEngineer._extract_static_features s = Ok fs
    /\ features
       = match d with
         | Some dyn =>
             if FeatureEngineer.truthy_dynamic d
             then dict_update fs (FeatureEngineer._extract_dynamic_features dyn)
             else fs
         | None => fs
         end.
Proof.
  unfold FeatureEngineer.extract_features. intros H.
  destruct (FeatureEngineer._extract_static_features s) as [fs|e] eqn:Hs;
    cbn [py_bind] in H; [|discriminate].
  exists fs. split; [reflexivity|].
  destruct (extract_static_features_values s fs Hs) as [_ Hid].
  rewrite Hid in H.
  destruct d as [dyn|]; [|congruence].
  destruct (FeatureEngineer.truthy_dynamic (Some dyn)); congruence.
Qed.

Lemma static_defaults_update (s : StaticAnalyzer.StaticResult)
  (fs dynf : PyDict FVal) :
  (forall k, In k (dict_keys dynf) ->
     In k ("behavior_score"
           :: network_fields ++ registry_fields ++ file_operation_fields
           ++ process_fields)%list) ->
  static_defaults s fs -> static_defaults s (dict_update fs dynf).
Proof.
  intros Hnames. unfold static_defaults.
  assert (Hget : forall k,
             ~ In k ("behavior_score"
                     :: network_fields ++ registry_fields
                     ++ file_operation_fields ++ process_fields)%list ->
             dict_get k (dict_update fs dynf) = dict_get k fs).
  { intros k Hk. apply dict_get_update_other. intros Hin. apply Hk, Hnames, Hin. }
  rewrite !Hget by (simpl; intuition discriminate).
  tauto.
Qed.

Lemma extract_features_static_defaults (s : StaticAnalyzer.StaticResult)
  (d : option DynamicAnalyzer.DynamicResult) (features : PyDict FVal) :
  FeatureEngineer.extract_features s d = Ok features ->
  static_defaults s features.
Proof.
  intros H.
  destruct (extract_features_split s d features H) as (fs & Hs & Hf).
  destruct (extract_static_features_values s fs Hs) as [Hvals _].
  subst features. destruct d as [dyn|]; [|exact Hvals].
  destruct (FeatureEngineer.truthy_dynamic (Some dyn)); [|exact Hvals].
  apply static_defaults_update; [|exact Hvals].
  intros k. rewrite extract_dynamic_features_keys. apply dynamic_fields_names.
Qed.

(** C1, as stated, fails: no fixed set of field names is the key set of
    every feature mapping, whatever the runtime. With no section at all the
    mapping is exactly [{entropy: 0}]; with the strings section it also has
    'total_strings'. *)
Lemma extract_features_counterexample :
  ~ (exists (runtime : Runtime) (schema : list string),
       forall (s : StaticAnalyzer.StaticResult)
              (d : option DynamicAnalyzer.DynamicResult)
              (features : PyDict FVal),
         FeatureEngineer.extract_features (rt := runtime) s d = Ok features ->
         forall k, In k (dict_keys features) <-> In k schema).
Proof.
  intros (runtime & schema & claim).
  pose proof (claim empty_static_result None [("entropy", VInt 0)] eq_refl
                "total_strings") as Hempty.
  pose proof (claim quiet_static_result None _ eq_refl "total_strings") as Hquiet.
  assert (Hin : In "total_strings" schema).
  { apply Hquiet. cbn. tauto. }
  apply Hempty in Hin. simpl in Hin. intuition discriminate.
Qed.

(** C1, amended. The feature mapping always has the field 'entropy' (0
    when the input has none) and, besides it, exactly the fields of the
    sections present in the inputs: the dynamic ones only for a non-empty
    dynamic result. Inside a present section, static or dynamic, a missing
    value is 0 (a missing list counts 0 entries). Fields of absent sections
    are absent from the mapping. *)
Theorem extract_features_fields :
  forall (s : StaticAnalyzer.StaticResult)
         (d : option DynamicAnalyzer.DynamicResult)
         (features : PyDict FVal),
    FeatureEngineer.extract_features s d = Ok features ->
    (forall k,
        In k (dict_keys features)
        <-> In k (static_fields s)
            \/ exists dyn, d = Some dyn
                           /\ FeatureEngineer.truthy_dynamic d = true
                           /\ In k (dynamic_fields dyn))
    /\ In "entropy" (dict_keys features)
    /\ static_defaults s features
    /\ (forall dyn, d = Some dyn -> FeatureEngineer.truthy_dynamic d = true ->
          dynamic_defaults dyn features).
Proof.
  intros s d features H.
  destruct (extract_features_split s d features H) as (fs & Hs & Hf).
  pose proof (extract_static_features_keys s fs Hs) as Hkeys.
  destruct (extract_static_features_values s fs Hs) as [Hvals _].
  assert (Hk : forall k,
             In k (dict_keys features)
             <-> In k (static_fields s)
                 \/ exists dyn, d = Some dyn
                                /\ FeatureEngineer.truthy_dynamic d = true
                                /\ In k (dynamic_fields dyn)).
  { intros k. subst features. destruct d as [dyn|].
    - destruct (FeatureEngineer.truthy_dynamic (Some dyn)) eqn:Ht.
      + rewrite dict_update_keys_In, Hkeys, extract_dynamic_features_keys.
        split; [intros [?|?]; [left; assumption | right; eauto] |].
        intros [?|(dyn' & Heq & _ & Hin)]; [left; assumption|].
        inversion Heq; subst. right. assumption.
      + rewrite Hkeys. split; [tauto|].
        intros [?|(dyn' & _ & Hfalse & _)]; [assumption | discriminate].
    - rewrite Hkeys. split; [tauto|].
      intros [?|(dyn' & Heq & _)]; [assumption | discriminate]. }
  split; [exact Hk|]. split; [|split].
  - apply Hk. left. unfold static_fields. rewrite !in_app_iff. simpl. tauto.
  - apply (extract_features_static_defaults s d features H).
  - intros dyn -> Ht. rewrite Ht in Hf. subst features.
    apply dynamic_defaults_update.
Qed.

(** [extract_features] returns whenever the entry point, if present, parses
    as a hexadecimal literal (as every output of [hex] does). *)
Lemma extract_features_returns (s : StaticAnalyzer.StaticResult)
  (d : option DynamicAnalyzer.DynamicResult) :
  (forall h, StaticAnalyzer.sr_pe_headers s = Some h ->
     exists z, FeatureEngineer.entry_point_value h = Ok z) ->
  exists features, FeatureEngineer.extract_features s d = Ok features.
Proof.
  intros Hep. unfold FeatureEngineer.extract_features,
    FeatureEngineer._extract_static_features.
  destruct (StaticAnalyzer.sr_pe_headers s) as [h|] eqn:Hh.
  - destruct (Hep h eq_refl) as [z Hz]. rewrite Hz. cbn [py_bind].
    destruct d as [dyn|]; [|eexists; reflexivity].
    destruct (FeatureEngineer.truthy_dynamic (Some dyn)); eexists; reflexivity.
  - cbn [py_bind]. destruct d as [dyn|]; [|eexists; reflexivity].
    destruct (FeatureEngineer.truthy_dynamic (Some dyn)); eexists; reflexivity.
Qed.

(** ** The assembled report *)

Lemma make_prediction_has_label (self : PredictionEngine.t)
  (features : PyDict FVal) :
  exists label confidence,
    PredictionEngine.pr_prediction (PredictionEngine._make_prediction self features)
    = Some label
    /\ PredictionEngine.pr_confidence
         (PredictionEngine._make_prediction self features) = Some confidence.
Proof.
  unfold PredictionEngine._make_prediction, PredictionEngine.make_prediction_body.
  destruct (FeatureEngineer.process_single_sample _ _) as [processed|e];
    cbn [py_bind catch]; [|eexists _, _; split; reflexivity].
  destruct (MLPredictor.predict _ _) as [prediction|e];
    cbn [py_bind catch]; eexists _, _; split; reflexivity.
Qed.

Lemma generate_explanation_returns (static_result : StaticAnalyzer.StaticResult)
  (dynamic_result : DynamicAnalyzer.DynamicResult)
  (prediction_result : PredictionEngine.PredictionResult) (label : string) :
  PredictionEngine.pr_prediction prediction_result = Some label ->
  exists explanation,
    PredictionEngine._generate_explanation
      static_result dynamic_result prediction_result = Ok explanation.
Proof.
  intros Hlabel. unfold PredictionEngine._generate_explanation.
  rewrite Hlabel. cbn [py_bind].
  set (base := if String.eqb label "malicious"
               then ["The file is classified as malicious"]
               else ["The file appears to be benign"]).
  assert (Hbase : exists main rest, base = main :: rest).
  { unfold base. destruct (String.eqb label "malicious"); eauto. }
  destruct Hbase as (main & rest & ->).
  match goal with
  | |- exists e, match ?parts with _ => _ end = Ok e =>
      assert (Hparts : exists main' rest', parts = main' :: rest')
  end.
  { destruct (StaticAnalyzer.sr_suspicious_indicators static_result);
      destruct (DynamicAnalyzer.dr_behavior_score dynamic_result) as [score|];
      try destruct (50 <? score)%Z; simpl; eauto. }
  destruct Hparts as (main' & rest' & ->).
  destruct rest' as [|r1 [|r2 rest']]; eexists; reflexivity.
Qed.

Section ReportFacts.
Variable md5_hexdigest sha1_hexdigest sha256_hexdigest : bytes -> string.
Variable pefile_parse : bytes -> PyResult StaticAnalyzer.PE.
Variable json_dump : StaticAnalyzer.StaticResult -> PyResult bytes.
Variable report_dump : PredictionEngine.Report -> PyResult bytes.
Variable now_ts : Z.
Variable now : string.

Let static_run := StaticAnalyzer.analyze_file
                    md5_hexdigest sha1_hexdigest sha256_hexdigest
                    pefile_parse json_dump.
Let run := PredictionEngine.analyze_file
             md5_hexdigest sha1_hexdigest sha256_hexdigest
             pefile_parse json_dump report_dump now_ts now.

(** A report without error holds the static result of the file, the mock
    dynamic result, the features of both and the assessment of the three. *)
Lemma analyze_file_report (self : PredictionEngine.t) (fs fs' : gmap string File)
  (filepath : string) (report : PredictionEngine.Report) :
  run self fs filepath = (report, fs') ->
  PredictionEngine.rp_error report = None ->
  exists static_result features,
    fst (static_run fs filepath) = static_result
    /\ StaticAnalyzer.sr_error static_result = None
    /\ PredictionEngine.rp_static_analysis report = Some static_result
    /\ FeatureEngineer.extract_features
         static_result (Some (DynamicAnalyzer.analyze_file now filepath))
       = Ok features
    /\ PredictionEngine.rp_features report = Some features
    /\ PredictionEngine.rp_overall_assessment report
       = Some (PredictionEngine._generate_assessment
                 static_result (DynamicAnalyzer.analyze_file now filepath)
                 (PredictionEngine._make_prediction self features)).
Proof.
  unfold run, static_run, PredictionEngine.analyze_file. intros Hrun Herr.
  destruct (StaticAnalyzer.analyze_file _ _ _ _ _ fs filepath)
    as [static_result fs1].
  destruct (StaticAnalyzer.sr_error static_result) eqn:Hs.
  { inversion Hrun; subst. discriminate. }
  destruct (FeatureEngineer.extract_features static_result
              (Some (DynamicAnalyzer.analyze_file now filepath)))
    as [features|e] eqn:Hf; cbn [py_bind catch] in Hrun;
    [|inversion Hrun; subst; discriminate].
  destruct (PredictionEngine._generate_explanation _ _ _) as [explanation|e];
    cbn [py_bind catch] in Hrun; [|inversion Hrun; subst; discriminate].
  destruct (PredictionEngine.pr_prediction _) as [label|];
    cbn [py_bind catch] in Hrun; [|inversion Hrun; subst; discriminate].
  destruct (PredictionEngine.pr_confidence _) as [confidence|];
    cbn [py_bind catch] in Hrun; [|inversion Hrun; subst; discriminate].
  inversion Hrun; subst. exists static_result, features.
  repeat split; try reflexivity; assumption.
Qed.

(** The analysis yields a report whenever the static analysis does and
    the features can be extracted. *)
Lemma analyze_file_yields_report (self : PredictionEngine.t)
  (fs : gmap string File) (filepath : string) (features : PyDict FVal) :
  StaticAnalyzer.sr_error (fst (static_run fs filepath)) = None ->
  FeatureEngineer.extract_features
    (fst (static_run fs filepath))
    (Some (DynamicAnalyzer.analyze_file now filepath)) = Ok features ->
  PredictionEngine.rp_error (fst (run self fs filepath)) = None.
Proof.
  unfold run, static_run, PredictionEngine.analyze_file. intros Herr Hf.
  destruct (StaticAnalyzer.analyze_file _ _ _ _ _ fs filepath)
    as [static_result fs1].
  cbn [fst] in Herr, Hf. rewrite Herr, Hf. cbn [py_bind].
  destruct (make_prediction_has_label self features)
    as (label & confidence & Hl & Hc).
  destruct (generate_explanation_returns
              static_result (DynamicAnalyzer.analyze_file now filepath)
              (PredictionEngine._make_prediction self features) label Hl)
    as [explanation He].
  rewrite He, Hl, Hc. reflexivity.
Qed.

End ReportFacts.

(** C8, amended. When the analysis of a parseable container whose import
    table lists both 'CreateRemoteThread' and 'WriteProcessMemory' yields
    a report (no 'error' key), the suspicious imports extracted into it
    number at least 2 (the feature 'suspicious_api_count' holds their
    number), and the indicator list of the report carries
    "Suspicious API imports: n". *)
Theorem suspicious_imports_are_reported :
  forall (md5_hexdigest sha1_hexdigest sha256_hexdigest : bytes -> string)
         (pefile_parse : bytes -> PyResult StaticAnalyzer.PE)
         (json_dump : StaticAnalyzer.StaticResult -> PyResult bytes)
         (report_dump : PredictionEngine.Report -> PyResult bytes)
         (now_ts : Z) (now : string)
         (self : PredictionEngine.t) (fs fs' : gmap string File)
         (filepath : string) (data : bytes) (pe : StaticAnalyzer.PE)
         (report : PredictionEngine.Report),
    read_bytes fs filepath = Ok data ->
    pefile_parse data = Ok pe ->
    imports_include pe "CreateRemoteThread" ->
    imports_include pe "WriteProcessMemory" ->
    PredictionEngine.analyze_file
      md5_hexdigest sha1_hexdigest sha256_hexdigest pefile_parse json_dump
      report_dump now_ts now self fs filepath = (report, fs') ->
    PredictionEngine.rp_error report = None ->
    exists (found : list string) (features : PyDict FVal)
           (assessment : PredictionEngine.Assessment),
      StaticAnalyzer._check_suspicious_imports pe = Ok found
      /\ 2 <= length found
      /\ PredictionEngine.rp_features report = Some features
      /\ dict_get "suspicious_api_count" features
         = Some (VInt (DynamicAnalyzer.len found))
      /\ PredictionEngine.rp_overall_assessment report = Some assessment
      /\ In ("Suspicious API imports: " ++ str_of_nat (length found))
            (PredictionEngine.key_indicators assessment).
Proof.
  intros md5 sha1 sha256 parse dump rdump now_ts now self fs fs' filepath
    data pe report Hread Hparse H1 H2 Hrun Herr.
  destruct (analyze_file_report md5 sha1 sha256 parse dump rdump now_ts now
              self fs fs' filepath report Hrun Herr)
    as (static_result & features & Hstatic & Hok & _ & Hfeat & Hrf & Hassess).
  destruct (suspicious_imports_in_static_result md5 sha1 sha256 parse dump
              fs (snd (StaticAnalyzer.analyze_file md5 sha1 sha256 parse dump
                         fs filepath))
              filepath data pe static_result Hread Hparse H1 H2)
    as (ind & found & Hfound & Hind & Hsus & Hlen & Hin).
  { rewrite <- Hstatic. apply surjective_pairing. }
  { exact Hok. }
  exists found, features. eexists.
  repeat split; try eassumption.
  - destruct (extract_features_static_defaults _ _ _ Hfeat)
      as (_ & _ & _ & _ & Hindicators).
    destruct (Hindicators ind Hind) as (_ & _ & Hcount & _).
    rewrite Hcount, Hsus. reflexivity.
  - apply Hin.
Qed.

(** ** Runs on concrete inputs *)

Example findall_ascii_run :
  map str_of_bytes
      (StaticAnalyzer.findall_ascii (list_byte_of_string "ab cmd.exe xyz") [])
  = ["ab cmd.exe xyz"].
Proof. reflexivity. Qed.

Example findall_ascii_short_runs :
  StaticAnalyzer.findall_ascii [x41; x42; x43; x00; x41; x42; x43; x44; x00] []
  = [[x41; x42; x43; x44]].
Proof. reflexivity. Qed.

Example findall_wide_run :
  map str_of_bytes
      (StaticAnalyzer.findall_wide
         [x01; x63; x00; x6d; x00; x64; x00; x2e; x00; x65; x00; xff; x41; x00] 0)
  = ["cmd.e"].
Proof. reflexivity. Qed.

Example basename_run : basename "uploads/in/sample.EXE" = "sample.EXE".
Proof. reflexivity. Qed.

Example endswith_run :
  str_endswith (str_lower "Invoice.SCR") ".scr" = true
  /\ str_endswith "a.js" ".vbs" = false.
Proof. split; reflexivity. Qed.

Example rstrip_run :
  str_rstrip_nul (str_of_bytes [x2e; x74; x65; x78; x74; x00; x00; x00]) = ".text".
Proof. reflexivity. Qed.

Example int_of_hex_literal_run :
  int_of_hex_literal (hex 4096) = Ok 4096%Z
  /\ int_of_hex_literal "0x"
     = Raise (mkExc ValueError "invalid literal for int() with base 16").
Proof. split; reflexivity. Qed.

Example decode_utf8_run :
  decode_utf8 [xc3; xa9] = Ok (str_of_bytes [xc3; xa9])
  /\ decode_utf8 [xff; x41]
     = Raise (mkExc ValueError "'utf-8' codec can't decode bytes").
Proof. split; reflexivity. Qed.

Example mock_score_run :
  DynamicAnalyzer._calculate_behavior_score mock_behavior = 60%Z
  /\ DynamicAnalyzer._determine_risk_level 60 = "MEDIUM".
Proof. split; reflexivity. Qed.

Example check_suspicious_imports_run :
  StaticAnalyzer._check_suspicious_imports injector_pe
  = Ok ["CreateRemoteThread"; "WriteProcessMemory"].
Proof. reflexivity. Qed.

(** The feature 'suspicious_imports_count' is a different counter: it looks
    for 'process', 'memory', 'registry', 'internet' in the lowered name. *)
Example lowercase_import_counter_run :
  FeatureEngineer._extract_static_features
    {| StaticAnalyzer.sr_error := None; StaticAnalyzer.sr_file_info := None;
       StaticAnalyzer.sr_strings := None; StaticAnalyzer.sr_entropy := None;
       StaticAnalyzer.sr_pe_headers := None;
       StaticAnalyzer.sr_imports :=
         Some [("kernel32.dll", ["CreateRemoteThread"; "WriteProcessMemory"])];
       StaticAnalyzer.sr_metadata := None;
       StaticAnalyzer.sr_suspicious_indicators := None;
       StaticAnalyzer.sr_analysis_note := None |}
  = Ok [ ("number_of_imports", VInt 1); ("number_of_imported_dlls", VInt 1);
         ("suspicious_imports_count", VInt 1); ("entropy", VInt 0) ].
Proof. reflexivity. Qed.

(** * Further properties of the code *)

(** ** What the static analysis writes *)

Lemma append_right_nonempty (s t : string) : t <> "" -> s ++ t <> s.
Proof.
  intros Ht H. apply Ht.
  induction s as [|c s IH]; simpl in H; [exact H|].
  inversion H. auto.
Qed.

Lemma write_bytes_other (fs fs' : gmap string File) (path other : string)
  (data : bytes) :
  write_bytes fs path data = Ok fs' -> other <> path ->
  fs' !! other = fs !! other.
Proof.
  unfold write_bytes. intros H Hne.
  destruct (fs !! path) as [f|].
  - destruct (f_writable f); [|discriminate]. inversion H; subst.
    apply lookup_insert_ne. congruence.
  - inversion H; subst. apply lookup_insert_ne. congruence.
Qed.

Ltac step_run H :=
  match type of H with
  | context [py_bind ?c _] =>
      lazymatch c with
      | context [py_bind _ _] => fail
      | _ => destruct c eqn:?; cbn [py_bind catch] in H
      end
  end.

Section StaticEffects.
Variable md5_hexdigest sha1_hexdigest sha256_hexdigest : bytes -> string.
Variable pefile_parse : bytes -> PyResult StaticAnalyzer.PE.
Variable json_dump : StaticAnalyzer.StaticResult -> PyResult bytes.

Let analyze := StaticAnalyzer.analyze_file
                 md5_hexdigest sha1_hexdigest sha256_hexdigest pefile_parse json_dump.

(** Either the analysis failed and nothing was written, or it produced a
    result and at most the JSON file beside the input was written. *)
Lemma analyze_file_shape (fs fs' : gmap string File) (filepath : string)
  (result : StaticAnalyzer.StaticResult) :
  analyze fs filepath = (result, fs') ->
  (StaticAnalyzer.sr_error result <> None /\ fs' = fs)
  \/ (StaticAnalyzer.sr_error result = None
      /\ (fs' = fs
          \/ exists text,
               write_bytes fs (filepath ++ "_static_analysis.json") text = Ok fs')).
Proof.
  unfold analyze, StaticAnalyzer.analyze_file. intros H.
  destruct (negb (path_exists fs filepath)).
  { inversion H; subst. left. split; [discriminate | reflexivity]. }
  destruct (path_getsize fs filepath) as [size|e]; cbn [py_bind catch] in H;
    [|inversion H; subst; left; split; [discriminate | reflexivity]].
  destruct (Nat.eqb size 0).
  { inversion H; subst. left. split; [discriminate | reflexivity]. }
  destruct (StaticAnalyzer._get_file_info _ _ _ fs filepath) as [fi|e];
    cbn [py_bind catch] in H;
    [|inversion H; subst; left; split; [discriminate | reflexivity]].
  destruct (StaticAnalyzer._extract_strings fs filepath) as [si|e];
    cbn [py_bind catch] in H;
    [|inversion H; subst; left; split; [discriminate | reflexivity]].
  destruct (StaticAnalyzer._calculate_entropy fs filepath) as [en|e];
    cbn [py_bind catch] in H;
    [|inversion H; subst; left; split; [discriminate | reflexivity]].
  destruct (StaticAnalyzer.try_parse_pe pefile_parse fs filepath) as [pe reason].
  match type of H with
  | catch (py_bind ?c _) _ = _ => destruct c as [r|e] eqn:Hr
  end; cbn [py_bind catch] in H;
    [|inversion H; subst; left; split; [discriminate | reflexivity]].
  assert (Hok : StaticAnalyzer.sr_error r = None).
  { destruct pe as [pe|].
    - repeat step_run Hr; try discriminate. inversion Hr; subst. reflexivity.
    - repeat step_run Hr; try discriminate. inversion Hr; subst. reflexivity. }
  inversion H; subst. right. split; [exact Hok|].
  destruct (json_dump result) as [text|e]; cbn [py_bind catch]; [|left; reflexivity].
  destruct (write_bytes fs (filepath ++ "_static_analysis.json") text) as [fs1|e] eqn:Hw;
    cbn [catch]; [right; eauto | left; reflexivity].
Qed.

Lemma static_analysis_other_path (fs : gmap string File) (filepath other : string) :
  other <> filepath ++ "_static_analysis.json" ->
  snd (analyze fs filepath) !! other = fs !! other.
Proof.
  intros Hne.
  destruct (analyze fs filepath) as [result fs1] eqn:Hrun. cbn [snd].
  destruct (analyze_file_shape fs fs1 filepath result Hrun)
    as [[_ ->]|[_ [->|[text Hw]]]]; try reflexivity.
  apply (write_bytes_other _ _ _ _ _ Hw Hne).
Qed.

(** A result with an error means that nothing was written. *)
Lemma static_analysis_error_fs (fs : gmap string File) (filepath msg : string) :
  StaticAnalyzer.sr_error (fst (analyze fs filepath)) = Some msg ->
  snd (analyze fs filepath) = fs.
Proof.
  intros Herr.
  destruct (analyze fs filepath) as [result fs1] eqn:Hrun. cbn [fst snd] in *.
  destruct (analyze_file_shape fs fs1 filepath result Hrun)
    as [[_ ->]|[Hnone _]]; [reflexivity | congruence].
Qed.

(** X1. Whatever the file and whatever the outcome, the static analysis
    changes no file other than [<filepath>_static_analysis.json]; the
    analysed file itself is left as it was, and a result that carries an
    error means that nothing at all was written. *)
Theorem static_analysis_writes_only_its_json :
  forall (fs : gmap string File) (filepath : string),
    let result := fst (analyze fs filepath) in
    let fs' := snd (analyze fs filepath) in
    (forall other, other <> filepath ++ "_static_analysis.json" ->
                   fs' !! other = fs !! other)
    /\ fs' !! filepath = fs !! filepath
    /\ (StaticAnalyzer.sr_error result <> None -> fs' = fs).
Proof.
  intros fs filepath result fs'. subst result fs'. split; [|split].
  - intros other. apply static_analysis_other_path.
  - apply static_analysis_other_path. intros H. symmetry in H. revert H.
    apply append_right_nonempty. discriminate.
  - destruct (StaticAnalyzer.sr_error (fst (analyze fs filepath))) as [msg|] eqn:E;
      [|congruence].
    intros _. apply (static_analysis_error_fs fs filepath msg E).
Qed.

End StaticEffects.

(** ** Files the static analysis refuses *)

Section StaticRefusals.
Variable md5_hexdigest sha1_hexdigest sha256_hexdigest : bytes -> string.
Variable pefile_parse : bytes -> PyResult StaticAnalyzer.PE.
Variable json_dump : StaticAnalyzer.StaticResult -> PyResult bytes.

(** X2. A missing file and an empty file are each answered with their own
    error message, an unreadable file with a message that starts with
    the failure prefix; in all three cases the result has no other key
    and nothing is written. *)
Theorem static_analysis_refusals :
  forall (fs : gmap string File) (filepath : string),
    let run := StaticAnalyzer.analyze_file
                 md5_hexdigest sha1_hexdigest sha256_hexdigest
                 pefile_parse json_dump fs filepath in
    match fs !! filepath with
    | None => run = (StaticAnalyzer.error_result "الملف غير موجود", fs)
    | Some f =>
        match f_data f with
        | [] => run = (StaticAnalyzer.error_result "الملف فارغ", fs)
        | _ :: _ =>
            f_readable f = false ->
            exists msg,
              run = (StaticAnalyzer.error_result ("فشل تحليل الملف: " ++ msg), fs)
        end
    end.
Proof.
  intros fs filepath run. subst run.
  unfold StaticAnalyzer.analyze_file, path_exists, path_getsize.
  destruct (fs !! filepath) as [f|] eqn:Hf.
  - rewrite bool_decide_eq_true_2 by eauto. cbn [negb py_bind].
    destruct (f_data f) as [|b data] eqn:Hdata; [reflexivity|].
    intros Hread. cbn [length Nat.eqb].
    unfold StaticAnalyzer._get_file_info, path_getsize, read_bytes.
    rewrite Hf, Hread. cbn [py_bind catch]. eexists. reflexivity.
  - rewrite bool_decide_eq_false_2 by (intros [? ?]; discriminate).
    reflexivity.
Qed.

End StaticRefusals.

(** ** Extracted strings *)

Lemma flush_run_spec (run s : bytes) :
  Forall (fun b => StaticAnalyzer.printable b = true) run ->
  In s (StaticAnalyzer.flush_run run) ->
  4 <= length s /\ Forall (fun b => StaticAnalyzer.printable b = true) s.
Proof.
  unfold StaticAnalyzer.flush_run. intros Hrun Hin.
  destruct (4 <=? length run)%nat eqn:E; [|contradiction].
  destruct Hin as [<-|[]]. apply Nat.leb_le in E.
  rewrite length_rev. split; [assumption|].
  apply Forall_rev. assumption.
Qed.

Lemma findall_ascii_spec (data run s : bytes) :
  Forall (fun b => StaticAnalyzer.printable b = true) run ->
  In s (StaticAnalyzer.findall_ascii data run) ->
  4 <= length s /\ Forall (fun b => StaticAnalyzer.printable b = true) s.
Proof.
  revert run. induction data as [|b data IH]; intros run Hrun Hin; simpl in Hin.
  - apply (flush_run_spec run); assumption.
  - destruct (StaticAnalyzer.printable b) eqn:E.
    + apply (IH (b :: run)); [constructor|]; assumption.
    + apply in_app_or in Hin as [Hin|Hin].
      * apply (flush_run_spec run); assumption.
      * apply (IH []); [constructor | assumption].
Qed.

Lemma wide_pairs_printable (data : bytes) :
  Forall (fun b => StaticAnalyzer.printable b = true) (StaticAnalyzer.wide_pairs data).
Proof.
  assert (H : forall n data, length data <= n ->
            Forall (fun b => StaticAnalyzer.printable b = true)
                   (StaticAnalyzer.wide_pairs data)).
  { clear data. induction n as [|n IH]; intros data Hlen.
    - destruct data; [constructor | simpl in Hlen; lia].
    - destruct data as [|c [|z rest]]; try constructor.
      simpl. destruct (StaticAnalyzer.printable c) eqn:E; [|constructor].
      destruct (Byte.eqb z x00); [|constructor]. simpl.
      constructor; [assumption|]. apply IH. simpl in Hlen. lia. }
  apply (H (length data)). lia.
Qed.

Lemma findall_wide_spec (data : bytes) (skip : nat) (s : bytes) :
  In s (StaticAnalyzer.findall_wide data skip) ->
  4 <= length s /\ Forall (fun b => StaticAnalyzer.printable b = true) s.
Proof.
  revert skip. induction data as [|b data IH]; intros skip Hin; [contradiction|].
  cbn [StaticAnalyzer.findall_wide] in Hin. destruct skip as [|k].
  - cbv zeta in Hin.
    destruct (4 <=? length (StaticAnalyzer.wide_pairs (b :: data)))%nat eqn:E.
    + destruct Hin as [<-|Hin]; [|eapply IH; eassumption].
      apply Nat.leb_le in E. split; [assumption | apply wide_pairs_printable].
    + eapply IH; eassumption.
  - eapply IH; eassumption.
Qed.

Lemma str_of_bytes_length (bs : bytes) :
  String.length (str_of_bytes bs) = length bs.
Proof.
  unfold str_of_bytes, string_of_list_byte.
  induction bs as [|b bs IH]; [reflexivity|].
  cbn [map string_of_list_ascii String.length]. rewrite IH. reflexivity.
Qed.

Lemma bytes_of_str_of_bytes (bs : bytes) :
  list_byte_of_string (str_of_bytes bs) = bs.
Proof. apply list_byte_of_string_of_list_byte. Qed.

(** X3. Whenever the file can be read, string extraction returns: at
    most 200 strings, whose number is [total_strings]; each has at least
    four characters, all of them printable ASCII; and the suspicious
    strings are exactly the extracted strings that contain one of the
    analyzer's suspicious tokens. *)
Theorem extract_strings_bounds :
  forall (fs : gmap string File) (filepath : string) (data : bytes),
    read_bytes fs filepath = Ok data ->
    exists strings suspicious,
      StaticAnalyzer._extract_strings fs filepath
      = Ok {| StaticAnalyzer.si_total_strings := Some (Z.of_nat (length strings));
              StaticAnalyzer.si_strings := Some strings;
              StaticAnalyzer.si_suspicious_strings := Some suspicious |}
      /\ length strings <= 200
      /\ (forall s, In s strings ->
            4 <= String.length s
            /\ Forall (fun b => StaticAnalyzer.printable b = true)
                      (list_byte_of_string s))
      /\ (forall s, In s suspicious <->
            In s strings
            /\ exists token, In token StaticAnalyzer.suspicious_strings
                             /\ str_contains token s = true).
Proof.
  intros fs filepath data Hread.
  unfold StaticAnalyzer._extract_strings. rewrite Hread. cbn [py_bind].
  eexists _, _. split; [reflexivity|]. split; [|split].
  - rewrite length_app, !length_map, !length_take. lia.
  - intros s Hin. apply in_app_or in Hin.
    assert (Hs : exists bs, s = str_of_bytes bs /\ 4 <= length bs
              /\ Forall (fun b => StaticAnalyzer.printable b = true) bs).
    { destruct Hin as [Hin|Hin]; apply in_map_iff in Hin as (bs & <- & Hbs);
        exists bs; (split; [reflexivity|]);
        apply list_elem_of_In, elem_of_take in Hbs as (i & Hbs & _);
        apply list_elem_of_lookup_2, list_elem_of_In in Hbs.
      - apply (findall_ascii_spec data []); [constructor | assumption].
      - apply (findall_wide_spec data 0); assumption. }
    destruct Hs as (bs & -> & Hlen & Hall).
    rewrite str_of_bytes_length, bytes_of_str_of_bytes. auto.
  - intros s. rewrite filter_In. unfold any. rewrite existsb_exists. reflexivity.
Qed.

(** ** What the import and section checks report *)

Lemma py_fold_invariant_In {A S : Type} (body : S -> A -> PyResult S)
  (P : S -> Prop) (l : list A) (s r : S) :
  (forall s x s', In x l -> body s x = Ok s' -> P s -> P s') ->
  P s -> py_fold body l s = Ok r -> P r.
Proof.
  revert s. induction l as [|x l IH]; intros s Hbody Hs Hrun; simpl in Hrun.
  - inversion Hrun; subst. assumption.
  - destruct (body s x) as [s'|e] eqn:E; simpl in Hrun; [|discriminate].
    apply (IH s').
    + intros s0 x0 s0' Hin. apply Hbody. right. assumption.
    + eapply Hbody; [left; reflexivity | eassumption | assumption].
    + assumption.
Qed.

Lemma truthy_name_Some (imp : StaticAnalyzer.ImportData) (name : bytes) :
  StaticAnalyzer.truthy_name imp = Some name ->
  StaticAnalyzer.imp_name imp = Some name /\ name <> [].
Proof.
  unfold StaticAnalyzer.truthy_name.
  destruct (StaticAnalyzer.imp_name imp) as [[|b bs]|]; try discriminate.
  intros H. inversion H. split; [reflexivity | discriminate].
Qed.

Lemma decode_utf8_Ok (bs : bytes) (s : string) :
  decode_utf8 bs = Ok s -> s = str_of_bytes bs /\ list_byte_of_string s = bs.
Proof.
  unfold decode_utf8. destruct (utf8_valid_from bs []); [|discriminate].
  intros H. inversion H. split; [reflexivity|].
  apply list_byte_of_string_of_list_byte.
Qed.

(** X4. Every name the import check reports is the name of a symbol in
    the import table and contains one of the eight flagged API names:
    the check reports nothing else. *)
Theorem check_suspicious_imports_sound :
  forall (pe : StaticAnalyzer.PE) (found : list string),
    StaticAnalyzer._check_suspicious_imports pe = Ok found ->
    Forall (fun name =>
              imports_include pe name
              /\ exists api, In api StaticAnalyzer.suspicious_apis
                             /\ str_contains api name = true)
           found.
Proof.
  intros pe found. unfold StaticAnalyzer._check_suspicious_imports.
  destruct (StaticAnalyzer.DIRECTORY_ENTRY_IMPORT pe) as [entries|] eqn:Hdir;
    [|intros H; inversion H; constructor].
  apply py_fold_invariant_In; [|constructor].
  intros acc entry acc' Hentry Hinner Hacc. revert Hinner.
  apply py_fold_invariant_In; [|assumption].
  clear acc acc' Hacc. intros acc imp acc' Himp Hstep Hacc.
  destruct (StaticAnalyzer.truthy_name imp) as [name|] eqn:Hname;
    [|inversion Hstep; subst; assumption].
  destruct (decode_utf8 name) as [api_name|e] eqn:Hdec;
    cbn [py_bind] in Hstep; [|discriminate].
  destruct (any (fun sus => str_contains sus api_name) StaticAnalyzer.suspicious_apis)
    eqn:Hany; inversion Hstep; subst; [|assumption].
  apply Forall_app. split; [assumption|]. constructor; [|constructor].
  apply truthy_name_Some in Hname as [Hname _].
  apply decode_utf8_Ok in Hdec as [_ Hbytes].
  split.
  - exists entries, entry, imp. rewrite Hbytes. auto.
  - unfold any in Hany. apply existsb_exists in Hany. exact Hany.
Qed.

Lemma check_if_packed_loop_true (secs : list StaticAnalyzer.SectionStructure) :
  StaticAnalyzer.check_if_packed_loop secs = Ok true ->
  exists section decoded,
    In section secs
    /\ decode_utf8 (StaticAnalyzer.Name section) = Ok decoded
    /\ any (fun sus => str_contains sus (str_rstrip_nul decoded))
           [".UPX"; ".packed"; ".compressed"; "UPX0"; "UPX1"] = true.
Proof.
  induction secs as [|section secs IH]; intros H; [discriminate|].
  cbn [StaticAnalyzer.check_if_packed_loop] in H. cbv zeta in H.
  destruct (decode_utf8 (StaticAnalyzer.Name section)) as [decoded|e] eqn:Hdec;
    cbn [py_bind] in H; [|discriminate].
  destruct (any (fun sus => str_contains sus (str_rstrip_nul decoded))
                [".UPX"; ".packed"; ".compressed"; "UPX0"; "UPX1"]) eqn:Hany.
  - exists section, decoded. split; [left; reflexivity | auto].
  - destruct (IH H) as (s & d & Hin & Hd & Ha).
    exists s, d. split; [right; assumption | auto].
Qed.

(** No common section name contains a packer marker. *)
Lemma packer_marker_not_common (name : string) :
  any (fun sus => str_contains sus name)
      [".UPX"; ".packed"; ".compressed"; "UPX0"; "UPX1"] = true ->
  existsb (String.eqb name) [".text"; ".data"; ".rdata"; ".bss"; ".rsrc"; ".reloc"]
  = false.
Proof.
  intros Hany.
  destruct (existsb (String.eqb name)
              [".text"; ".data"; ".rdata"; ".bss"; ".rsrc"; ".reloc"]) eqn:Hcommon;
    [|reflexivity].
  apply existsb_exists in Hcommon as (c & Hc & Heq).
  apply String.eqb_eq in Heq. subst c.
  repeat (destruct Hc as [<-|Hc]; [vm_compute in Hany; discriminate|]).
  contradiction.
Qed.

(** X5. A container flagged as packed always has an unusual section
    too: the section that carries the packer marker is in the list of
    unusual sections. *)
Theorem packed_has_unusual_section :
  forall (pe : StaticAnalyzer.PE) (unusual : list string),
    StaticAnalyzer._check_if_packed pe = Ok true ->
    StaticAnalyzer._check_unusual_sections pe = Ok unusual ->
    exists name marker,
      In name unusual
      /\ In marker [".UPX"; ".packed"; ".compressed"; "UPX0"; "UPX1"]
      /\ str_contains marker name = true.
Proof.
  intros pe unusual Hpacked Hunusual.
  apply check_if_packed_loop_true in Hpacked
    as (section & decoded & Hin & Hdec & Hany).
  exists (str_rstrip_nul decoded).
  pose proof Hany as Hmarker. unfold any in Hmarker.
  apply existsb_exists in Hmarker as (marker & Hm & Hcontains).
  exists marker. split; [|split; assumption].
  unfold StaticAnalyzer._check_unusual_sections in Hunusual.
  revert Hunusual.
  apply (py_fold_reaches _ (fun l => In (str_rstrip_nul decoded) l) section);
    [assumption | |].
  - intros s s' Hstep. rewrite Hdec in Hstep. cbn [py_bind] in Hstep.
    rewrite (packer_marker_not_common _ Hany) in Hstep. cbn [negb] in Hstep.
    inversion Hstep. apply in_or_app. right. left. reflexivity.
  - intros s x s' Hstep Hs.
    destruct (decode_utf8 (StaticAnalyzer.Name x)) as [d|e];
      cbn [py_bind] in Hstep; [|discriminate].
    destruct (negb _) in Hstep; inversion Hstep; subst; [|assumption].
    apply in_or_app. left. assumption.
Qed.

(** ** The analysis pipeline *)

(** The mock analysis always contributes the feature [behavior_score] = 60. *)
Lemma extract_features_behavior_score (s : StaticAnalyzer.StaticResult)
  (now filepath : string) (features : PyDict FVal) :
  FeatureEngineer.extract_features
    s (Some (DynamicAnalyzer.analyze_file now filepath)) = Ok features ->
  dict_get "behavior_score" features = Some (VInt 60).
Proof.
  intros Hf. apply extract_features_split in Hf as (sf & _ & ->).
  change (FeatureEngineer.truthy_dynamic
            (Some (DynamicAnalyzer.analyze_file now filepath))) with true.
  cbv iota. apply dict_get_update_in; [|reflexivity].
  vm_compute.
  repeat (constructor;
          [intros H; repeat (destruct H as [H|H]; [discriminate|]); exact H|]).
  constructor.
Qed.

Section PipelineFacts.
Variable md5_hexdigest sha1_hexdigest sha256_hexdigest : bytes -> string.
Variable pefile_parse : bytes -> PyResult StaticAnalyzer.PE.
Variable json_dump : StaticAnalyzer.StaticResult -> PyResult bytes.
Variable report_dump : PredictionEngine.Report -> PyResult bytes.
Variable now_ts : Z.
Variable now : string.

Let static_run := StaticAnalyzer.analyze_file
                    md5_hexdigest sha1_hexdigest sha256_hexdigest
                    pefile_parse json_dump.
Let run := PredictionEngine.analyze_file
             md5_hexdigest sha1_hexdigest sha256_hexdigest
             pefile_parse json_dump report_dump now_ts now.
Let analysis_id := "analysis_" ++ str_of_Z now_ts.
Let advice := "تأكد من أن الملف من نوع Windows PE (.exe, .dll) وأنه غير تالف".

Lemma save_report_other (fs : gmap string File)
  (report : PredictionEngine.Report) (id other : string) :
  other <> "reports/" ++ id ++ "_report.json" ->
  PredictionEngine._save_report report_dump fs report id !! other = fs !! other.
Proof.
  intros Hne. unfold PredictionEngine._save_report.
  destruct (report_dump report) as [text|e]; cbn [py_bind catch]; [|reflexivity].
  destruct (write_bytes fs _ text) as [fs1|e] eqn:Hw; cbn [catch]; [|reflexivity].
  apply (write_bytes_other _ _ _ _ _ Hw Hne).
Qed.

(** The three ways the pipeline ends: the static error is passed on, a
    later step fails, or a report is built and saved. *)
Lemma pipeline_outcomes (self : PredictionEngine.t) (fs : gmap string File)
  (filepath : string) :
  let static_result := fst (static_run fs filepath) in
  let fs1 := snd (static_run fs filepath) in
  let dynamic_result := DynamicAnalyzer.analyze_file now filepath in
  (exists msg,
     StaticAnalyzer.sr_error static_result = Some msg
     /\ run self fs filepath
        = (PredictionEngine.error_report analysis_id now msg
             (Some (basename filepath)) (Some advice), fs1))
  \/ (exists msg,
        StaticAnalyzer.sr_error static_result = None
        /\ run self fs filepath
           = (PredictionEngine.error_report analysis_id now
                ("Analysis failed: " ++ msg) None None, fs1))
  \/ (exists features explanation label confidence report,
        StaticAnalyzer.sr_error static_result = None
        /\ FeatureEngineer.extract_features static_result (Some dynamic_result)
           = Ok features
        /\ PredictionEngine._generate_explanation static_result dynamic_result
             (PredictionEngine._make_prediction self features) = Ok explanation
        /\ PredictionEngine.pr_prediction
             (PredictionEngine._make_prediction self features) = Some label
        /\ PredictionEngine.pr_confidence
             (PredictionEngine._make_prediction self features) = Some confidence
        /\ report
           = {| PredictionEngine.rp_analysis_id := analysis_id;
                PredictionEngine.rp_error := None;
                PredictionEngine.rp_timestamp := now;
                PredictionEngine.rp_filename := Some (basename filepath);
                PredictionEngine.rp_recommendation := None;
                PredictionEngine.rp_sha256 :=
                  Some match StaticAnalyzer.sr_file_info static_result with
                       | Some file_info =>
                           default "" (StaticAnalyzer.fi_sha256 file_info)
                       | None => ""
                       end;
                PredictionEngine.rp_prediction := Some label;
                PredictionEngine.rp_confidence := Some confidence;
                PredictionEngine.rp_top_features :=
                  Some (default []
                          (PredictionEngine.pr_top_features
                             (PredictionEngine._make_prediction self features)));
                PredictionEngine.rp_explanation := Some explanation;
                PredictionEngine.rp_static_analysis := Some static_result;
                PredictionEngine.rp_dynamic_analysis := Some dynamic_result;
                PredictionEngine.rp_features := Some features;
                PredictionEngine.rp_overall_assessment :=
                  Some (PredictionEngine._generate_assessment
                          static_result dynamic_result
                          (PredictionEngine._make_prediction self features)) |}
        /\ run self fs filepath
           = (report,
              PredictionEngine._save_report report_dump fs1 report analysis_id)).
Proof.
  cbv zeta. unfold run, static_run, PredictionEngine.analyze_file.
  destruct (StaticAnalyzer.analyze_file _ _ _ _ _ fs filepath)
    as [static_result fs1]. cbn [fst snd].
  destruct (StaticAnalyzer.sr_error static_result) as [msg|] eqn:Hs.
  { left. exists msg. split; reflexivity. }
  right.
  destruct (FeatureEngineer.extract_features static_result
              (Some (DynamicAnalyzer.analyze_file now filepath)))
    as [features|e] eqn:Hf; cbn [py_bind catch];
    [|left; eexists; split; reflexivity].
  destruct (PredictionEngine._generate_explanation _ _ _) as [explanation|e] eqn:He;
    cbn [py_bind catch]; [|left; eexists; split; reflexivity].
  destruct (PredictionEngine.pr_prediction _) as [label|] eqn:Hl;
    cbn [py_bind catch]; [|left; eexists; split; reflexivity].
  destruct (PredictionEngine.pr_confidence _) as [confidence|] eqn:Hc;
    cbn [py_bind catch]; [|left; eexists; split; reflexivity].
  right. exists features, explanation, label, confidence. eexists.
  repeat split; reflexivity || assumption.
Qed.

(** The report when the static analysis returned an error. *)
Lemma static_error_report :
  forall (self : PredictionEngine.t) (fs : gmap string File)
         (filepath msg : string),
    StaticAnalyzer.sr_error (fst (static_run fs filepath)) = Some msg ->
    run self fs filepath
    = (PredictionEngine.error_report analysis_id now msg
         (Some (basename filepath)) (Some advice), fs).
Proof.
  intros self fs filepath msg Herr.
  pose proof (static_analysis_error_fs
                md5_hexdigest sha1_hexdigest sha256_hexdigest pefile_parse
                json_dump fs filepath msg Herr) as Hfs.
  destruct (pipeline_outcomes self fs filepath)
    as [(m & Hm & Hrun)|[(m & Hm & _)|(f & x & l & c & r & Hm & _)]];
    fold static_run in Hfs; congruence.
Qed.

(** X8. When the static analysis refuses the file, the pipeline returns
    an error report that carries the static message, the file name and
    the fixed advice, and it writes nothing: no static JSON and no report
    file. *)
Theorem pipeline_passes_static_error_on :
  forall (self : PredictionEngine.t) (fs : gmap string File)
         (filepath msg : string),
    StaticAnalyzer.sr_error (fst (static_run fs filepath)) = Some msg ->
    run self fs filepath
    = (PredictionEngine.error_report analysis_id now msg
         (Some (basename filepath)) (Some advice), fs).
Proof.
  intros self fs filepath msg Herr.
  pose proof (static_analysis_error_fs
                md5_hexdigest sha1_hexdigest sha256_hexdigest pefile_parse
                json_dump fs filepath msg Herr) as Hfs.
  destruct (pipeline_outcomes self fs filepath)
    as [(m & Hm & Hrun)|[(m & Hm & _)|(f & x & l & c & r & Hm & _)]];
    fold static_run in Hfs; congruence.
Qed.

(** X9. Whatever the outcome, the pipeline changes no file other than
    the static JSON beside the input and the report
    [reports/analysis_<timestamp>_report.json]. *)
Theorem pipeline_writes_only_two_files :
  forall (self : PredictionEngine.t) (fs : gmap string File)
         (filepath other : string),
    other <> filepath ++ "_static_analysis.json" ->
    other <> "reports/" ++ analysis_id ++ "_report.json" ->
    snd (run self fs filepath) !! other = fs !! other.
Proof.
  intros self fs filepath other Hstatic Hreport.
  pose proof (static_analysis_other_path
                md5_hexdigest sha1_hexdigest sha256_hexdigest pefile_parse
                json_dump fs filepath other Hstatic) as Hfs.
  fold static_run in Hfs.
  destruct (pipeline_outcomes self fs filepath)
    as [(m & _ & Hrun)|[(m & _ & Hrun)|(f & x & l & c & r & _ & _ & _ & _ & _ & _ & Hrun)]];
    rewrite Hrun; cbn [snd]; try exact Hfs.
  rewrite save_report_other by assumption. exact Hfs.
Qed.

(** X10. Every report the pipeline builds carries the same dynamic
    part, whatever the file holds: the mock behaviour with score 60 and
    risk level MEDIUM. The score is the feature [behavior_score], and the
    key indicators always include "High behavior score: 60". *)
Theorem pipeline_dynamic_part_is_fixed :
  forall (self : PredictionEngine.t) (fs : gmap string File) (filepath : string),
    let report := fst (run self fs filepath) in
    PredictionEngine.rp_error report = None ->
    exists dynamic_result features assessment,
      PredictionEngine.rp_dynamic_analysis report = Some dynamic_result
      /\ DynamicAnalyzer.dr_behavior dynamic_result = Some mock_behavior
      /\ DynamicAnalyzer.dr_behavior_score dynamic_result = Some 60%Z
      /\ DynamicAnalyzer.dr_risk_level dynamic_result = Some "MEDIUM"
      /\ PredictionEngine.rp_features report = Some features
      /\ dict_get "behavior_score" features = Some (VInt 60)
      /\ PredictionEngine.rp_overall_assessment report = Some assessment
      /\ In "High behavior score: 60" (PredictionEngine.key_indicators assessment).
Proof.
  intros self fs filepath report Herr. subst report.
  destruct (pipeline_outcomes self fs filepath)
    as [(m & _ & Hrun)|[(m & _ & Hrun)|(f & x & l & c & r & _ & Hf & _ & _ & _ & Hr & Hrun)]];
    rewrite Hrun in *; cbn [fst] in *; try discriminate.
  clear Herr Hrun. subst r. cbn.
  exists (DynamicAnalyzer.analyze_file now filepath), f. eexists.
  repeat split; try reflexivity.
  - apply (extract_features_behavior_score _ _ _ _ Hf).
  - apply in_or_app. right. apply in_or_app. left. left. reflexivity.
Qed.

End PipelineFacts.

(** ** The explanation *)

Lemma prefix_append (s t : string) : String.prefix s (s ++ t) = true.
Proof.
  induction s as [|c s IH]; simpl.
  - destruct t; reflexivity.
  - destruct (ascii_dec c c); [exact IH | congruence].
Qed.

(** The sentence built from the parts begins with the first part and
    goes on after it. *)
Lemma explanation_begins_with_main (main explanation : string) (rest : list string) :
  match main :: rest with
  | [] => Raise (mkExc IndexError "list index out of range")
  | [m] => Ok (m ++ ".")
  | [m; reason] => Ok (m ++ " " ++ reason ++ ".")
  | m :: others =>
      let reasons := PredictionEngine.str_join ", " (removelast others) in
      let last_reason := List.last others "" in
      Ok (m ++ " " ++ reasons ++ ", and " ++ last_reason ++ ".")
  end = Ok explanation ->
  String.prefix main explanation = true /\ explanation <> main.
Proof.
  destruct rest as [|r1 [|r2 rest]]; intros H; inversion H;
    (split; [apply prefix_append | apply append_right_nonempty; discriminate]).
Qed.

Lemma generate_explanation_begins
  (static_result : StaticAnalyzer.StaticResult)
  (dynamic_result : DynamicAnalyzer.DynamicResult)
  (prediction_result : PredictionEngine.PredictionResult)
  (label explanation : string) :
  PredictionEngine.pr_prediction prediction_result = Some label ->
  PredictionEngine._generate_explanation
    static_result dynamic_result prediction_result = Ok explanation ->
  let opening := if String.eqb label "malicious"
                 then "The file is classified as malicious"
                 else "The file appears to be benign" in
  String.prefix opening explanation = true /\ explanation <> opening.
Proof.
  intros Hlabel.
  unfold PredictionEngine._generate_explanation.
  rewrite Hlabel. cbn [py_bind].
  set (main := if String.eqb label "malicious"
               then "The file is classified as malicious"
               else "The file appears to be benign").
  replace (if String.eqb label "malicious"
           then ["The file is classified as malicious"]
           else ["The file appears to be benign"]) with [main]
    by (unfold main; destruct (String.eqb label "malicious"); reflexivity).
  destruct (StaticAnalyzer.sr_suspicious_indicators static_result) as [ind|];
    destruct (DynamicAnalyzer.dr_behavior_score dynamic_result) as [score|];
    try destruct (50 <? score)%Z;
    cbn [app];
    first [ apply explanation_begins_with_main
          | intros H; inversion H;
            (split; [apply prefix_append
                    | apply append_right_nonempty; discriminate]) ].
Qed.

(** X11. The explanation opens with "The file is classified as
    malicious" for the label 'malicious' and with "The file appears to be
    benign" for every other label, the 'unknown' of a failed prediction
    included; and it is never the bare opening: a full stop or a reason
    follows. *)
Theorem explanation_opening :
  forall (static_result : StaticAnalyzer.StaticResult)
         (dynamic_result : DynamicAnalyzer.DynamicResult)
         (prediction_result : PredictionEngine.PredictionResult)
         (label explanation : string),
    PredictionEngine.pr_prediction prediction_result = Some label ->
    PredictionEngine._generate_explanation
      static_result dynamic_result prediction_result = Ok explanation ->
    let opening := if String.eqb label "malicious"
                   then "The file is classified as malicious"
                   else "The file appears to be benign" in
    String.prefix opening explanation = true
    /\ explanation <> opening.
Proof.
  intros static_result dynamic_result prediction_result label explanation.
  apply generate_explanation_begins.
Qed.

(** ** The engine the constructor builds *)

Lemma unfitted_prediction (self : PredictionEngine.t) (features : PyDict FVal) :
  FeatureEngineer.scaler (PredictionEngine.feature_engineer self) = None ->
  PredictionEngine._make_prediction self features
  = {| PredictionEngine.pr_prediction := Some "unknown";
       PredictionEngine.pr_confidence := Some 0%R;
       PredictionEngine.pr_prediction_score := None;
       PredictionEngine.pr_model_used := Some (MLPredictor.PStr "none");
       PredictionEngine.pr_top_features := Some [];
       PredictionEngine.pr_error :=
         Some ("Prediction failed: "
               ++ "This StandardScaler instance is not fitted yet") |}.
Proof.
  intros Hscaler.
  unfold PredictionEngine._make_prediction, PredictionEngine.make_prediction_body,
    FeatureEngineer.process_single_sample.
  rewrite Hscaler. reflexivity.
Qed.

Section ConstructionFacts.
Variable Dataset : Type.
Variable generate_sample_dataset : Dataset.
Variable train_test_split : Dataset -> Dataset * Dataset.
Variable fit : string -> Dataset -> PyResult MLPredictor.Model.
Variable accuracy : MLPredictor.Model -> Dataset -> PyResult R.

Let new_engine := PredictionEngine.__init__
                    Dataset generate_sample_dataset train_test_split fit accuracy.

Lemma init_feature_engineer (disk disk' : MLPredictor.Pickles)
  (self : PredictionEngine.t) :
  new_engine disk = Ok (self, disk') ->
  PredictionEngine.feature_engineer self = FeatureEngineer.init.
Proof.
  unfold new_engine, PredictionEngine.__init__. intros H.
  destruct (MLPredictor.load_model MLPredictor.init "best_model.pkl" disk)
    as [loaded predictor].
  destruct loaded; cbn [negb] in H; [inversion H; reflexivity|].
  unfold PredictionEngine._create_sample_model in H.
  destruct (MLPredictor.train_models _ _ _ _ _ _) as [trained|e];
    cbn [py_bind] in H; [|discriminate].
  inversion H. reflexivity.
Qed.

Lemma init_disk (disk disk' : MLPredictor.Pickles) (self : PredictionEngine.t)
  (other : string) :
  new_engine disk = Ok (self, disk') ->
  other <> "best_model.pkl" ->
  disk' !! other = disk !! other.
Proof.
  unfold new_engine, PredictionEngine.__init__. intros H Hne.
  destruct (MLPredictor.load_model MLPredictor.init "best_model.pkl" disk)
    as [loaded predictor].
  destruct loaded; cbn [negb] in H; [inversion H; reflexivity|].
  unfold PredictionEngine._create_sample_model in H.
  destruct (MLPredictor.train_models _ _ _ _ _ _) as [trained|e];
    cbn [py_bind] in H; [|discriminate].
  inversion H. unfold MLPredictor.save_best_model. cbn.
  destruct (MLPredictor.best_model trained.2); try reflexivity;
    apply lookup_insert_ne; congruence.
Qed.

(** X12. An engine built by the constructor never has a fitted feature
    engineer, whether its model was loaded or freshly trained; so each of
    its predictions fails in the scaler and comes back as 'unknown' with
    confidence 0, an error text and no top features. The constructor
    touches no stored file but [best_model.pkl]. *)
Theorem constructed_engine_predicts_unknown :
  forall (disk disk' : MLPredictor.Pickles) (self : PredictionEngine.t),
    new_engine disk = Ok (self, disk') ->
    PredictionEngine.feature_engineer self = FeatureEngineer.init
    /\ (forall other, other <> "best_model.pkl" -> disk' !! other = disk !! other)
    /\ (forall features,
          let result := PredictionEngine._make_prediction self features in
          PredictionEngine.pr_prediction result = Some "unknown"
          /\ PredictionEngine.pr_confidence result = Some 0%R
          /\ PredictionEngine.pr_top_features result = Some []
          /\ exists msg,
               PredictionEngine.pr_error result = Some ("Prediction failed: " ++ msg)).
Proof.
  intros disk disk' self Hinit.
  pose proof (init_feature_engineer disk disk' self Hinit) as Hfe.
  split; [exact Hfe|]. split.
  - intros other. apply (init_disk disk disk' self other Hinit).
  - intros features result. subst result.
    rewrite unfitted_prediction by (rewrite Hfe; reflexivity).
    repeat split. eexists. reflexivity.
Qed.

End ConstructionFacts.

Lemma make_prediction_labels (self : PredictionEngine.t) (features : PyDict FVal) :
  In (default "" (PredictionEngine.pr_prediction
                    (PredictionEngine._make_prediction self features)))
     ["malicious"; "benign"; "unknown"].
Proof.
  unfold PredictionEngine._make_prediction, PredictionEngine.make_prediction_body.
  destruct (FeatureEngineer.process_single_sample _ _) as [processed|e];
    cbn [py_bind catch]; [|simpl; tauto].
  destruct (MLPredictor.predict _ _) as [prediction|e];
    cbn [py_bind catch]; [|simpl; tauto].
  destruct (Z.eqb prediction 1); simpl; tauto.
Qed.

Lemma risk_of_levels (p : PredictionEngine.PredictionResult) :
  In (PredictionEngine.risk_of p) ["HIGH"; "MEDIUM"; "LOW"; "SAFE"].
Proof.
  unfold PredictionEngine.risk_of.
  destruct (bool_decide _); [|simpl; tauto].
  destruct (float_gt _ (8 / 10)); [simpl; tauto|].
  destruct (float_gt _ (6 / 10)); simpl; tauto.
Qed.

Section EngineReports.
Variable md5_hexdigest sha1_hexdigest sha256_hexdigest : bytes -> string.
Variable pefile_parse : bytes -> PyResult StaticAnalyzer.PE.
Variable json_dump : StaticAnalyzer.StaticResult -> PyResult bytes.
Variable report_dump : PredictionEngine.Report -> PyResult bytes.
Variable now_ts : Z.
Variable now : string.
Variable Dataset : Type.
Variable generate_sample_dataset : Dataset.
Variable train_test_split : Dataset -> Dataset * Dataset.
Variable fit : string -> Dataset -> PyResult MLPredictor.Model.
Variable accuracy : MLPredictor.Model -> Dataset -> PyResult R.

Let run := PredictionEngine.analyze_file
             md5_hexdigest sha1_hexdigest sha256_hexdigest
             pefile_parse json_dump report_dump now_ts now.
Let new_engine := PredictionEngine.__init__
                    Dataset generate_sample_dataset train_test_split fit accuracy.

(** X13. Every report of an engine built by the constructor has the
    verdict 'unknown' with confidence 0 and no top features; its risk
    level is SAFE, its only recommendation is "File appears safe, but
    remain vigilant", and its explanation opens with "The file appears to
    be benign", whatever the file and whatever model was loaded. *)
Theorem constructed_engine_reports_safe :
  forall (disk disk' : MLPredictor.Pickles) (self : PredictionEngine.t)
         (fs : gmap string File) (filepath : string),
    new_engine disk = Ok (self, disk') ->
    let report := fst (run self fs filepath) in
    PredictionEngine.rp_error report = None ->
    PredictionEngine.rp_prediction report = Some "unknown"
    /\ PredictionEngine.rp_confidence report = Some 0%R
    /\ PredictionEngine.rp_top_features report = Some []
    /\ exists assessment explanation,
         PredictionEngine.rp_overall_assessment report = Some assessment
         /\ PredictionEngine.risk_level assessment = "SAFE"
         /\ PredictionEngine.recommendations assessment
            = ["File appears safe, but remain vigilant"]
         /\ PredictionEngine.rp_explanation report = Some explanation
         /\ String.prefix "The file appears to be benign" explanation = true.
Proof.
  intros disk disk' self fs filepath Hinit report Herr. subst report.
  pose proof (init_feature_engineer _ _ _ _ _ _ _ _ Hinit) as Hfe.
  assert (Hscaler : FeatureEngineer.scaler (PredictionEngine.feature_engineer self)
                    = None) by (rewrite Hfe; reflexivity).
  destruct (pipeline_outcomes md5_hexdigest sha1_hexdigest sha256_hexdigest
              pefile_parse json_dump report_dump now_ts now self fs filepath)
    as [(m & _ & Hrun)|[(m & _ & Hrun)|(f & x & l & c & r & _ & _ & He & Hl & Hc & Hr & Hrun)]];
    fold run in Hrun; rewrite Hrun in *; cbn [fst] in *; try discriminate.
  clear Herr Hrun.
  pose proof (generate_explanation_begins _ _ _ _ _ Hl He) as [Hprefix _].
  rewrite (unfitted_prediction self f Hscaler) in *.
  cbn in Hl, Hc. inversion Hl; subst l. inversion Hc; subst c.
  subst r. cbn [PredictionEngine.rp_prediction PredictionEngine.rp_confidence
                PredictionEngine.rp_top_features
                PredictionEngine.rp_overall_assessment
                PredictionEngine.rp_explanation].
  split; [reflexivity|]. split; [reflexivity|]. split; [reflexivity|].
  eexists _, x. split; [reflexivity|].
  unfold PredictionEngine._generate_assessment.
  cbn [PredictionEngine.risk_level PredictionEngine.recommendations].
  rewrite risk_of_not_malicious by (cbn; congruence).
  repeat split. exact Hprefix.
Qed.

(** X14. The summary of whatever the pipeline returns has the report's
    timestamp and at most three key indicators. For an error report it
    reads result 'unknown', confidence 0, risk level 'UNKNOWN' and no
    indicators; for a full report it has the file name, a result among
    'malicious', 'benign' and 'unknown', one of the four risk levels, and
    at least one indicator. *)
Theorem summary_of_pipeline_report :
  forall (self : PredictionEngine.t) (fs : gmap string File) (filepath : string),
    let report := fst (run self fs filepath) in
    let summary := PredictionEngine.get_analysis_summary report in
    PredictionEngine.sm_timestamp summary = now
    /\ length (PredictionEngine.sm_key_indicators summary) <= 3
    /\ match PredictionEngine.rp_error report with
       | Some _ =>
           PredictionEngine.sm_result summary = "unknown"
           /\ PredictionEngine.sm_confidence summary = 0%R
           /\ PredictionEngine.sm_risk_level summary = "UNKNOWN"
           /\ PredictionEngine.sm_key_indicators summary = []
       | None =>
           PredictionEngine.sm_filename summary = basename filepath
           /\ In (PredictionEngine.sm_result summary)
                 ["malicious"; "benign"; "unknown"]
           /\ In (PredictionEngine.sm_risk_level summary)
                 ["HIGH"; "MEDIUM"; "LOW"; "SAFE"]
           /\ PredictionEngine.sm_key_indicators summary <> []
       end.
Proof.
  intros self fs filepath report summary. subst summary report.
  split; [|split; [unfold PredictionEngine.get_analysis_summary; cbn;
                   rewrite length_take; lia|]].
  - destruct (pipeline_outcomes md5_hexdigest sha1_hexdigest sha256_hexdigest
                pefile_parse json_dump report_dump now_ts now self fs filepath)
      as [(m & _ & Hrun)|[(m & _ & Hrun)|(f & x & l & c & r & _ & _ & _ & _ & _ & Hr & Hrun)]];
      fold run in Hrun; rewrite Hrun; try reflexivity.
    subst r. reflexivity.
  - destruct (pipeline_outcomes md5_hexdigest sha1_hexdigest sha256_hexdigest
                pefile_parse json_dump report_dump now_ts now self fs filepath)
      as [(m & _ & Hrun)|[(m & _ & Hrun)|(f & x & l & c & r & _ & _ & _ & Hl & _ & Hr & Hrun)]];
      fold run in Hrun; rewrite Hrun; cbn [fst];
      try (cbn; repeat split; reflexivity).
    subst r. cbn [PredictionEngine.rp_error].
    unfold PredictionEngine.get_analysis_summary.
    cbn [PredictionEngine.sm_filename PredictionEngine.sm_result
         PredictionEngine.sm_risk_level PredictionEngine.sm_key_indicators
         PredictionEngine.rp_filename PredictionEngine.rp_prediction
         PredictionEngine.rp_overall_assessment default].
    split; [reflexivity|]. split; [|split].
    + pose proof (make_prediction_labels self f) as Hlabels.
      rewrite Hl in Hlabels. exact Hlabels.
    + apply risk_of_levels.
    + cbn [PredictionEngine._generate_assessment PredictionEngine.key_indicators].
      change (PredictionEngine.dynamic_indicators
                (DynamicAnalyzer.analyze_file now filepath))
        with ["High behavior score: 60"].
      destruct (PredictionEngine.static_indicators _) as [|i1 [|i2 [|i3 rest]]];
        cbn; discriminate.
Qed.

End EngineReports.

(** ** Choosing the best model *)

Ltac split_comparisons H :=
  repeat match type of H with
         | context [Rgt_dec ?a ?b] => destruct (Rgt_dec a b)
         | context [Req_dec_T ?a ?b] => destruct (Req_dec_T a b)
         end.

Section TrainingFacts.
Variable Dataset : Type.
Variable train_test_split : Dataset -> Dataset * Dataset.
Variable fit : string -> Dataset -> PyResult MLPredictor.Model.
Variable accuracy : MLPredictor.Model -> Dataset -> PyResult R.

(** X15. When training returns, [results] holds the three estimators
    in the order random_forest, svm, neural_network; the predictor's best
    model is the model of one of these entries, named by its key, and no
    entry has a greater accuracy. On a tie the earlier entry wins: svm is
    chosen only when strictly better than random_forest, neural_network
    only when strictly better than both. *)
Theorem train_models_selects_best :
  forall (self self' : MLPredictor.t) (X_y : Dataset)
         (results : PyDict MLPredictor.TrainResult),
    MLPredictor.train_models Dataset train_test_split fit accuracy self X_y
    = Ok (results, self') ->
    exists r1 r2 r3 name best,
      results = [("random_forest", r1); ("svm", r2); ("neural_network", r3)]
      /\ MLPredictor.best_model_name self' = MLPredictor.PStr name
      /\ MLPredictor.best_model self'
         = MLPredictor.PModel (MLPredictor.tr_model best)
      /\ dict_get name results = Some best
      /\ Forall (fun r => (MLPredictor.tr_accuracy r
                           <= MLPredictor.tr_accuracy best)%R)
                [r1; r2; r3]
      /\ (name = "random_forest"
          \/ (name = "svm"
              /\ (MLPredictor.tr_accuracy r1 < MLPredictor.tr_accuracy best)%R)
          \/ (name = "neural_network"
              /\ (MLPredictor.tr_accuracy r1 < MLPredictor.tr_accuracy best)%R
              /\ (MLPredictor.tr_accuracy r2 < MLPredictor.tr_accuracy best)%R)).
Proof.
  intros self self' X_y results H.
  unfold MLPredictor.train_models in H.
  destruct (train_test_split X_y) as [train test].
  cbn [py_fold MLPredictor.models] in H.
  destruct (fit "random_forest" train) as [m1|e]; cbn [py_bind] in H; [|discriminate].
  destruct (accuracy m1 test) as [a1|e]; cbn [py_bind] in H; [|discriminate].
  destruct (fit "svm" train) as [m2|e]; cbn [py_bind] in H; [|discriminate].
  destruct (accuracy m2 test) as [a2|e]; cbn [py_bind] in H; [|discriminate].
  destruct (fit "neural_network" train) as [m3|e]; cbn [py_bind] in H; [|discriminate].
  destruct (accuracy m3 test) as [a3|e]; cbn [py_bind] in H; [|discriminate].
  set (r1 := {| MLPredictor.tr_model := m1; MLPredictor.tr_accuracy := a1 |}) in H.
  set (r2 := {| MLPredictor.tr_model := m2; MLPredictor.tr_accuracy := a2 |}) in H.
  set (r3 := {| MLPredictor.tr_model := m3; MLPredictor.tr_accuracy := a3 |}) in H.
  change (dict_set "neural_network" r3
            (dict_set "svm" r2 (dict_set "random_forest" r1 [])))
    with [("random_forest", r1); ("svm", r2); ("neural_network", r3)] in H.
  exists r1, r2, r3.
  unfold MLPredictor.max_by_accuracy, MLPredictor.names_with_accuracy, dict_values in H.
  cbn [map snd fst fold_left List.filter py_bind] in H.
  subst r1 r2 r3. cbn [MLPredictor.tr_accuracy] in H |- *.
  destruct (Rgt_dec a2 a1) as [H21|H21];
    cbn [MLPredictor.tr_accuracy] in H;
    (destruct (Rgt_dec a3 _) as [H3|H3] in H);
    cbn [MLPredictor.tr_accuracy] in H;
    (destruct (Req_dec_T a1 _) as [E1|E1] in H);
    (destruct (Req_dec_T a2 _) as [E2|E2] in H);
    (destruct (Req_dec_T a3 _) as [E3|E3] in H);
    cbn [map snd fst fold_left List.filter py_bind MLPredictor.tr_accuracy] in H;
    try discriminate H;
    try (exfalso; lra);
    cbn in H; injection H as Hresults Hself; subst results self';
    cbn [MLPredictor.best_model MLPredictor.best_model_name];
    first
      [ solve [ exists "random_forest",
                  {| MLPredictor.tr_model := m1; MLPredictor.tr_accuracy := a1 |};
                repeat (split; [reflexivity|]);
                cbn [MLPredictor.tr_accuracy];
                split; [repeat (constructor; [cbn; lra|]); constructor | left; reflexivity] ]
      | solve [ exists "svm",
                  {| MLPredictor.tr_model := m2; MLPredictor.tr_accuracy := a2 |};
                repeat (split; [reflexivity|]);
                cbn [MLPredictor.tr_accuracy];
                split; [repeat (constructor; [cbn; lra|]); constructor
                       | right; left; split; [reflexivity | lra]] ]
      | solve [ exists "neural_network",
                  {| MLPredictor.tr_model := m3; MLPredictor.tr_accuracy := a3 |};
                repeat (split; [reflexivity|]);
                cbn [MLPredictor.tr_accuracy];
                split; [repeat (constructor; [cbn; lra|]); constructor
                       | right; right; split; [reflexivity | split; lra]] ] ].
Qed.

End TrainingFacts.

(** ** The top features *)

Lemma dict_set_length {V : Type} (k : string) (v : V) (d : PyDict V) :
  length (dict_set k v d) <= S (length d).
Proof.
  induction d as [|[k0 v0] d IH]; simpl; [lia|].
  destruct (String.eqb k k0); simpl; lia.
Qed.

Lemma dict_get_set_inv {V : Type} (k k' : string) (v v' : V) (d : PyDict V) :
  dict_get k (dict_set k' v' d) = Some v ->
  (k = k' /\ v = v') \/ dict_get k d = Some v.
Proof.
  intros H. destruct (String.eqb k k') eqn:E.
  - apply String.eqb_eq in E. subst k'. rewrite dict_get_set_eq in H.
    inversion H. left. split; reflexivity.
  - apply String.eqb_neq in E. rewrite dict_get_set_ne in H by assumption.
    right. exact H.
Qed.

Lemma dict_get_take {V : Type} (n : nat) (k : string) (v : V) (d : PyDict V) :
  dict_get k (take n d) = Some v -> dict_get k d = Some v.
Proof.
  revert n. induction d as [|[k0 v0] d IH]; intros [|n] H; simpl in *;
    try discriminate.
  destruct (String.eqb k k0); [exact H | eapply IH; exact H].
Qed.

(** Copying entries of [original] by index keeps the copy within
    [original] and adds at most one entry per index. *)
Lemma copy_by_index_spec (original : PyDict FVal) (feature_names : list string)
  (indices : list nat) (top : PyDict FVal) :
  let top' :=
    fold_left
      (fun top_features idx =>
         match feature_names !! idx with
         | Some feature_name =>
             match dict_get feature_name original with
             | Some v => dict_set feature_name v top_features
             | None => top_features
             end
         | None => top_features
         end) indices top in
  (forall k v, dict_get k top = Some v -> dict_get k original = Some v) ->
  length top' <= length top + length indices
  /\ (forall k v, dict_get k top' = Some v -> dict_get k original = Some v).
Proof.
  revert top. induction indices as [|idx indices IH]; intros top top' Htop.
  - subst top'. simpl. split; [lia | exact Htop].
  - subst top'. cbn [fold_left].
    destruct (feature_names !! idx) as [name|];
      [destruct (dict_get name original) as [v0|] eqn:Hget|].
    + destruct (IH (dict_set name v0 top)) as [Hlen Hin].
      { intros k v Hk. apply dict_get_set_inv in Hk as [[-> ->]|Hk]; auto. }
      split; [|exact Hin].
      pose proof (dict_set_length name v0 top). simpl. lia.
    + destruct (IH top Htop) as [Hlen Hin]. split; [simpl; lia | exact Hin].
    + destruct (IH top Htop) as [Hlen Hin]. split; [simpl; lia | exact Hin].
Qed.

(** X16. The top features are at most five, and each of them is an
    entry of the original feature mapping with its original value,
    whether they come from the model's importances or from the fallback. *)
Theorem get_top_features_from_original :
  forall (self : PredictionEngine.t) (original_features : PyDict FVal)
         (processed_features : list R),
    let top :=
      PredictionEngine._get_top_features
        self original_features processed_features in
    length top <= 5
    /\ forall k v, dict_get k top = Some v ->
                   dict_get k original_features = Some v.
Proof.
  intros self original processed top. subst top.
  unfold PredictionEngine._get_top_features.
  assert (Hfallback :
            length (take 5 original) <= 5
            /\ forall k v, dict_get k (take 5 original) = Some v ->
                           dict_get k original = Some v).
  { split; [rewrite length_take; lia | intros k v; apply dict_get_take]. }
  destruct (MLPredictor.best_model (PredictionEngine.ml_predictor self));
    try exact Hfallback.
  destruct (MLPredictor.feature_importances_ m) as [importances|];
    [|exact Hfallback].
  match goal with
  | |- context [fold_left _ ?indices []] =>
      destruct (copy_by_index_spec original (dict_keys original) indices [])
        as [Hlen Hin]; [intros k v Hk; discriminate Hk|];
      assert (Hfive : length indices <= 5) by (rewrite length_take; lia)
  end.
  split; [simpl in Hlen; lia | exact Hin].
Qed.

(** ** Features of the import table *)

Lemma count_suspicious_range (functions : list string) (count : Z) :
  let count' :=
    fold_left
      (fun count func =>
         if FeatureEngineer.is_suspicious_import func then (count + 1)%Z else count)
      functions count in
  (count <= count' <= count + Z.of_nat (length functions))%Z.
Proof.
  revert count. induction functions as [|f functions IH]; intros count; simpl.
  - lia.
  - destruct (FeatureEngineer.is_suspicious_import f).
    + specialize (IH (count + 1)%Z). simpl in IH. lia.
    + specialize (IH count). simpl in IH. lia.
Qed.

Lemma count_suspicious_imports_range (imports : PyDict (list string)) (count : Z) :
  let count' :=
    fold_left
      (fun count kv =>
         fold_left
           (fun count func =>
              if FeatureEngineer.is_suspicious_import func
              then (count + 1)%Z else count)
           (snd kv) count)
      imports count in
  (count <= count' <= count + Z.of_nat (length (concat (map snd imports))))%Z.
Proof.
  revert count. induction imports as [|[dll functions] imports IH];
    intros count; cbn [fold_left map concat snd].
  - simpl. lia.
  - pose proof (count_suspicious_range functions count) as Hf.
    cbv zeta in Hf.
    specialize (IH (fold_left
                      (fun count func =>
                         if FeatureEngineer.is_suspicious_import func
                         then (count + 1)%Z else count) functions count)).
    cbv zeta in IH. rewrite length_app. lia.
Qed.

(** X17. When the static result has an import table, the features
    'number_of_imports' and 'number_of_imported_dlls' are both the number
    of libraries in it (not the number of imported functions), and
    'suspicious_imports_count' lies between 0 and the number of imported
    functions. *)
Theorem import_features_count_libraries :
  forall (static_analysis : StaticAnalyzer.StaticResult)
         (imports_ : PyDict (list string)) (features : PyDict FVal),
    FeatureEngineer._extract_static_features static_analysis = Ok features ->
    StaticAnalyzer.sr_imports static_analysis = Some imports_ ->
    exists suspicious_count,
      dict_get "number_of_imports" features
      = Some (VInt (Z.of_nat (length imports_)))
      /\ dict_get "number_of_imported_dlls" features
         = Some (VInt (Z.of_nat (length imports_)))
      /\ dict_get "suspicious_imports_count" features
         = Some (VInt suspicious_count)
      /\ (0 <= suspicious_count
          <= Z.of_nat (length (concat (map snd imports_))))%Z.
Proof.
  intros s imports_ features H Himports.
  pose proof (count_suspicious_imports_range imports_ 0) as Hrange.
  cbv zeta in Hrange.
  static_cases s H; cbn [StaticAnalyzer.sr_imports] in Himports;
    inversion Himports; subst;
    eexists; (split; [reflexivity|]);
    (split; [cbn; unfold DynamicAnalyzer.len, dict_keys;
             rewrite length_map; reflexivity|]);
    (split; [reflexivity|]); exact Hrange.
Qed.

(** ** What a static result says about the file *)

Section StaticResults.
Variable md5_hexdigest sha1_hexdigest sha256_hexdigest : bytes -> string.
Variable pefile_parse : bytes -> PyResult StaticAnalyzer.PE.
Variable json_dump : StaticAnalyzer.StaticResult -> PyResult bytes.

Let analyze := StaticAnalyzer.analyze_file
                 md5_hexdigest sha1_hexdigest sha256_hexdigest pefile_parse json_dump.

(** X18. A static result without error is only ever returned for a
    file that exists, is not empty and can be read; it then describes
    that file's bytes: the base name, the size, the three digests and the
    entropy of the content, and the strings [_extract_strings] finds. *)
Theorem static_result_describes_file :
  forall (fs : gmap string File) (filepath : string),
    let result := fst (analyze fs filepath) in
    StaticAnalyzer.sr_error result = None ->
    exists f strings_info,
      fs !! filepath = Some f
      /\ f_readable f = true
      /\ f_data f <> []
      /\ StaticAnalyzer.sr_file_info result
         = Some {| StaticAnalyzer.fi_filename := Some (basename filepath);
                   StaticAnalyzer.fi_size := Some (Z.of_nat (length (f_data f)));
                   StaticAnalyzer.fi_md5 := Some (md5_hexdigest (f_data f));
                   StaticAnalyzer.fi_sha1 := Some (sha1_hexdigest (f_data f));
                   StaticAnalyzer.fi_sha256 := Some (sha256_hexdigest (f_data f)) |}
      /\ StaticAnalyzer.sr_entropy result
         = Some (StaticAnalyzer.entropy_of_data (f_data f))
      /\ StaticAnalyzer._extract_strings fs filepath = Ok strings_info
      /\ StaticAnalyzer.sr_strings result = Some strings_info.
Proof.
  intros fs filepath result. subst result.
  unfold analyze, StaticAnalyzer.analyze_file, path_exists, path_getsize.
  destruct (fs !! filepath) as [f|] eqn:Hf.
  2:{ rewrite bool_decide_eq_false_2 by (intros [? ?]; discriminate).
      cbn. discriminate. }
  rewrite bool_decide_eq_true_2 by eauto. cbn [negb py_bind].
  destruct (Nat.eqb (length (f_data f)) 0) eqn:Hlen; [cbn; discriminate|].
  unfold StaticAnalyzer._get_file_info, StaticAnalyzer._calculate_entropy,
    path_getsize.
  rewrite Hf. cbn [py_bind].
  destruct (read_bytes fs filepath) as [data|e] eqn:Hread;
    cbn [py_bind catch]; [|cbn; discriminate].
  destruct (read_bytes_Ok fs filepath data Hread) as (f' & Hf' & Hr & Hd).
  rewrite Hf in Hf'. inversion Hf'; subst f'. subst data.
  destruct (StaticAnalyzer._extract_strings fs filepath) as [si|e] eqn:Hsi;
    cbn [py_bind catch]; [|cbn; discriminate].
  destruct (StaticAnalyzer.try_parse_pe pefile_parse fs filepath) as [pe reason].
  intros Herr. exists f, si.
  split; [reflexivity|]. split; [assumption|].
  split; [intros Hnil; rewrite Hnil in Hlen; discriminate|].
  revert Herr.
  match goal with
  | |- context [catch (py_bind ?c _) _] => destruct c as [r|e] eqn:Hrun
  end; cbn [py_bind catch fst]; [|cbn; discriminate].
  intros _.
  destruct pe as [pe|].
  - repeat step_run Hrun; try discriminate. inversion Hrun; subst.
    repeat split; reflexivity.
  - repeat step_run Hrun; try discriminate. inversion Hrun; subst.
    repeat split; reflexivity.
Qed.

(** The result for a readable, non-empty file that [pefile] refuses. *)
Lemma analyze_file_degraded_result (fs : gmap string File) (filepath : string)
  (f : File) (e : PyExc) :
  fs !! filepath = Some f ->
  f_readable f = true ->
  f_data f <> [] ->
  pefile_parse (f_data f) = Raise e ->
  exists strings_info indicators note,
    fst (analyze fs filepath)
    = {| StaticAnalyzer.sr_error := None;
         StaticAnalyzer.sr_file_info :=
           Some {| StaticAnalyzer.fi_filename := Some (basename filepath);
                   StaticAnalyzer.fi_size := Some (Z.of_nat (length (f_data f)));
                   StaticAnalyzer.fi_md5 := Some (md5_hexdigest (f_data f));
                   StaticAnalyzer.fi_sha1 := Some (sha1_hexdigest (f_data f));
                   StaticAnalyzer.fi_sha256 := Some (sha256_hexdigest (f_data f)) |};
         StaticAnalyzer.sr_strings := Some strings_info;
         StaticAnalyzer.sr_entropy :=
           Some (StaticAnalyzer.entropy_of_data (f_data f));
         StaticAnalyzer.sr_pe_headers := Some StaticAnalyzer.empty_headers;
         StaticAnalyzer.sr_imports := Some [];
         StaticAnalyzer.sr_metadata := Some [];
         StaticAnalyzer.sr_suspicious_indicators := Some indicators;
         StaticAnalyzer.sr_analysis_note := Some note |}
    /\ StaticAnalyzer.ind_packed indicators = Some false
    /\ StaticAnalyzer.ind_unusual_sections indicators = Some []
    /\ StaticAnalyzer.ind_suspicious_imports indicators = Some [].
Proof.
  intros Hf Hr Hne Hparse.
  assert (Hread : read_bytes fs filepath = Ok (f_data f)).
  { unfold read_bytes. rewrite Hf, Hr. reflexivity. }
  destruct (try_parse_pe_failure pefile_parse fs filepath (f_data f) e Hread Hparse)
    as (reason & Htry & Hreason).
  unfold analyze, StaticAnalyzer.analyze_file.
  unfold path_exists, path_getsize. rewrite Hf.
  rewrite bool_decide_eq_true_2 by eauto. cbn [negb py_bind].
  destruct (Nat.eqb (length (f_data f)) 0) eqn:Hlen.
  { apply Nat.eqb_eq in Hlen. destruct (f_data f); [congruence | discriminate]. }
  unfold StaticAnalyzer._get_file_info, StaticAnalyzer._extract_strings,
    StaticAnalyzer._calculate_entropy,
    StaticAnalyzer._check_basic_suspicious_indicators, path_getsize.
  rewrite Hf, Hread, Htry. cbn [py_bind catch fst].
  eexists _, _, _. split; [reflexivity|]. repeat split; reflexivity.
Qed.

End StaticResults.

Section DegradedPipeline.
Variable md5_hexdigest sha1_hexdigest sha256_hexdigest : bytes -> string.
Variable pefile_parse : bytes -> PyResult StaticAnalyzer.PE.
Variable json_dump : StaticAnalyzer.StaticResult -> PyResult bytes.
Variable report_dump : PredictionEngine.Report -> PyResult bytes.
Variable now_ts : Z.
Variable now : string.

Let run := PredictionEngine.analyze_file
             md5_hexdigest sha1_hexdigest sha256_hexdigest
             pefile_parse json_dump report_dump now_ts now.

(** X19. A readable, non-empty file that [pefile] refuses still gets a
    full report from the pipeline, whatever the engine: no error, the
    base name, the SHA-256 of the content, and a feature mapping in which
    the file size is the length of the content and the features read
    from the container (sections, entry point, imports, packing,
    suspicious APIs) are all 0. *)
Theorem pipeline_reports_on_refused_container :
  forall (self : PredictionEngine.t) (fs : gmap string File) (filepath : string)
         (f : File) (e : PyExc),
    fs !! filepath = Some f ->
    f_readable f = true ->
    f_data f <> [] ->
    pefile_parse (f_data f) = Raise e ->
    let report := fst (run self fs filepath) in
    PredictionEngine.rp_error report = None
    /\ PredictionEngine.rp_filename report = Some (basename filepath)
    /\ PredictionEngine.rp_sha256 report = Some (sha256_hexdigest (f_data f))
    /\ exists features,
         PredictionEngine.rp_features report = Some features
         /\ dict_get "file_size" features
            = Some (VInt (Z.of_nat (length (f_data f))))
         /\ dict_get "number_of_sections" features = Some (VInt 0)
         /\ dict_get "entry_point" features = Some (VInt 0)
         /\ dict_get "number_of_imports" features = Some (VInt 0)
         /\ dict_get "is_packed" features = Some (VInt 0)
         /\ dict_get "unusual_sections_count" features = Some (VInt 0)
         /\ dict_get "suspicious_api_count" features = Some (VInt 0).
Proof.
  intros self fs filepath f e Hf Hr Hne Hparse report. subst report.
  destruct (analyze_file_degraded_result
              md5_hexdigest sha1_hexdigest sha256_hexdigest pefile_parse
              json_dump fs filepath f e Hf Hr Hne Hparse)
    as (si & ind & note & Hresult & Hpacked & Hunusual & Himports).
  destruct (pipeline_outcomes md5_hexdigest sha1_hexdigest sha256_hexdigest
              pefile_parse json_dump report_dump now_ts now self fs filepath)
    as [(m & Hm & _)|[(m & Hm & Hrun)|(ft & x & l & c & r & _ & Hft & _ & _ & _ & Hrep & Hrun)]].
  - rewrite Hresult in Hm. discriminate.
  - exfalso.
    assert (Hfeatures : exists features,
               FeatureEngineer.extract_features
                 (fst (StaticAnalyzer.analyze_file
                         md5_hexdigest sha1_hexdigest sha256_hexdigest
                         pefile_parse json_dump fs filepath))
                 (Some (DynamicAnalyzer.analyze_file now filepath)) = Ok features).
    { rewrite Hresult. eexists. reflexivity. }
    destruct Hfeatures as [features Hfeatures].
    pose proof (analyze_file_yields_report
                  md5_hexdigest sha1_hexdigest sha256_hexdigest pefile_parse
                  json_dump report_dump now_ts now self fs filepath features
                  Hm Hfeatures) as Hnone.
    rewrite Hrun in Hnone. discriminate.
  - fold run in Hrun. rewrite Hrun. cbn [fst]. subst r.
    cbn [PredictionEngine.rp_error PredictionEngine.rp_filename
         PredictionEngine.rp_sha256 PredictionEngine.rp_features].
    rewrite Hresult in Hft |- *. cbn in Hft. inversion Hft; subst ft. clear Hft.
    split; [reflexivity|]. split; [reflexivity|]. split; [reflexivity|].
    eexists. split; [reflexivity|].
    rewrite Hpacked, Hunusual, Himports. repeat split; reflexivity.
Qed.

End DegradedPipeline.

(** ** The two shapes of a static result *)

Section StaticShapes.
Variable md5_hexdigest sha1_hexdigest sha256_hexdigest : bytes -> string.
Variable pefile_parse : bytes -> PyResult StaticAnalyzer.PE.
Variable json_dump : StaticAnalyzer.StaticResult -> PyResult bytes.

Let analyze := StaticAnalyzer.analyze_file
                 md5_hexdigest sha1_hexdigest sha256_hexdigest pefile_parse json_dump.

(** The static analysis of a readable, non-empty file that [pefile]
    parses: the full result, or the error of the first reading that
    raised. *)
Lemma analyze_file_parsed :
  forall (fs : gmap string File) (filepath : string) (data : bytes)
         (pe : StaticAnalyzer.PE),
    read_bytes fs filepath = Ok data ->
    data <> [] ->
    pefile_parse data = Ok pe ->
    let result := fst (analyze fs filepath) in
    let failed (e : PyExc) :=
      analyze fs filepath
      = (StaticAnalyzer.error_result ("فشل تحليل الملف: " ++ exc_str e), fs) in
    match StaticAnalyzer._extract_imports pe with
    | Raise e => failed e
    | Ok imports_ =>
        match StaticAnalyzer._extract_metadata pe with
        | Raise e => failed e
        | Ok metadata =>
            match StaticAnalyzer._check_suspicious_indicators fs pe filepath with
            | Raise e => failed e
            | Ok indicators =>
                StaticAnalyzer.sr_error result = None
                /\ StaticAnalyzer.sr_pe_headers result
                   = Some (StaticAnalyzer._extract_pe_headers pe)
                /\ StaticAnalyzer.sr_imports result = Some imports_
                /\ StaticAnalyzer.sr_metadata result = Some metadata
                /\ StaticAnalyzer.sr_suspicious_indicators result = Some indicators
                /\ StaticAnalyzer.sr_analysis_note result = None
            end
        end
    end.
Proof.
  intros fs filepath data pe Hread Hne Hparse result failed.
  subst result failed.
  destruct (read_bytes_Ok _ _ _ Hread) as (f & Hf & Hr & Hd).
  unfold analyze, StaticAnalyzer.analyze_file.
  unfold path_exists, path_getsize. rewrite Hf.
  rewrite bool_decide_eq_true_2 by eauto.
  cbn [negb py_bind].
  destruct (Nat.eqb (length (f_data f)) 0) eqn:Hlen.
  { apply Nat.eqb_eq in Hlen. rewrite Hd in Hlen.
    destruct data; [congruence | discriminate]. }
  assert (Hentropy : StaticAnalyzer._calculate_entropy fs filepath
                     = Ok (StaticAnalyzer.entropy_of_data data)).
  { unfold StaticAnalyzer._calculate_entropy. rewrite Hread. reflexivity. }
  unfold StaticAnalyzer._get_file_info, StaticAnalyzer._extract_strings,
    StaticAnalyzer.try_parse_pe, StaticAnalyzer.pefile_PE, path_getsize.
  rewrite Hf, Hread, Hentropy. cbn [py_bind]. rewrite Hparse.
  destruct (StaticAnalyzer._extract_imports pe) as [imports_|e];
    cbn [py_bind catch]; [|reflexivity].
  destruct (StaticAnalyzer._extract_metadata pe) as [metadata|e];
    cbn [py_bind catch]; [|reflexivity].
  destruct (StaticAnalyzer._check_suspicious_indicators fs pe filepath)
    as [ind|e]; cbn [py_bind catch]; [|reflexivity].
  repeat split; reflexivity.
Qed.

(** X20. For a readable, non-empty file that [pefile] parses, the
    static analysis stands or falls with the three readings of the
    container: when the imports, the metadata and the indicators all
    return, the result carries them with the headers and has no analysis
    note; when one of them raises (an import, section or version string
    that is not UTF-8), the whole result is the error with the message of
    the first that raised, and nothing is written. *)
Theorem parsed_container_all_or_error :
  forall (fs : gmap string File) (filepath : string) (data : bytes)
         (pe : StaticAnalyzer.PE),
    read_bytes fs filepath = Ok data ->
    data <> [] ->
    pefile_parse data = Ok pe ->
    let result := fst (analyze fs filepath) in
    let failed (e : PyExc) :=
      analyze fs filepath
      = (StaticAnalyzer.error_result ("فشل تحليل الملف: " ++ exc_str e), fs) in
    match StaticAnalyzer._extract_imports pe with
    | Raise e => failed e
    | Ok imports_ =>
        match StaticAnalyzer._extract_metadata pe with
        | Raise e => failed e
        | Ok metadata =>
            match StaticAnalyzer._check_suspicious_indicators fs pe filepath with
            | Raise e => failed e
            | Ok indicators =>
                StaticAnalyzer.sr_error result = None
                /\ StaticAnalyzer.sr_pe_headers result
                   = Some (StaticAnalyzer._extract_pe_headers pe)
                /\ StaticAnalyzer.sr_imports result = Some imports_
                /\ StaticAnalyzer.sr_metadata result = Some metadata
                /\ StaticAnalyzer.sr_suspicious_indicators result = Some indicators
                /\ StaticAnalyzer.sr_analysis_note result = None
            end
        end
    end.
Proof.
  intros fs filepath data pe Hread Hne Hparse.
  exact (analyze_file_parsed fs filepath data pe Hread Hne Hparse).
Qed.

(** X21. A static result without error has one of two shapes. Either
    it is the full one: no analysis note, and indicators without the
    keys 'analysis_type', 'suspicious_strings_found', 'large_file' and
    'suspicious_extension'. Or it is the basic one: a non-empty analysis
    note, indicators with 'analysis_type' = 'basic', 'packed' = False and
    no unusual sections or suspicious imports, and empty headers, imports
    and metadata. *)
Theorem static_result_two_shapes :
  forall (fs : gmap string File) (filepath : string),
    let result := fst (analyze fs filepath) in
    StaticAnalyzer.sr_error result = None ->
    exists indicators,
      StaticAnalyzer.sr_suspicious_indicators result = Some indicators
      /\ ((StaticAnalyzer.sr_analysis_note result = None
           /\ StaticAnalyzer.ind_analysis_type indicators = None
           /\ StaticAnalyzer.ind_suspicious_strings_found indicators = None
           /\ StaticAnalyzer.ind_large_file indicators = None
           /\ StaticAnalyzer.ind_suspicious_extension indicators = None)
          \/ (exists note,
                StaticAnalyzer.sr_analysis_note result = Some note
                /\ note <> ""
                /\ StaticAnalyzer.ind_analysis_type indicators = Some "basic"
                /\ StaticAnalyzer.ind_packed indicators = Some false
                /\ StaticAnalyzer.ind_unusual_sections indicators = Some []
                /\ StaticAnalyzer.ind_suspicious_imports indicators = Some []
                /\ StaticAnalyzer.sr_pe_headers result
                   = Some StaticAnalyzer.empty_headers
                /\ StaticAnalyzer.sr_imports result = Some []
                /\ StaticAnalyzer.sr_metadata result = Some [])).
Proof.
  intros fs filepath result. subst result.
  unfold analyze, StaticAnalyzer.analyze_file.
  destruct (negb (path_exists fs filepath)); [cbn; discriminate|].
  destruct (path_getsize fs filepath) as [size|e]; cbn [py_bind catch];
    [|cbn; discriminate].
  destruct (Nat.eqb size 0); [cbn; discriminate|].
  destruct (StaticAnalyzer._get_file_info _ _ _ fs filepath) as [fi|e];
    cbn [py_bind catch]; [|cbn; discriminate].
  destruct (StaticAnalyzer._extract_strings fs filepath) as [si|e];
    cbn [py_bind catch]; [|cbn; discriminate].
  destruct (StaticAnalyzer._calculate_entropy fs filepath) as [en|e];
    cbn [py_bind catch]; [|cbn; discriminate].
  destruct (StaticAnalyzer.try_parse_pe pefile_parse fs filepath) as [pe reason].
  match goal with
  | |- context [catch (py_bind ?c _) _] => destruct c as [r|e] eqn:Hrun
  end; cbn [py_bind catch fst]; [|cbn; discriminate].
  intros _. destruct pe as [pe|].
  - unfold StaticAnalyzer._check_suspicious_indicators in Hrun.
    repeat step_run Hrun; try discriminate. inversion Hrun; subst.
    eexists. split; [reflexivity|]. left. repeat split; reflexivity.
  - unfold StaticAnalyzer._check_basic_suspicious_indicators in Hrun.
    repeat step_run Hrun; try discriminate. inversion Hrun; subst.
    eexists. split; [reflexivity|]. right. eexists.
    split; [reflexivity|]. split.
    + unfold str_or. destruct reason as [[|c s]|]; discriminate.
    + repeat split; reflexivity.
Qed.

End StaticShapes.

(** ** The import table *)

Lemma dict_set_NoDup {V : Type} (k : string) (v : V) (d : PyDict V) :
  List.NoDup (dict_keys d) -> List.NoDup (dict_keys (dict_set k v d)).
Proof.
  unfold dict_keys. induction d as [|[k0 v0] d IH]; simpl; intros H.
  - constructor; [intros [] | constructor].
  - inversion H as [|? ? Hnotin Hnd]; subst.
    destruct (String.eqb k k0) eqn:E; simpl.
    + constructor; assumption.
    + apply String.eqb_neq in E. constructor; [|auto].
      intros Hin. apply (dict_set_keys_In k0 k v d) in Hin as [->|Hin];
        [congruence | contradiction].
Qed.

Lemma dict_set_In {V : Type} (k k' : string) (v v' : V) (d : PyDict V) :
  In (k, v) (dict_set k' v' d) -> (k = k' /\ v = v') \/ In (k, v) d.
Proof.
  induction d as [|[k0 v0] d IH]; simpl.
  - intros [H|[]]. inversion H. left. split; reflexivity.
  - destruct (String.eqb k' k0) eqn:E; simpl.
    + apply String.eqb_eq in E. subst k0.
      intros [H|H]; [inversion H; left; split; reflexivity | right; right; exact H].
    + intros [H|H]; [right; left; exact H|].
      destruct (IH H) as [Heq|Hin]; [left; exact Heq | right; right; exact Hin].
Qed.

(** The names collected for one library are names of its import entries. *)
Lemma collect_functions_sound (entry : StaticAnalyzer.ImportDescData)
  (functions : list string) :
  py_fold
    (fun functions imp =>
       match StaticAnalyzer.truthy_name imp with
       | Some name => let* f := decode_utf8 name in Ok (functions ++ [f])%list
       | None => Ok functions
       end)
    (StaticAnalyzer.imports entry) [] = Ok functions ->
  forall name, In name functions ->
    exists imp, In imp (StaticAnalyzer.imports entry)
                /\ StaticAnalyzer.imp_name imp = Some (list_byte_of_string name).
Proof.
  apply (py_fold_invariant_In _
           (fun functions =>
              forall name, In name functions ->
                exists imp, In imp (StaticAnalyzer.imports entry)
                            /\ StaticAnalyzer.imp_name imp
                               = Some (list_byte_of_string name)));
    [|intros name []].
  intros acc imp acc' Himp Hstep Hacc name Hname.
  destruct (StaticAnalyzer.truthy_name imp) as [bs|] eqn:Hbs;
    [|inversion Hstep; subst; auto].
  destruct (decode_utf8 bs) as [f|e] eqn:Hdec; cbn [py_bind] in Hstep;
    [|discriminate].
  inversion Hstep; subst. apply in_app_or in Hname as [Hname|[<-|[]]]; [auto|].
  apply truthy_name_Some in Hbs as [Hbs _].
  apply decode_utf8_Ok in Hdec as [_ Hbytes].
  exists imp. rewrite Hbytes. auto.
Qed.

Lemma extract_imports_loop (all_entries entries : list StaticAnalyzer.ImportDescData)
  (acc result : PyDict (list string)) :
  let body :=
    fun (imports_ : PyDict (list string)) (entry : StaticAnalyzer.ImportDescData) =>
      let* dll_name := decode_utf8 (StaticAnalyzer.dll entry) in
      let* functions :=
        py_fold
          (fun functions imp =>
             match StaticAnalyzer.truthy_name imp with
             | Some name => let* f := decode_utf8 name in Ok (functions ++ [f])%list
             | None => Ok functions
             end)
          (StaticAnalyzer.imports entry) [] in
      Ok (dict_set dll_name functions imports_) in
  let sound (d : PyDict (list string)) :=
    forall library functions name,
      In (library, functions) d -> In name functions ->
      exists entry imp,
        In entry all_entries
        /\ StaticAnalyzer.dll entry = list_byte_of_string library
        /\ In imp (StaticAnalyzer.imports entry)
        /\ StaticAnalyzer.imp_name imp = Some (list_byte_of_string name) in
  (forall entry, In entry entries -> In entry all_entries) ->
  py_fold body entries acc = Ok result ->
  List.NoDup (dict_keys acc) -> sound acc ->
  List.NoDup (dict_keys result) /\ sound result
  /\ length result <= length acc + length entries.
Proof.
  intros body sound. revert acc.
  induction entries as [|entry entries IH]; intros acc Hsub Hrun Hnd Hsound.
  - inversion Hrun; subst. simpl. repeat split; auto. lia.
  - cbn [py_fold] in Hrun.
    destruct (body acc entry) as [acc'|e] eqn:Hstep; cbn [py_bind] in Hrun;
      [|discriminate].
    unfold body in Hstep.
    destruct (decode_utf8 (StaticAnalyzer.dll entry)) as [dll_name|e] eqn:Hdll;
      cbn [py_bind] in Hstep; [|discriminate].
    match type of Hstep with
    | py_bind ?c _ = _ => destruct c as [functions|e] eqn:Hfunctions
    end; cbn [py_bind] in Hstep; [|discriminate].
    inversion Hstep; subst acc'. clear Hstep.
    destruct (IH (dict_set dll_name functions acc)) as (Hnd' & Hsound' & Hlen).
    + intros x Hx. apply Hsub. right. exact Hx.
    + exact Hrun.
    + apply dict_set_NoDup, Hnd.
    + intros library fns name Hin Hname.
      apply dict_set_In in Hin as [[-> ->]|Hin]; [|eapply Hsound; eassumption].
      destruct (collect_functions_sound entry _ Hfunctions name Hname)
        as (imp & Himp & Hn).
      apply decode_utf8_Ok in Hdll as [_ Hbytes].
      exists entry, imp. repeat split; auto. apply Hsub. left. reflexivity.
    + repeat split; auto.
      pose proof (dict_set_length dll_name functions acc). simpl. lia.
Qed.

Lemma collect_functions_exact (l : list StaticAnalyzer.ImportData)
  (acc functions : list string) :
  py_fold
    (fun functions imp =>
       match StaticAnalyzer.truthy_name imp with
       | Some name => let* f := decode_utf8 name in Ok (functions ++ [f])%list
       | None => Ok functions
       end)
    l acc = Ok functions ->
  functions
  = (acc ++ map str_of_bytes (omap StaticAnalyzer.truthy_name l))%list.
Proof.
  revert acc. induction l as [|imp l IH]; intros acc Hrun; cbn [py_fold] in Hrun.
  - inversion Hrun; subst. cbn. rewrite app_nil_r. reflexivity.
  - cbn [omap list_omap].
    destruct (StaticAnalyzer.truthy_name imp) as [name|]; cbn [py_bind] in Hrun.
    + destruct (decode_utf8 name) as [f|e] eqn:Hdec; cbn [py_bind] in Hrun;
        [|discriminate].
      apply decode_utf8_Ok in Hdec as [-> _].
      rewrite (IH _ Hrun), <- app_assoc. reflexivity.
    + apply IH, Hrun.
Qed.

Lemma list_byte_of_string_inj (s t : string) :
  list_byte_of_string s = list_byte_of_string t -> s = t.
Proof.
  intros H. rewrite <- (string_of_list_byte_of_string s),
              <- (string_of_list_byte_of_string t), H.
  reflexivity.
Qed.

Lemma dict_get_keys {V : Type} (k : string) (d : PyDict V) :
  In k (dict_keys d) <-> dict_get k d <> None.
Proof.
  unfold dict_keys. induction d as [|[k0 v0] d IH]; simpl.
  - tauto.
  - destruct (String.eqb k k0) eqn:E.
    + apply String.eqb_eq in E. subst. split; [discriminate | auto].
    + apply String.eqb_neq in E. rewrite <- IH. intuition congruence.
Qed.

(** After the loop, a library's entry is the list of the last of its
    descriptors. *)
Lemma extract_imports_loop_get (seen entries : list StaticAnalyzer.ImportDescData)
  (acc result : PyDict (list string)) :
  py_fold
    (fun (imports_ : PyDict (list string)) (entry : StaticAnalyzer.ImportDescData) =>
       let* dll_name := decode_utf8 (StaticAnalyzer.dll entry) in
       let* functions :=
         py_fold
           (fun functions imp =>
              match StaticAnalyzer.truthy_name imp with
              | Some name => let* f := decode_utf8 name in Ok (functions ++ [f])%list
              | None => Ok functions
              end)
           (StaticAnalyzer.imports entry) [] in
       Ok (dict_set dll_name functions imports_))
    entries acc = Ok result ->
  (forall library,
      dict_get library acc
      = listed_functions <$> last (descriptors_of library seen)) ->
  forall library,
    dict_get library result
    = listed_functions <$> last (descriptors_of library (seen ++ entries)).
Proof.
  revert seen acc.
  induction entries as [|entry entries IH]; intros seen acc Hrun Hacc library.
  - inversion Hrun; subst. rewrite app_nil_r. apply Hacc.
  - cbn [py_fold] in Hrun.
    destruct (decode_utf8 (StaticAnalyzer.dll entry)) as [dll_name|e] eqn:Hdll;
      cbn [py_bind] in Hrun; [|discriminate].
    match type of Hrun with
    | py_bind (py_bind ?c _) _ = _ => destruct c as [functions|e] eqn:Hfunctions
    end; cbn [py_bind] in Hrun; [|discriminate].
    apply collect_functions_exact in Hfunctions. cbn [app] in Hfunctions.
    apply decode_utf8_Ok in Hdll as [_ Hbytes].
    replace (seen ++ entry :: entries)%list
      with ((seen ++ [entry]) ++ entries)%list
      by (rewrite <- app_assoc; reflexivity).
    apply (IH (seen ++ [entry])%list _ Hrun).
    intros lib. unfold descriptors_of. rewrite List.filter_app.
    cbn [List.filter].
    destruct (bool_decide (StaticAnalyzer.dll entry = list_byte_of_string lib))
      eqn:Hlib.
    + apply bool_decide_eq_true_1 in Hlib.
      assert (lib = dll_name) as ->
        by (apply list_byte_of_string_inj; rewrite Hbytes; symmetry; exact Hlib).
      rewrite dict_get_set_eq, last_snoc, Hfunctions. reflexivity.
    + apply bool_decide_eq_false_1 in Hlib.
      rewrite dict_get_set_ne by (intros ->; apply Hlib; symmetry; exact Hbytes).
      rewrite app_nil_r. apply Hacc.
Qed.

(** X22. The import mapping has exactly the library names of the
    descriptors of the import table as its keys, each once, so at most as
    many entries as the table has descriptors, and none without an import
    table. The entry of a library lists the named imports of the last
    descriptor of that library, in order; so every function listed under a
    library is the name of an import of a descriptor of that library. *)
Theorem extract_imports_table :
  forall (pe : StaticAnalyzer.PE) (imports_ : PyDict (list string)),
    StaticAnalyzer._extract_imports pe = Ok imports_ ->
    let table := default [] (StaticAnalyzer.DIRECTORY_ENTRY_IMPORT pe) in
    List.NoDup (dict_keys imports_)
    /\ length imports_ <= length table
    /\ (forall library,
          In library (dict_keys imports_)
          <-> exists entry,
                In entry table
                /\ StaticAnalyzer.dll entry = list_byte_of_string library)
    /\ (forall library,
          dict_get library imports_
          = listed_functions <$> last (descriptors_of library table))
    /\ forall library functions name,
         In (library, functions) imports_ -> In name functions ->
         exists entry imp,
           In entry table
           /\ StaticAnalyzer.dll entry = list_byte_of_string library
           /\ In imp (StaticAnalyzer.imports entry)
           /\ StaticAnalyzer.imp_name imp = Some (list_byte_of_string name).
Proof.
  intros pe imports_ H table.
  assert (Hget : forall library,
             dict_get library imports_
             = listed_functions <$> last (descriptors_of library table)).
  { subst table. unfold StaticAnalyzer._extract_imports in H.
    destruct (StaticAnalyzer.DIRECTORY_ENTRY_IMPORT pe) as [entries|];
      cbn [default].
    - apply (extract_imports_loop_get [] entries [] imports_ H).
      intros library. reflexivity.
    - inversion H; subst. intros library. reflexivity. }
  assert (Hkeys : forall library,
             In library (dict_keys imports_)
             <-> exists entry,
                   In entry table
                   /\ StaticAnalyzer.dll entry = list_byte_of_string library).
  { intros library. rewrite dict_get_keys, Hget. unfold descriptors_of.
    split.
    - intros Hsome.
      destruct (last _) as [entry|] eqn:Hlast; [|exfalso; apply Hsome; reflexivity].
      apply last_Some in Hlast as [before Hlast].
      assert (Hin : In entry
                       (List.filter
                          (fun entry =>
                             bool_decide (StaticAnalyzer.dll entry
                                          = list_byte_of_string library))
                          table)).
      { rewrite Hlast. apply in_or_app. right. left. reflexivity. }
      apply List.filter_In in Hin as [Hin Hdll].
      apply bool_decide_eq_true_1 in Hdll. eauto.
    - intros (entry & Hin & Hdll).
      assert (Hf : In entry
                      (List.filter
                         (fun entry =>
                            bool_decide (StaticAnalyzer.dll entry
                                         = list_byte_of_string library))
                         table)).
      { apply List.filter_In. split; [exact Hin|].
        apply bool_decide_eq_true_2, Hdll. }
      destruct (List.filter _ table) as [|x l] eqn:Hl using rev_ind;
        [destruct Hf|].
      rewrite last_snoc. discriminate. }
  unfold StaticAnalyzer._extract_imports in H. subst table.
  destruct (StaticAnalyzer.DIRECTORY_ENTRY_IMPORT pe) as [entries|];
    cbn [default] in *.
  - destruct (extract_imports_loop entries entries [] imports_)
      as (Hnd & Hsound & Hlen); auto.
    + constructor.
    + intros library functions name [].
  - inversion H; subst.
    split; [constructor|]. split; [simpl; lia|].
    split; [exact Hkeys|]. split; [exact Hget|].
    intros library functions name [].
Qed.

(** ** A load that fails *)

(** X23. [load_model] answers True exactly when the file exists and
    holds both 'model' and 'model_name', and the predictor then holds
    these two. When it answers False the model name is never changed,
    and the model is changed only if the file has a 'model' entry but no
    'model_name': the predictor is then left with the file's model under
    its old name. *)
Theorem load_model_outcomes :
  forall (self : MLPredictor.t) (filename : string) (disk : MLPredictor.Pickles),
    let loaded := fst (MLPredictor.load_model self filename disk) in
    let self' := snd (MLPredictor.load_model self filename disk) in
    (loaded = true <->
     exists model_data model name,
       disk !! filename = Some model_data
       /\ dict_get "model" model_data = Some model
       /\ dict_get "model_name" model_data = Some name
       /\ self' = {| MLPredictor.best_model := model;
                     MLPredictor.best_model_name := name |})
    /\ (loaded = false ->
        MLPredictor.best_model_name self' = MLPredictor.best_model_name self
        /\ (MLPredictor.best_model self' = MLPredictor.best_model self
            \/ exists model_data,
                 disk !! filename = Some model_data
                 /\ dict_get "model" model_data
                    = Some (MLPredictor.best_model self')
                 /\ dict_get "model_name" model_data = None)).
Proof.
  intros self filename disk loaded self'. subst loaded self'.
  unfold MLPredictor.load_model.
  destruct (disk !! filename) as [model_data|] eqn:Hfile; cbn [fst snd].
  - destruct (dict_get "model" model_data) as [model|] eqn:Hmodel; cbn [fst snd].
    + destruct (dict_get "model_name" model_data) as [name|] eqn:Hname;
        cbn [fst snd MLPredictor.best_model MLPredictor.best_model_name].
      * split; [|discriminate]. split; [|reflexivity].
        intros _. exists model_data, model, name. repeat split; assumption.
      * split.
        -- split; [discriminate|].
           intros (d & m & n & Hd & _ & Hn & _). congruence.
        -- intros _. split; [reflexivity|]. right.
           exists model_data. repeat split; assumption.
    + split.
      * split; [discriminate|].
        intros (d & m & n & Hd & Hm & _). congruence.
      * intros _. split; [reflexivity | left; reflexivity].
  - split.
    + split; [discriminate|].
      intros (d & m & n & Hd & _). congruence.
    + intros _. split; [reflexivity | left; reflexivity].
Qed.

End Properties.

(* ================================================================== *)
(** * Examples: the theorems at concrete inputs *)
(* ================================================================== *)

(** An engine fresh from its constructors: no fitted scaler, no model. *)
Lemma generate_assessment_safe_unless_malicious_witness :
  let engine :=
    {| PredictionEngine.feature_engineer := FeatureEngineer.init;
       PredictionEngine.ml_predictor := MLPredictor.init |} in
  let prediction_result := PredictionEngine._make_prediction engine [] in
  PredictionEngine.pr_prediction prediction_result = Some "unknown"
  /\ PredictionEngine.risk_level
       (PredictionEngine._generate_assessment
          (StaticAnalyzer.error_result "")
          (DynamicAnalyzer.analyze_file "2024-01-01T00:00:00" "sample.exe")
          prediction_result) = "SAFE".
Proof.
  split; [reflexivity|].
  apply generate_assessment_safe_unless_malicious.
  simpl. discriminate.
Defined.

Lemma autorun_key_feeds_score_only_witness :
  (16 <= DynamicAnalyzer._calculate_behavior_score mock_behavior)%Z
  /\ PredictionEngine.risk_level
       (PredictionEngine._generate_assessment
          quiet_static_result
          (DynamicAnalyzer.analyze_file "2024-01-01T00:00:00" "sample.exe")
          weak_malicious_verdict) = "LOW".
Proof.
  destruct (autorun_key_feeds_score_only mock_behavior
              DynamicAnalyzer._mock_registry_changes
              [ "HKEY_CURRENT_USER\Software\MyApp";
                "HKEY_LOCAL_MACHINE\Software\Microsoft\Windows\CurrentVersion\Run\MyApp" ]
              "HKEY_LOCAL_MACHINE\Software\Microsoft\Windows\CurrentVersion\Run\MyApp")
    as [Hscore Hrest].
  - reflexivity.
  - reflexivity.
  - simpl. tauto.
  - reflexivity.
  - split; [exact Hscore|].
    destruct (Hrest quiet_static_result
                (DynamicAnalyzer.analyze_file "2024-01-01T00:00:00" "sample.exe")
                weak_malicious_verdict eq_refl) as (_ & _ & Hlow).
    apply Hlow; [reflexivity|]. simpl. lra.
Defined.

Lemma analyze_file_degrades_gracefully_witness :
  let run :=
    StaticAnalyzer.analyze_file (rt := exact_runtime)
      (fun _ => "md5") (fun _ => "sha1") (fun _ => "sha256")
      (fun _ => Raise (mkExc PEFormatError "DOS Header magic not found."))
      (fun _ => Ok []) sample_fs "sample.exe" in
  StaticAnalyzer.sr_error (fst run) = None
  /\ exists note, StaticAnalyzer.sr_analysis_note (fst run) = Some note
                  /\ note <> "".
Proof.
  intros run.
  destruct (analyze_file_degrades_gracefully (rt := exact_runtime)
              (fun _ => "md5") (fun _ => "sha1") (fun _ => "sha256")
              (fun _ => Raise (mkExc PEFormatError "DOS Header magic not found."))
              (fun _ => Ok []) sample_fs "sample.exe"
              (mkFile true true (list_byte_of_string "MZ sample"))
              (mkExc PEFormatError "DOS Header magic not found."))
    as (result & fs' & fi & si & ind & note & Hrun & Herr & H).
  - reflexivity.
  - reflexivity.
  - simpl. discriminate.
  - reflexivity.
  - unfold run. rewrite Hrun. simpl. split; [exact Herr|].
    exists note. split; [apply H | apply H].
Defined.

Lemma save_load_round_trip_witness :
  let disk := MLPredictor.save_best_model trained_predictor "best_model.pkl" ∅ in
  let reloaded := MLPredictor.load_model MLPredictor.init "best_model.pkl" disk in
  fst reloaded = true /\ snd reloaded = trained_predictor.
Proof.
  intros disk reloaded.
  destruct (save_load_round_trip trained_predictor MLPredictor.init
              "best_model.pkl" ∅ sample_model eq_refl)
    as (_ & Hok & Hsame & _).
  split; [exact Hok | exact Hsame].
Defined.

Lemma extract_features_fields_witness :
  FeatureEngineer.extract_features (rt := exact_runtime)
    quiet_static_result (Some sparse_dynamic_result)
  = Ok sparse_features
  /\ length sparse_features = 16
  /\ In "entropy" (dict_keys sparse_features)
  /\ dict_get "number_of_sections" sparse_features = Some (VInt 0)
  /\ dict_get "tcp_connections_count" sparse_features = Some (VInt 0)
  /\ dict_get "dns_requests_count" sparse_features = Some (VInt 1)
  /\ ~ In "file_size" (dict_keys sparse_features)
  /\ ~ In "registry_keys_created" (dict_keys sparse_features).
Proof.
  destruct (extract_features_fields (rt := exact_runtime)
              quiet_static_result (Some sparse_dynamic_result)
              sparse_features eq_refl)
    as (Hkeys & Hentropy & Hstatic & Hdynamic).
  destruct Hstatic as (_ & _ & Hheaders & _).
  destruct (Hdynamic sparse_dynamic_result eq_refl eq_refl) as [_ Hbehavior].
  destruct (Hbehavior _ eq_refl) as (Hnet & _).
  destruct (Hnet _ eq_refl) as (Htcp & Hdns & _).
  split; [reflexivity|]. split; [reflexivity|]. split; [exact Hentropy|].
  split; [|split; [exact Htcp|split; [exact Hdns|split]]].
  - destruct (Hheaders StaticAnalyzer.empty_headers eq_refl) as [Hn _].
    exact Hn.
  - rewrite Hkeys. intros [Hin|(dyn & Heq & _ & Hin)].
    + simpl in Hin. intuition discriminate.
    + inversion Heq; subst. simpl in Hin. intuition discriminate.
  - rewrite Hkeys. intros [Hin|(dyn & Heq & _ & Hin)].
    + simpl in Hin. intuition discriminate.
    + inversion Heq; subst. simpl in Hin. intuition discriminate.
Defined.

Lemma suspicious_imports_are_reported_witness :
  let run :=
    PredictionEngine.analyze_file (rt := exact_runtime)
      (fun _ => "md5") (fun _ => "sha1") (fun _ => "sha256")
      (fun _ => Ok injector_pe) (fun _ => Ok []) (fun _ => Ok [])
      1700000000 "2024-01-01T00:00:00"
      {| PredictionEngine.feature_engineer := FeatureEngineer.init;
         PredictionEngine.ml_predictor := MLPredictor.init |}
      sample_fs "sample.exe" in
  PredictionEngine.rp_error (fst run) = None
  /\ exists assessment,
       PredictionEngine.rp_overall_assessment (fst run) = Some assessment
       /\ In "Suspicious API imports: 2"
             (PredictionEngine.key_indicators assessment).
Proof.
  intros run.
  assert (Herr : PredictionEngine.rp_error (fst run) = None).
  { destruct (extract_features_returns (rt := exact_runtime)
                (fst (StaticAnalyzer.analyze_file (rt := exact_runtime)
                        (fun _ => "md5") (fun _ => "sha1") (fun _ => "sha256")
                        (fun _ => Ok injector_pe) (fun _ => Ok [])
                        sample_fs "sample.exe"))
                (Some (DynamicAnalyzer.analyze_file
                         "2024-01-01T00:00:00" "sample.exe")))
      as [features Hf].
    - intros h Hh. inversion Hh; subst. eexists. vm_compute. reflexivity.
    - apply (analyze_file_yields_report _ _ _ _ _ _ _ _ _ _ _ features);
        [reflexivity | exact Hf]. }
  split; [exact Herr|].
  destruct (suspicious_imports_are_reported (rt := exact_runtime)
              (fun _ => "md5") (fun _ => "sha1") (fun _ => "sha256")
              (fun _ => Ok injector_pe) (fun _ => Ok []) (fun _ => Ok [])
              1700000000 "2024-01-01T00:00:00"
              {| PredictionEngine.feature_engineer := FeatureEngineer.init;
                 PredictionEngine.ml_predictor := MLPredictor.init |}
              sample_fs (snd run) "sample.exe"
              (list_byte_of_string "MZ sample") injector_pe (fst run))
    as (found & features & assessment & Hfound & _ & _ & _ & Hassess & Hin).
  - reflexivity.
  - reflexivity.
  - eexists _, _, {| StaticAnalyzer.imp_name :=
                        Some (list_byte_of_string "CreateRemoteThread") |}.
    split; [reflexivity|]. split; [left; reflexivity|].
    split; [simpl; auto | reflexivity].
  - eexists _, _, {| StaticAnalyzer.imp_name :=
                        Some (list_byte_of_string "WriteProcessMemory") |}.
    split; [reflexivity|]. split; [left; reflexivity|].
    split; [simpl; auto | reflexivity].
  - apply surjective_pairing.
  - exact Herr.
  - exists assessment. split; [exact Hassess|].
    assert (found = ["CreateRemoteThread"; "WriteProcessMemory"])
      as -> by (vm_compute in Hfound; congruence).
    exact Hin.
Defined.

Lemma extract_strings_bounds_witness :
  exists strings suspicious,
    StaticAnalyzer._extract_strings sample_fs "sample.exe"
    = Ok {| StaticAnalyzer.si_total_strings := Some (Z.of_nat (length strings));
            StaticAnalyzer.si_strings := Some strings;
            StaticAnalyzer.si_suspicious_strings := Some suspicious |}
    /\ length strings <= 200
    /\ (forall s, In s strings ->
          4 <= String.length s
          /\ Forall (fun b => StaticAnalyzer.printable b = true)
                    (list_byte_of_string s))
    /\ (forall s, In s suspicious <->
          In s strings
          /\ exists token, In token StaticAnalyzer.suspicious_strings
                           /\ str_contains token s = true).
Proof.
  apply (extract_strings_bounds sample_fs "sample.exe" (list_byte_of_string "MZ sample")).
  reflexivity.
Defined.

Lemma check_suspicious_imports_sound_witness :
  Forall (fun name =>
            imports_include injector_pe name
            /\ exists api, In api StaticAnalyzer.suspicious_apis
                           /\ str_contains api name = true)
         ["CreateRemoteThread"; "WriteProcessMemory"].
Proof.
  apply (check_suspicious_imports_sound injector_pe). reflexivity.
Defined.

Lemma packed_has_unusual_section_witness :
  exists name marker,
    In name ["UPX0"]
    /\ In marker [".UPX"; ".packed"; ".compressed"; "UPX0"; "UPX1"]
    /\ str_contains marker name = true.
Proof.
  apply (packed_has_unusual_section upx_pe); reflexivity.
Defined.

Lemma sample_pipeline_reports (self : PredictionEngine.t) :
  PredictionEngine.rp_error (fst (sample_pipeline self sample_fs "sample.exe"))
  = None.
Proof.
  destruct (extract_features_returns (rt := exact_runtime)
              (fst (StaticAnalyzer.analyze_file (rt := exact_runtime)
                      (fun _ => "md5") (fun _ => "sha1") (fun _ => "sha256")
                      (fun _ => Ok injector_pe) (fun _ => Ok [])
                      sample_fs "sample.exe"))
              (Some (DynamicAnalyzer.analyze_file
                       "2024-01-01T00:00:00" "sample.exe")))
    as [features Hf].
  - intros h Hh. inversion Hh; subst. eexists. vm_compute. reflexivity.
  - apply (analyze_file_yields_report _ _ _ _ _ _ _ _ _ _ _ features);
      [reflexivity | exact Hf].
Qed.

Lemma pipeline_passes_static_error_on_witness :
  sample_pipeline fresh_engine sample_fs "missing.exe"
  = (PredictionEngine.error_report
       "analysis_1700000000" "2024-01-01T00:00:00" "الملف غير موجود"
       (Some "missing.exe")
       (Some "تأكد من أن الملف من نوع Windows PE (.exe, .dll) وأنه غير تالف"),
     sample_fs).
Proof.
  apply (pipeline_passes_static_error_on
           (fun _ => "md5") (fun _ => "sha1") (fun _ => "sha256")
           (fun _ => Ok injector_pe) (fun _ => Ok []) (fun _ => Ok [])
           1700000000 "2024-01-01T00:00:00" fresh_engine sample_fs "missing.exe").
  reflexivity.
Defined.

Lemma pipeline_writes_only_two_files_witness :
  snd (sample_pipeline fresh_engine sample_fs "sample.exe") !! "sample.exe"
  = sample_fs !! "sample.exe".
Proof.
  apply (pipeline_writes_only_two_files
           (fun _ => "md5") (fun _ => "sha1") (fun _ => "sha256")
           (fun _ => Ok injector_pe) (fun _ => Ok []) (fun _ => Ok [])
           1700000000 "2024-01-01T00:00:00" fresh_engine sample_fs "sample.exe").
  - intros H. vm_compute in H. discriminate H.
  - intros H. vm_compute in H. discriminate H.
Defined.

Lemma pipeline_dynamic_part_is_fixed_witness :
  exists dynamic_result features assessment,
    PredictionEngine.rp_dynamic_analysis
      (fst (sample_pipeline fresh_engine sample_fs "sample.exe"))
    = Some dynamic_result
    /\ DynamicAnalyzer.dr_behavior dynamic_result = Some mock_behavior
    /\ DynamicAnalyzer.dr_behavior_score dynamic_result = Some 60%Z
    /\ DynamicAnalyzer.dr_risk_level dynamic_result = Some "MEDIUM"
    /\ PredictionEngine.rp_features
         (fst (sample_pipeline fresh_engine sample_fs "sample.exe"))
       = Some features
    /\ dict_get "behavior_score" features = Some (VInt 60)
    /\ PredictionEngine.rp_overall_assessment
         (fst (sample_pipeline fresh_engine sample_fs "sample.exe"))
       = Some assessment
    /\ In "High behavior score: 60" (PredictionEngine.key_indicators assessment).
Proof.
  apply (pipeline_dynamic_part_is_fixed
           (fun _ => "md5") (fun _ => "sha1") (fun _ => "sha256")
           (fun _ => Ok injector_pe) (fun _ => Ok []) (fun _ => Ok [])
           1700000000 "2024-01-01T00:00:00" fresh_engine sample_fs "sample.exe").
  apply sample_pipeline_reports.
Defined.

Lemma explanation_opening_witness :
  String.prefix "The file appears to be benign"
    "The file appears to be benign with suspicious behavior score of 60/100."
  = true
  /\ "The file appears to be benign with suspicious behavior score of 60/100."
     <> "The file appears to be benign".
Proof.
  apply (explanation_opening
           quiet_static_result
           (DynamicAnalyzer.analyze_file "2024-01-01T00:00:00" "sample.exe")
           (PredictionEngine._make_prediction fresh_engine sample_features)
           "unknown").
  - reflexivity.
  - reflexivity.
Defined.

Lemma constructed_engine_predicts_unknown_witness :
  PredictionEngine.feature_engineer
    {| PredictionEngine.feature_engineer := FeatureEngineer.init;
       PredictionEngine.ml_predictor := trained_predictor |}
  = FeatureEngineer.init
  /\ (forall other, other <> "best_model.pkl" ->
                    sample_disk !! other = sample_disk !! other)
  /\ (forall features,
        let result :=
          PredictionEngine._make_prediction
            {| PredictionEngine.feature_engineer := FeatureEngineer.init;
               PredictionEngine.ml_predictor := trained_predictor |} features in
        PredictionEngine.pr_prediction result = Some "unknown"
        /\ PredictionEngine.pr_confidence result = Some 0%R
        /\ PredictionEngine.pr_top_features result = Some []
        /\ exists msg,
             PredictionEngine.pr_error result = Some ("Prediction failed: " ++ msg)).
Proof.
  apply (constructed_engine_predicts_unknown
           unit tt (fun d => (d, d)) (fun _ _ => Ok sample_model)
           (fun _ _ => Ok 1%R) sample_disk sample_disk).
  reflexivity.
Defined.

Lemma constructed_engine_reports_safe_witness :
  let report :=
    fst (sample_pipeline
           {| PredictionEngine.feature_engineer := FeatureEngineer.init;
              PredictionEngine.ml_predictor := trained_predictor |}
           sample_fs "sample.exe") in
  PredictionEngine.rp_prediction report = Some "unknown"
  /\ PredictionEngine.rp_confidence report = Some 0%R
  /\ PredictionEngine.rp_top_features report = Some []
  /\ exists assessment explanation,
       PredictionEngine.rp_overall_assessment report = Some assessment
       /\ PredictionEngine.risk_level assessment = "SAFE"
       /\ PredictionEngine.recommendations assessment
          = ["File appears safe, but remain vigilant"]
       /\ PredictionEngine.rp_explanation report = Some explanation
       /\ String.prefix "The file appears to be benign" explanation = true.
Proof.
  apply (constructed_engine_reports_safe
           (fun _ => "md5") (fun _ => "sha1") (fun _ => "sha256")
           (fun _ => Ok injector_pe) (fun _ => Ok []) (fun _ => Ok [])
           1700000000 "2024-01-01T00:00:00"
           unit tt (fun d => (d, d)) (fun _ _ => Ok sample_model)
           (fun _ _ => Ok 1%R) sample_disk sample_disk).
  - reflexivity.
  - apply sample_pipeline_reports.
Defined.

Lemma sample_training_run (self : MLPredictor.t) :
  exists results r,
    sample_training self
    = Ok (results,
          {| MLPredictor.best_model := MLPredictor.PModel (MLPredictor.tr_model r);
             MLPredictor.best_model_name := MLPredictor.PStr "svm" |}).
Proof.
  unfold sample_training, MLPredictor.train_models.
  cbn [py_fold MLPredictor.models sample_fit py_bind MLPredictor.class_name].
  unfold sample_accuracy. cbn [String.eqb Ascii.eqb Bool.eqb andb].
  unfold MLPredictor.max_by_accuracy, MLPredictor.names_with_accuracy, dict_values.
  cbn [dict_set String.eqb Ascii.eqb Bool.eqb andb map snd fst fold_left
       List.filter py_bind MLPredictor.tr_accuracy].
  repeat match goal with
         | |- context [Rgt_dec ?a ?b] =>
             lazymatch a with
             | context [Rgt_dec _ _] => fail
             | _ =>
                 lazymatch b with
                 | context [Rgt_dec _ _] => fail
                 | _ => destruct (Rgt_dec a b);
                        cbn [MLPredictor.tr_accuracy] in *;
                        try (exfalso; lra)
                 end
             end
         end.
  repeat match goal with
         | |- context [Req_dec_T ?a ?b] =>
             destruct (Req_dec_T a b);
             cbn [MLPredictor.tr_accuracy] in *;
             try (exfalso; lra)
         end.
  cbn. eexists _, {| MLPredictor.tr_accuracy := (95 / 100)%R |}. reflexivity.
Qed.

Lemma train_models_selects_best_witness :
  exists results self' r1 r2 r3 name best,
    sample_training MLPredictor.init = Ok (results, self')
    /\ results = [("random_forest", r1); ("svm", r2); ("neural_network", r3)]
    /\ MLPredictor.best_model_name self' = MLPredictor.PStr name
    /\ MLPredictor.best_model self'
       = MLPredictor.PModel (MLPredictor.tr_model best)
    /\ dict_get name results = Some best
    /\ Forall (fun r => (MLPredictor.tr_accuracy r
                         <= MLPredictor.tr_accuracy best)%R)
              [r1; r2; r3]
    /\ (name = "random_forest"
        \/ (name = "svm"
            /\ (MLPredictor.tr_accuracy r1 < MLPredictor.tr_accuracy best)%R)
        \/ (name = "neural_network"
            /\ (MLPredictor.tr_accuracy r1 < MLPredictor.tr_accuracy best)%R
            /\ (MLPredictor.tr_accuracy r2 < MLPredictor.tr_accuracy best)%R)).
Proof.
  destruct (sample_training_run MLPredictor.init) as (results & r & Hrun).
  destruct (train_models_selects_best
              string (fun d => (d, d)) sample_fit
              (fun model _ => Ok (sample_accuracy (MLPredictor.class_name model)))
              MLPredictor.init _ "dataset" results Hrun)
    as (r1 & r2 & r3 & name & best & H).
  eexists results, _, r1, r2, r3, name, best. split; [exact Hrun | exact H].
Defined.

Lemma import_features_count_libraries_witness :
  exists suspicious_count,
    dict_get "number_of_imports" importing_static_features
    = Some (VInt (Z.of_nat 1))
    /\ dict_get "number_of_imported_dlls" importing_static_features
       = Some (VInt (Z.of_nat 1))
    /\ dict_get "suspicious_imports_count" importing_static_features
       = Some (VInt suspicious_count)
    /\ (0 <= suspicious_count <= Z.of_nat 3)%Z.
Proof.
  exact (import_features_count_libraries (rt := exact_runtime)
           importing_static_result
           [("kernel32.dll",
             ["CreateRemoteThread"; "WriteProcessMemory"; "ExitProcess"])]
           importing_static_features eq_refl eq_refl).
Defined.

Lemma pipeline_reports_on_refused_container_witness :
  let report :=
    fst (PredictionEngine.analyze_file (rt := exact_runtime)
           (fun _ => "md5") (fun _ => "sha1") (fun _ => "sha256")
           (fun _ => Raise (mkExc PEFormatError "DOS Header magic not found."))
           (fun _ => Ok []) (fun _ => Ok [])
           1700000000 "2024-01-01T00:00:00" fresh_engine sample_fs "sample.exe") in
  PredictionEngine.rp_error report = None
  /\ PredictionEngine.rp_filename report = Some (basename "sample.exe")
  /\ PredictionEngine.rp_sha256 report = Some "sha256"
  /\ exists features,
       PredictionEngine.rp_features report = Some features
       /\ dict_get "file_size" features = Some (VInt (Z.of_nat 9))
       /\ dict_get "number_of_sections" features = Some (VInt 0)
       /\ dict_get "entry_point" features = Some (VInt 0)
       /\ dict_get "number_of_imports" features = Some (VInt 0)
       /\ dict_get "is_packed" features = Some (VInt 0)
       /\ dict_get "unusual_sections_count" features = Some (VInt 0)
       /\ dict_get "suspicious_api_count" features = Some (VInt 0).
Proof.
  apply (pipeline_reports_on_refused_container
           (fun _ => "md5") (fun _ => "sha1") (fun _ => "sha256")
           (fun _ => Raise (mkExc PEFormatError "DOS Header magic not found."))
           (fun _ => Ok []) (fun _ => Ok [])
           1700000000 "2024-01-01T00:00:00" fresh_engine sample_fs "sample.exe"
           (mkFile true true (list_byte_of_string "MZ sample"))
           (mkExc PEFormatError "DOS Header magic not found.")).
  - reflexivity.
  - reflexivity.
  - simpl. discriminate.
  - reflexivity.
Defined.

Lemma static_result_describes_file_witness :
  exists f strings_info,
    sample_fs !! "sample.exe" = Some f
    /\ f_readable f = true
    /\ f_data f <> []
    /\ StaticAnalyzer.sr_file_info
         (fst (StaticAnalyzer.analyze_file (rt := exact_runtime)
                 (fun _ => "md5") (fun _ => "sha1") (fun _ => "sha256")
                 (fun _ => Ok injector_pe) (fun _ => Ok [])
                 sample_fs "sample.exe"))
       = Some {| StaticAnalyzer.fi_filename := Some (basename "sample.exe");
                 StaticAnalyzer.fi_size := Some (Z.of_nat (length (f_data f)));
                 StaticAnalyzer.fi_md5 := Some "md5";
                 StaticAnalyzer.fi_sha1 := Some "sha1";
                 StaticAnalyzer.fi_sha256 := Some "sha256" |}
    /\ StaticAnalyzer.sr_entropy
         (fst (StaticAnalyzer.analyze_file (rt := exact_runtime)
                 (fun _ => "md5") (fun _ => "sha1") (fun _ => "sha256")
                 (fun _ => Ok injector_pe) (fun _ => Ok [])
                 sample_fs "sample.exe"))
       = Some (StaticAnalyzer.entropy_of_data (rt := exact_runtime) (f_data f))
    /\ StaticAnalyzer._extract_strings sample_fs "sample.exe" = Ok strings_info
    /\ StaticAnalyzer.sr_strings
         (fst (StaticAnalyzer.analyze_file (rt := exact_runtime)
                 (fun _ => "md5") (fun _ => "sha1") (fun _ => "sha256")
                 (fun _ => Ok injector_pe) (fun _ => Ok [])
                 sample_fs "sample.exe"))
       = Some strings_info.
Proof.
  apply (static_result_describes_file
           (fun _ => "md5") (fun _ => "sha1") (fun _ => "sha256")
           (fun _ => Ok injector_pe) (fun _ => Ok []) sample_fs "sample.exe").
  reflexivity.
Defined.

Lemma parsed_container_all_or_error_witness :
  exists e,
    StaticAnalyzer._extract_imports undecodable_pe = Raise e
    /\ StaticAnalyzer.analyze_file (rt := exact_runtime)
         (fun _ => "md5") (fun _ => "sha1") (fun _ => "sha256")
         (fun _ => Ok undecodable_pe) (fun _ => Ok []) sample_fs "sample.exe"
       = (StaticAnalyzer.error_result ("فشل تحليل الملف: " ++ exc_str e),
          sample_fs).
Proof.
  eexists. split; [reflexivity|].
  apply (parsed_container_all_or_error
           (fun _ => "md5") (fun _ => "sha1") (fun _ => "sha256")
           (fun _ => Ok undecodable_pe) (fun _ => Ok []) sample_fs "sample.exe"
           (list_byte_of_string "MZ sample") undecodable_pe).
  - reflexivity.
  - discriminate.
  - reflexivity.
Defined.

Lemma static_result_two_shapes_witness :
  exists indicators,
    StaticAnalyzer.sr_suspicious_indicators
      (fst (StaticAnalyzer.analyze_file (rt := exact_runtime)
              (fun _ => "md5") (fun _ => "sha1") (fun _ => "sha256")
              (fun _ => Ok injector_pe) (fun _ => Ok [])
              sample_fs "sample.exe")) = Some indicators
    /\ ((StaticAnalyzer.sr_analysis_note
           (fst (StaticAnalyzer.analyze_file (rt := exact_runtime)
                   (fun _ => "md5") (fun _ => "sha1") (fun _ => "sha256")
                   (fun _ => Ok injector_pe) (fun _ => Ok [])
                   sample_fs "sample.exe")) = None
         /\ StaticAnalyzer.ind_analysis_type indicators = None
         /\ StaticAnalyzer.ind_suspicious_strings_found indicators = None
         /\ StaticAnalyzer.ind_large_file indicators = None
         /\ StaticAnalyzer.ind_suspicious_extension indicators = None)
        \/ (exists note,
              StaticAnalyzer.sr_analysis_note
                (fst (StaticAnalyzer.analyze_file (rt := exact_runtime)
                        (fun _ => "md5") (fun _ => "sha1") (fun _ => "sha256")
                        (fun _ => Ok injector_pe) (fun _ => Ok [])
                        sample_fs "sample.exe")) = Some note
              /\ note <> ""
              /\ StaticAnalyzer.ind_analysis_type indicators = Some "basic"
              /\ StaticAnalyzer.ind_packed indicators = Some false
              /\ StaticAnalyzer.ind_unusual_sections indicators = Some []
              /\ StaticAnalyzer.ind_suspicious_imports indicators = Some []
              /\ StaticAnalyzer.sr_pe_headers
                   (fst (StaticAnalyzer.analyze_file (rt := exact_runtime)
                           (fun _ => "md5") (fun _ => "sha1") (fun _ => "sha256")
                           (fun _ => Ok injector_pe) (fun _ => Ok [])
                           sample_fs "sample.exe"))
                 = Some StaticAnalyzer.empty_headers
              /\ StaticAnalyzer.sr_imports
                   (fst (StaticAnalyzer.analyze_file (rt := exact_runtime)
                           (fun _ => "md5") (fun _ => "sha1") (fun _ => "sha256")
                           (fun _ => Ok injector_pe) (fun _ => Ok [])
                           sample_fs "sample.exe")) = Some []
              /\ StaticAnalyzer.sr_metadata
                   (fst (StaticAnalyzer.analyze_file (rt := exact_runtime)
                           (fun _ => "md5") (fun _ => "sha1") (fun _ => "sha256")
                           (fun _ => Ok injector_pe) (fun _ => Ok [])
                           sample_fs "sample.exe")) = Some [])).
Proof.
  apply (static_result_two_shapes
           (fun _ => "md5") (fun _ => "sha1") (fun _ => "sha256")
           (fun _ => Ok injector_pe) (fun _ => Ok []) sample_fs "sample.exe").
  reflexivity.
Defined.

Lemma extract_imports_table_witness :
  let imports_ :=
    [("kernel32.dll", ["ExitProcess"]); ("user32.dll", ["MessageBoxA"])] in
  StaticAnalyzer._extract_imports repeated_library_pe = Ok imports_
  /\ List.NoDup (dict_keys imports_)
  /\ length imports_ <= 3
  /\ In "user32.dll" (dict_keys imports_)
  /\ ~ In "advapi32.dll" (dict_keys imports_)
  /\ dict_get "kernel32.dll" imports_ = Some ["ExitProcess"]
  /\ dict_get "advapi32.dll" imports_ = None.
Proof.
  intros imports_.
  destruct (extract_imports_table repeated_library_pe imports_ eq_refl)
    as (Hnd & Hlen & Hkeys & Hget & _).
  split; [reflexivity|]. split; [exact Hnd|]. split; [exact Hlen|].
  split; [|split; [|split]].
  - apply Hkeys. eexists. split; [right; left; reflexivity | reflexivity].
  - rewrite Hkeys. intros (entry & Hin & Hdll).
    repeat (destruct Hin as [<-|Hin]; [discriminate Hdll|]). exact Hin.
  - rewrite Hget. reflexivity.
  - rewrite Hget. reflexivity.
Defined.

(** ** Inputs on which the specification's statements fail *)

(** The executable cut off inside its section has both signatures, and a
    section whose raw data ends beyond the end of the file; the header
    reader returns the object with that section. *)
Example truncated_exe_is_parsed :
  length truncated_exe = 528
  /\ bad_signature truncated_exe = false
  /\ truncated_structures truncated_exe = true
  /\ read_pe_headers truncated_exe = Ok truncated_pe.
Proof. repeat split; vm_compute; reflexivity. Qed.

(** C2, as stated, fails. A truncated file is not always refused by the
    parser: of the executable cut off inside its only section the headers
    are whole, the parser returns the object, and the analysis takes the
    full branch. Whatever the runtime, the hash functions and the JSON
    writer, its result carries no analysis note, so no reason string. *)
Lemma analyze_file_truncated_counterexample :
  ~ (exists (runtime : Runtime)
            (md5_hexdigest sha1_hexdigest sha256_hexdigest : bytes -> string)
            (json_dump : StaticAnalyzer.StaticResult -> PyResult bytes),
       forall (fs : gmap string File) (filepath : string) (f : File),
         fs !! filepath = Some f ->
         f_readable f = true ->
         f_data f <> [] ->
         not_a_valid_container (f_data f) = true ->
         exists (result : StaticAnalyzer.StaticResult) (fs' : gmap string File)
                (note : string),
           StaticAnalyzer.analyze_file (rt := runtime)
             md5_hexdigest sha1_hexdigest sha256_hexdigest read_pe_headers
             json_dump fs filepath = (result, fs')
           /\ StaticAnalyzer.sr_analysis_note result = Some note
           /\ note <> "").
Proof.
  intros (runtime & md5 & sha1 & sha256 & dump & claim).
  pose (f := mkFile true true truncated_exe).
  pose (fs := ({[ "truncated.exe" := f ]} : gmap string File)).
  destruct (claim fs "truncated.exe" f) as (result & fs' & note & Hrun & Hnote & _).
  - reflexivity.
  - reflexivity.
  - intros H. vm_compute in H. discriminate H.
  - vm_compute. reflexivity.
  - destruct truncated_exe_is_parsed as (_ & _ & _ & Hparse).
    pose proof (analyze_file_parsed (rt := runtime) md5 sha1 sha256
                  read_pe_headers dump fs "truncated.exe" truncated_exe
                  truncated_pe eq_refl) as H.
    specialize (H ltac:(intros E; vm_compute in E; discriminate E) Hparse).
    cbv zeta in H. rewrite Hrun in H. cbn [fst] in H.
    change (StaticAnalyzer._extract_imports _) with (Ok ([] : PyDict (list string))) in H.
    change (StaticAnalyzer._extract_metadata _) with (Ok ([] : PyDict string)) in H.
    cbv iota beta in H.
    destruct (StaticAnalyzer._check_suspicious_indicators _ _ _) as [ind|e].
    + destruct H as (_ & _ & _ & _ & _ & Hnone). congruence.
    + inversion H; subst. discriminate Hnote.
Qed.

(** C8, as stated, fails. A parsed container that imports both symbols
    but has a section whose name is not UTF-8 gets no assessment at all:
    the section name makes [_check_if_packed] raise, the static analysis
    returns an error, and the report is the error report. *)
Lemma suspicious_imports_counterexample :
  ~ (exists runtime : Runtime,
       forall (md5_hexdigest sha1_hexdigest sha256_hexdigest : bytes -> string)
              (pefile_parse : bytes -> PyResult StaticAnalyzer.PE)
              (json_dump : StaticAnalyzer.StaticResult -> PyResult bytes)
              (report_dump : PredictionEngine.Report -> PyResult bytes)
              (now_ts : Z) (now : string)
              (self : PredictionEngine.t) (fs fs' : gmap string File)
              (filepath : string) (data : bytes) (pe : StaticAnalyzer.PE)
              (report : PredictionEngine.Report),
         read_bytes fs filepath = Ok data ->
         pefile_parse data = Ok pe ->
         imports_include pe "CreateRemoteThread" ->
         imports_include pe "WriteProcessMemory" ->
         PredictionEngine.analyze_file (rt := runtime)
           md5_hexdigest sha1_hexdigest sha256_hexdigest pefile_parse json_dump
           report_dump now_ts now self fs filepath = (report, fs') ->
         exists (assessment : PredictionEngine.Assessment) (n : nat),
           PredictionEngine.rp_overall_assessment report = Some assessment
           /\ In ("Suspicious API imports: " ++ str_of_nat n)
                 (PredictionEngine.key_indicators assessment)).
Proof.
  intros (runtime & claim).
  pose (parse := fun _ : bytes => Ok latin1_section_pe).
  pose (run :=
          PredictionEngine.analyze_file (rt := runtime)
            (fun _ => "md5") (fun _ => "sha1") (fun _ => "sha256")
            parse (fun _ => Ok []) (fun _ => Ok [])
            1700000000 "2024-01-01T00:00:00" fresh_engine sample_fs "sample.exe").
  destruct (claim (fun _ => "md5") (fun _ => "sha1") (fun _ => "sha256")
              parse (fun _ => Ok []) (fun _ => Ok [])
              1700000000%Z "2024-01-01T00:00:00" fresh_engine sample_fs (snd run)
              "sample.exe" (list_byte_of_string "MZ sample") latin1_section_pe
              (fst run))
    as (assessment & n & Hassess & _).
  - reflexivity.
  - reflexivity.
  - eexists _, _, {| StaticAnalyzer.imp_name :=
                        Some (list_byte_of_string "CreateRemoteThread") |}.
    split; [reflexivity|]. split; [left; reflexivity|].
    split; [simpl; auto | reflexivity].
  - eexists _, _, {| StaticAnalyzer.imp_name :=
                        Some (list_byte_of_string "WriteProcessMemory") |}.
    split; [reflexivity|]. split; [left; reflexivity|].
    split; [simpl; auto | reflexivity].
  - apply surjective_pairing.
  - pose proof (analyze_file_parsed (rt := runtime)
                  (fun _ => "md5") (fun _ => "sha1") (fun _ => "sha256")
                  parse (fun _ => Ok []) sample_fs "sample.exe"
                  (list_byte_of_string "MZ sample") latin1_section_pe
                  eq_refl ltac:(discriminate) eq_refl) as Hstatic.
    cbv zeta in Hstatic.
    change (StaticAnalyzer._extract_imports latin1_section_pe)
      with (Ok [("kernel32.dll",
                 ["CreateRemoteThread"; "WriteProcessMemory"; "ExitProcess"])])
      in Hstatic.
    change (StaticAnalyzer._extract_metadata latin1_section_pe)
      with (Ok ([] : PyDict string)) in Hstatic.
    change (StaticAnalyzer._check_suspicious_indicators
              sample_fs latin1_section_pe "sample.exe")
      with (Raise (A := StaticAnalyzer.Indicators)
              (mkExc ValueError "'utf-8' codec can't decode bytes"))
      in Hstatic.
    cbv iota beta in Hstatic.
    pose proof (static_error_report (rt := runtime)
                  (fun _ => "md5") (fun _ => "sha1") (fun _ => "sha256")
                  parse (fun _ => Ok []) (fun _ => Ok [])
                  1700000000%Z "2024-01-01T00:00:00" fresh_engine sample_fs
                  "sample.exe" _ (f_equal (fun r => StaticAnalyzer.sr_error (fst r)) Hstatic))
      as Hreport.
    fold run in Hreport. rewrite Hreport in Hassess. discriminate Hassess.
Qed.
